(** * KSL keypoint trimming: a shallow embedding of [trim_sign_language_data.py]

    The development follows the Python module function by function:
    [load_morpheme_data], [get_frame_range], [process_sign_folder],
    [process_single_folder_wrapper] and [process_dataset].

    - Python [int] is [Z]; Python [float] is IEEE 754 binary64, taken from the
      Standard Library's executable specification [SpecFloat] at precision 53
      and maximal exponent 1024.
    - Python [str] is [string]: a sequence of characters, each standing for
      its code point; the development works with code points below 256.
    - Values decoded from JSON and stored in result dictionaries are [value]s;
      a result dictionary is a [gmap string value].
    - A raised exception is the [Raise] branch of [result]; code that touches
      the file system runs in the monad [M], which threads a [world]. *)

From Stdlib Require Import ZArith List Ascii String.
From Stdlib Require Import Floats.SpecFloat.
From stdpp Require Import base gmap strings list pretty.

Set Warnings "-register-all".

Local Open Scope string_scope.
Local Open Scope list_scope.
Local Open Scope Z_scope.

(** ** Exceptions and results *)

Module Py.

Inductive exn_class :=
| ZeroDivisionError | OverflowError | ValueError | TypeError
| KeyError | IndexError | JSONDecodeError
| FileNotFoundError | FileExistsError | PermissionError
| NotADirectoryError | IsADirectoryError | SameFileError.

(** An exception: its class and the text [str(e)] yields. *)
Record exn := Exn { exn_class_of : exn_class; exn_str : string }.

Inductive result (A : Type) :=
| Ok (a : A)
| Raise (e : exn).
Arguments Ok {A} a.
Arguments Raise {A} e.

#[global] Instance result_ret : MRet result := fun A a => Ok a.
#[global] Instance result_bind : MBind result := fun A B k r =>
  match r with
  | Ok a => k a
  | Raise e => Raise e
  end.

Definition raise {A} (c : exn_class) (msg : string) : result A :=
  Raise (Exn c msg).

Definition returns {A} (r : result A) : bool :=
  match r with Ok _ => true | Raise _ => false end.

(** ** Floats: IEEE 754 binary64 *)

Abbreviation float := spec_float.

Definition prec : Z := 53.
Definition emax : Z := 1024.

Definition fmul : float -> float -> float := SFmul prec emax.
Definition fdiv : float -> float -> float := SFdiv prec emax.
Definition feqb : float -> float -> bool := SFeqb.
Definition fleb : float -> float -> bool := SFleb.
Definition fltb : float -> float -> bool := SFltb.

(** The integer [z] read exactly, before any rounding. *)
Definition exact_of_int (z : Z) : float :=
  match z with
  | Z0 => S754_zero false
  | Zpos p => S754_finite false p 0
  | Zneg p => S754_finite true p 0
  end.

(** The integer [z] rounded to the nearest binary64, ties to even. *)
Definition round_int (z : Z) : float := binary_normalize prec emax z 0 false.

Definition fzero : float := S754_zero false.

Definition is_inf (f : float) : bool :=
  match f with S754_infinity _ => true | _ => false end.

(** [float(z)] for an [int]: rounds to nearest, raises when out of range. *)
Definition float_of_int (z : Z) : result float :=
  let f := round_int z in
  if is_inf f then raise OverflowError "int too large to convert to float"
  else Ok f.

(** [int(f)]: truncation toward zero. *)
Definition int_of_float (f : float) : result Z :=
  match f with
  | S754_nan => raise ValueError "cannot convert float NaN to integer"
  | S754_infinity _ => raise OverflowError "cannot convert float infinity to integer"
  | S754_zero _ => Ok 0
  | S754_finite s m e => Ok (cond_Zopp s (Z.shiftl (Zpos m) e))
  end.

(** ** Values *)

(** What [json.load] can produce, and what the result dictionaries hold. *)
Inductive value :=
| VNone
| VBool (b : bool)
| VInt (z : Z)
| VFloat (f : float)
| VStr (s : string)
| VList (l : list value)
| VDict (d : list (string * value)).

Definition type_name (v : value) : string :=
  match v with
  | VNone => "NoneType"
  | VBool _ => "bool"
  | VInt _ => "int"
  | VFloat _ => "float"
  | VStr _ => "str"
  | VList _ => "list"
  | VDict _ => "dict"
  end.

(** Truth value of an object, as [if x:] tests it. *)
Definition truthy (v : value) : bool :=
  match v with
  | VNone => false
  | VBool b => b
  | VInt z => negb (Z.eqb z 0)
  | VFloat f => negb (feqb f fzero)
  | VStr s => negb (String.eqb s "")
  | VList l => match l with [] => false | _ => true end
  | VDict d => match d with [] => false | _ => true end
  end.

Definition int_of_bool (b : bool) : Z := if b then 1 else 0.

(** [n / d] with [n] an [int]: true division. *)
Definition int_truediv (n : Z) (d : value) : result float :=
  let int_int (z : Z) :=
    if Z.eqb z 0 then raise ZeroDivisionError "division by zero"
    else
      let q := fdiv (exact_of_int n) (exact_of_int z) in
      if is_inf q then
        raise OverflowError "integer division result too large for a float"
      else Ok q in
  match d with
  | VFloat f =>
      a ← float_of_int n;
      if feqb f fzero then raise ZeroDivisionError "float division by zero"
      else Ok (fdiv a f)
  | VInt z => int_int z
  | VBool b => int_int (int_of_bool b)
  | _ => raise TypeError
           ("unsupported operand type(s) for /: 'int' and '" +:+ type_name d +:+ "'")
  end.

(** [x * f] with [f] a [float]. *)
Definition mul_float (x : value) (f : float) : result float :=
  match x with
  | VFloat a => Ok (fmul a f)
  | VInt z => a ← float_of_int z; Ok (fmul a f)
  | VBool b => a ← float_of_int (int_of_bool b); Ok (fmul a f)
  | VStr _ | VList _ =>
      raise TypeError "can't multiply sequence by non-int of type 'float'"
  | VNone | VDict _ =>
      raise TypeError
        ("unsupported operand type(s) for *: '" +:+ type_name x +:+ "' and 'float'")
  end.

End Py.
Export Py.

(** ** Strings and paths *)

Module Str.

Definition nl : string := String (ascii_of_nat 10) "".

(** [s.split(c)] for a one-character separator. *)
Fixpoint split_on (c : ascii) (s : string) : list string :=
  match s with
  | EmptyString => [""]
  | String a s' =>
      if Ascii.eqb a c then "" :: split_on c s'
      else match split_on c s' with
           | [] => [String a ""]
           | p :: ps => String a p :: ps
           end
  end.

(** [sep.join(l)]. *)
Fixpoint join (sep : string) (l : list string) : string :=
  match l with
  | [] => ""
  | [x] => x
  | x :: rest => x +:+ sep +:+ join sep rest
  end.

Definition startswith (s p : string) : bool := String.prefix p s.

(** [sub in s]. *)
Fixpoint contains (sub s : string) : bool :=
  String.prefix sub s ||
  match s with
  | EmptyString => false
  | String _ s' => contains sub s'
  end.

(** [s.rstrip(c)]. *)
Fixpoint rstrip (c : ascii) (s : string) : string :=
  match s with
  | EmptyString => ""
  | String a s' =>
      match rstrip c s' with
      | EmptyString => if Ascii.eqb a c then "" else String a ""
      | r => String a r
      end
  end.

Definition nonempty (s : string) : bool := negb (String.eqb s "").

Definition is_digit (a : ascii) : bool :=
  let n := N_of_ascii a in (48 <=? n)%N && (n <=? 57)%N.

Fixpoint all_chars (p : ascii -> bool) (s : string) : bool :=
  match s with
  | EmptyString => true
  | String a s' => p a && all_chars p s'
  end.

(** [c.isdigit()] for one character: the decimal digits and the
    superscript digits two, three and one (code points 178, 179, 185). *)
Definition is_unicode_digit (a : ascii) : bool :=
  let n := N_of_ascii a in
  is_digit a || (n =? 178)%N || (n =? 179)%N || (n =? 185)%N.

(** [s.isdigit()]. *)
Definition isdigit (s : string) : bool :=
  nonempty s && all_chars is_unicode_digit s.

Fixpoint repeat_char (a : ascii) (n : nat) : string :=
  match n with
  | O => ""
  | S n' => String a (repeat_char a n')
  end.

(** [f"{i:012d}"] for a non-negative [i]. *)
Definition format_012d (i : nat) : string :=
  let digits := pretty i in
  repeat_char "0" (12 - String.length digits) +:+ digits.

(** [sorted(l)] on strings: insertion sort by code unit order. *)
Fixpoint insert_sorted (x : string) (l : list string) : list string :=
  match l with
  | [] => [x]
  | y :: l' => if String.leb x y then x :: l else y :: insert_sorted x l'
  end.

Definition sorted (l : list string) : list string :=
  foldr insert_sorted [] l.

(** Order of characters by code point. *)
Definition ascii_leb (a b : ascii) : bool := (N_of_ascii a <=? N_of_ascii b)%N.

(** The first position at or after [from] where [s] holds [c]. *)
Fixpoint find_from (c : ascii) (from : nat) (s : list ascii) : option nat :=
  match s with
  | [] => None
  | a :: s' =>
      match from with
      | O => if Ascii.eqb a c then Some O else S <$> find_from c O s'
      | S n => S <$> find_from c n s'
      end
  end.

(** What [fnmatch.translate] makes of a pattern, piece by piece: [*], [?],
    a class that matches nothing, a literal character, and a character
    class with its single characters and its ranges. *)
Inductive glob_token :=
| TStar
| TAny
| TNever
| TLit (c : ascii)
| TSet (negated : bool) (singles : list ascii) (ranges : list (ascii * ascii)).

(** Where the class that opens before [pat] closes: a [!] and a [[]] right
    after the opening bracket do not close it. *)
Definition class_close (pat : list ascii) : option nat :=
  let j := match pat with "!"%char :: _ => 1%nat | _ => 0%nat end in
  let j := match pat !! j with Some "]"%char => S j | _ => j end in
  find_from "]" j pat.

(** The pieces of a class body between its range hyphens. A hyphen makes a
    range only [skip] characters into a piece: not at the start of the
    class, and not right after another range. *)
Fixpoint range_chunks (skip : nat) (cur : list ascii) (s : list ascii)
  : list (list ascii) :=
  match s with
  | [] => [cur]
  | c :: s' =>
      match skip with
      | S n => range_chunks n (cur ++ [c]) s'
      | O =>
          if Ascii.eqb c "-" then cur :: range_chunks 2 [] s'
          else range_chunks 0 (cur ++ [c]) s'
      end
  end.

(** A hyphen at the very end of the class stands for itself. *)
Definition close_chunks (chunks : list (list ascii)) : list (list ascii) :=
  match reverse chunks with
  | [] :: prev :: before => reverse ((prev ++ ["-"%char]) :: before)
  | _ => chunks
  end.

(** Ranges that run backwards are taken out with both their ends,
    starting from the right. *)
Fixpoint drop_empty_ranges (chunks : list (list ascii)) : list (list ascii) :=
  match chunks with
  | [] => []
  | c :: rest =>
      match drop_empty_ranges rest with
      | [] => [c]
      | d :: rest' =>
          match last c, head d with
          | Some x, Some y =>
              if ascii_leb x y then c :: d :: rest'
              else (removelast c ++ tail d) :: rest'
          | _, _ => c :: d :: rest'
          end
      end
  end.

(** The single characters and the ranges of the pieces: the last character
    of a piece and the first of the next one bound a range. *)
Fixpoint class_items (first : bool) (chunks : list (list ascii))
  : list ascii * list (ascii * ascii) :=
  match chunks with
  | [] => ([], [])
  | c :: rest =>
      let body := if first then c else tail c in
      match rest with
      | [] => (body, [])
      | d :: _ =>
          let '(singles, ranges) := class_items false rest in
          match last c, head d with
          | Some x, Some y => (removelast body ++ singles, (x, y) :: ranges)
          | _, _ => (body ++ singles, ranges)
          end
      end
  end.

(** The class with body [stuff]. A [!] at the head of the first piece
    negates the class; the hyphen that follows a first piece made of the
    [!] alone stands for itself. *)
Definition class_token (stuff : list ascii) : glob_token :=
  let chunks :=
    if existsb (Ascii.eqb "-") stuff then
      let skip := match stuff with "!"%char :: _ => 2%nat | _ => 1%nat end in
      drop_empty_ranges (close_chunks (range_chunks skip [] stuff))
    else [stuff] in
  match chunks with
  | [] | [[]] => TNever
  | ["!"%char :: []] => TAny
  | ("!"%char :: []) :: rest =>
      let '(singles, ranges) := class_items true rest in
      TSet true ("-"%char :: singles) ranges
  | ("!"%char :: c) :: rest =>
      let '(singles, ranges) := class_items true (c :: rest) in
      TSet true singles ranges
  | _ =>
      let '(singles, ranges) := class_items true chunks in
      TSet false singles ranges
  end.

(** The pieces of a pattern; an opening bracket that is never closed stands
    for itself. Each step takes at least one character of the pattern, so
    its length is fuel enough. *)
Fixpoint glob_tokens (fuel : nat) (pat : list ascii) : list glob_token :=
  match fuel, pat with
  | S fuel', c :: pat' =>
      if Ascii.eqb c "*" then TStar :: glob_tokens fuel' pat'
      else if Ascii.eqb c "?" then TAny :: glob_tokens fuel' pat'
      else if Ascii.eqb c "[" then
        match class_close pat' with
        | None => TLit "[" :: glob_tokens fuel' pat'
        | Some j => class_token (take j pat') :: glob_tokens fuel' (drop (S j) pat')
        end
      else TLit c :: glob_tokens fuel' pat'
  | _, _ => []
  end.

(** One character against one piece. *)
Definition token_ok (t : glob_token) (d : ascii) : bool :=
  match t with
  | TStar | TAny => true
  | TNever => false
  | TLit c => Ascii.eqb c d
  | TSet negated singles ranges =>
      xorb negated
        (existsb (Ascii.eqb d) singles
         || existsb (fun r => ascii_leb (fst r) d && ascii_leb d (snd r)) ranges)
  end.

(** A whole name against the pieces. *)
Fixpoint match_tokens (ts : list glob_token) (s : list ascii) {struct ts} : bool :=
  match ts with
  | [] => match s with [] => true | _ => false end
  | TStar :: ts' =>
      (fix star (s : list ascii) : bool :=
         match_tokens ts' s ||
         match s with
         | [] => false
         | _ :: s' => star s'
         end) s
  | t :: ts' =>
      match s with
      | [] => false
      | d :: s' => token_ok t d && match_tokens ts' s'
      end
  end.

(** [fnmatch.fnmatchcase(name, pat)], which on POSIX is [fnmatch.fnmatch]. *)
Definition fnmatch (name pat : string) : bool :=
  let p := list_ascii_of_string pat in
  match_tokens (glob_tokens (length p) p) (list_ascii_of_string name).

(** [glob.has_magic(s)]. *)
Definition has_magic (s : string) : bool :=
  existsb (fun c => Ascii.eqb c "*" || Ascii.eqb c "?" || Ascii.eqb c "[")
    (list_ascii_of_string s).

Fixpoint endswith_char (s : string) (c : ascii) : bool :=
  match s with
  | EmptyString => false
  | String a EmptyString => Ascii.eqb a c
  | String _ s' => endswith_char s' c
  end.

(** [os.path.join(a, b)]. *)
Definition path_join (a b : string) : string :=
  if startswith b "/" then b
  else if negb (nonempty a) || endswith_char a "/" then a +:+ b
  else a +:+ "/" +:+ b.

(** [os.path.basename(p)]. *)
Definition path_basename (p : string) : string :=
  List.last (split_on "/" p) "".

(** [os.path.split(p)]. *)
Definition path_split (p : string) : string * string :=
  let comps := split_on "/" p in
  let tail := List.last comps "" in
  let head :=
    match List.removelast comps with
    | [] => ""
    | front => join "/" front +:+ "/"
    end in
  let head := if nonempty (rstrip "/" head) then rstrip "/" head else head in
  (head, tail).

(** [os.path.normpath(path)]:
<<
    if not path:
        return '.'
    initial_slashes = path.startswith('/')
    if (initial_slashes and
        path.startswith('//') and not path.startswith('///')):
        initial_slashes = 2
    comps = path.split('/')
    new_comps = []
    for comp in comps:
        if comp in ('', '.'):
            continue
        if (comp != '..' or (not initial_slashes and not new_comps) or
             (new_comps and new_comps[-1] == '..')):
            new_comps.append(comp)
        elif new_comps:
            new_comps.pop()
    comps = new_comps
    path = '/'.join(comps)
    if initial_slashes:
        path = '/'*initial_slashes + path
    return path or '.'
>>
    [new_comps] is kept with its last component first. *)
Definition normpath (path : string) : string :=
  if negb (nonempty path) then "."
  else
    let initial_slashes :=
      if startswith path "/" then
        if startswith path "//" && negb (startswith path "///") then 2%nat
        else 1%nat
      else 0%nat in
    let new_comps :=
      foldl (fun new_comps comp =>
               if String.eqb comp "" || String.eqb comp "." then new_comps
               else if negb (String.eqb comp "..")
                       || ((initial_slashes =? 0)%nat
                           && match new_comps with [] => true | _ => false end)
                       || match new_comps with
                          | last :: _ => String.eqb last ".."
                          | [] => false
                          end
                    then comp :: new_comps
                    else List.tl new_comps)
            [] (split_on "/" path) in
    let path := repeat_char "/" initial_slashes +:+ join "/" (rev new_comps) in
    if nonempty path then path else ".".

End Str.
Export Str.

(** ** The file system and the world a run sees *)

Module Os.

(** A regular file holds either a JSON document, kept as the value
    [json.load] decodes it to, or text that is no JSON document, kept with
    the exception [json.load] raises on it. *)
Inductive file_data :=
| JsonFile (v : value)
| TextFile (text : string) (decode_error : exn).

(** What [json.load] raises on text that does not begin with a JSON value,
    as the error report and an empty file do not. *)
Definition no_json_value : exn :=
  Exn JSONDecodeError "Expecting value: line 1 column 1 (char 0)".

(** A directory keeps the names of its entries in the order the operating
    system lists them, which need not be sorted. *)
Inductive node :=
| File (data : file_data)
| Dir (names : list string).

(** The calls with an effect outside the process. *)
Inductive event :=
| EvMakedirs (path : string)
| EvCopy (src dst : string)
| EvWrite (path : string)
| EvPool (processes : Z).

#[global] Instance event_eq_dec : EqDecision event.
Proof. solve_decision. Defined.

(** The file system maps the name of a node to the node. The working
    directory has the empty name, the root the name [/], and an entry of a
    directory the directory's name, a slash and its own. *)
Record world := World {
  fs : gmap string node;       (* path to node *)
  readonly : gset string;      (* directories that refuse writes below them *)
  cores : Z;                   (* what [mp.cpu_count()] returns *)
  clock : string;              (* [datetime.now()], formatted *)
  trace : list event           (* effectful calls issued so far, oldest first *)
}.

Definition with_fs (w : world) (m : gmap string node) : world :=
  World m (readonly w) (cores w) (clock w) (trace w).

(** Code with effects: a state transformer that may raise. *)
Definition M (A : Type) : Type := world -> result A * world.

#[global] Instance M_ret : MRet M := fun A a w => (Ok a, w).
#[global] Instance M_bind : MBind M := fun A B k m w =>
  match m w with
  | (Ok a, w') => k a w'
  | (Raise e, w') => (Raise e, w')
  end.

Definition lift {A} (r : result A) : M A := fun w => (r, w).
Definition ask : M world := fun w => (Ok w, w).
Definition emit (e : event) : M unit := fun w =>
  (Ok tt, World (fs w) (readonly w) (cores w) (clock w) (trace w ++ [e])).

(** [try: body  except Exception as e: handler(e)]. *)
Definition try_except {A} (body : M A) (handler : exn -> M A) : M A := fun w =>
  match body w with
  | (Ok a, w') => (Ok a, w')
  | (Raise e, w') => handler e w'
  end.

Definition os_error {A} (c : exn_class) (what path : string) : result A :=
  raise c (what +:+ ": '" +:+ path +:+ "'").

Definition no_such_file {A} (p : string) : result A :=
  os_error FileNotFoundError "[Errno 2] No such file or directory" p.
Definition not_a_directory {A} (p : string) : result A :=
  os_error NotADirectoryError "[Errno 20] Not a directory" p.
Definition is_a_directory {A} (p : string) : result A :=
  os_error IsADirectoryError "[Errno 21] Is a directory" p.

(** The name of the node a path leads to. Trailing slashes are resolved as
    the kernel resolves them: they are dropped, and what is left has to be
    a directory. The components are otherwise taken as they are written. *)
Definition os_key (p : string) : string :=
  let r := rstrip "/" p in
  if nonempty r then r else if nonempty p then "/" else "".

Definition wants_dir (p : string) : bool := negb (String.eqb (os_key p) p).

(** The directory that holds the node named [key], and the node's name in
    it. *)
Definition parent_key (key : string) : string := os_key (fst (path_split key)).
Definition entry_name (key : string) : string := snd (path_split key).

(** Whether the nearest ancestor of [key] that exists is a regular file. *)
Fixpoint under_file (fuel : nat) (w : world) (key : string) : bool :=
  let parent := parent_key key in
  match fs w !! parent with
  | Some (File _) => true
  | Some (Dir _) => false
  | None =>
      match fuel with
      | O => false
      | S fuel' => negb (String.eqb parent key) && under_file fuel' w parent
      end
  end.

(** What a path that leads to no node fails with. *)
Definition missing {A} (w : world) (p : string) : result A :=
  if under_file (String.length p) w (os_key p) then not_a_directory p
  else no_such_file p.

(** [os.stat(p)], as far as the node goes. *)
Definition stat (w : world) (p : string) : result node :=
  if negb (nonempty p) then no_such_file p
  else
    match fs w !! os_key p with
    | Some (Dir names) => Ok (Dir names)
    | Some (File data) => if wants_dir p then not_a_directory p else Ok (File data)
    | None => missing w p
    end.

(** [os.path.exists(p)]. *)
Definition path_exists (w : world) (p : string) : bool := returns (stat w p).

(** [os.path.isdir(p)]. *)
Definition path_isdir (w : world) (p : string) : bool :=
  match stat w p with Ok (Dir _) => true | _ => false end.

(** [os.listdir(p)]. *)
Definition listdir (w : world) (p : string) : result (list string) :=
  match stat w p with
  | Ok (Dir names) => Ok names
  | Ok (File _) => not_a_directory p
  | Raise e => Raise e
  end.

Definition is_hidden (name : string) : bool := startswith name ".".

(** [glob._listdir(dirname, None, dironly)]: the entries of [dirname], or of
    the working directory when [dirname] is empty, in listing order; none
    when the directory cannot be listed. *)
Definition glob_listdir (w : world) (dirname : string) (dironly : bool)
  : list string :=
  let names :=
    if nonempty dirname then
      match listdir w dirname with Ok names => names | Raise _ => [] end
    else
      match fs w !! "" with Some (Dir names) => names | _ => [] end in
  if dironly then List.filter (fun x => path_isdir w (path_join dirname x)) names
  else names.

(** [glob._glob1]: the entries of [dirname] that match [pattern]. *)
Definition glob1 (w : world) (dirname pattern : string) (dironly : bool)
  : list string :=
  let names := glob_listdir w dirname dironly in
  let names :=
    if is_hidden pattern then names
    else List.filter (fun x => negb (is_hidden x)) names in
  List.filter (fun x => fnmatch x pattern) names.

(** [glob._glob0]: [basename] itself, when it is there. *)
Definition glob0 (w : world) (dirname basename : string) (dironly : bool)
  : list string :=
  if nonempty basename then
    if path_exists w (path_join dirname basename) then [basename] else []
  else
    if path_isdir w dirname then [basename] else [].

(** [glob._iglob(pathname, '', None, False, dironly)]:
<<
    dirname, basename = os.path.split(pathname)
    if not has_magic(pathname):
        if basename:
            if _lexists(_join(root_dir, pathname), dir_fd):
                yield pathname
        else:
            if _isdir(_join(root_dir, dirname), dir_fd):
                yield pathname
        return
    if not dirname:
        yield from _glob1(root_dir, basename, dir_fd, dironly)
        return
    if dirname != pathname and has_magic(dirname):
        dirs = _iglob(dirname, root_dir, dir_fd, recursive, True)
    else:
        dirs = [dirname]
    if has_magic(basename):
        glob_in_dir = _glob1
    else:
        glob_in_dir = _glob0
    for dirname in dirs:
        for name in glob_in_dir(_join(root_dir, dirname), basename, dir_fd, dironly):
            yield os.path.join(dirname, name)
>>
    The inner call is on the directory part, which is shorter than the
    pathname, so the length of the pathname is fuel enough. *)
Fixpoint iglob (fuel : nat) (w : world) (pathname : string) (dironly : bool)
  : list string :=
  let '(dirname, basename) := path_split pathname in
  if negb (has_magic pathname) then
    if nonempty basename then
      if path_exists w pathname then [pathname] else []
    else
      if path_isdir w dirname then [pathname] else []
  else if negb (nonempty dirname) then glob1 w "" basename dironly
  else
    let dirs :=
      if negb (String.eqb dirname pathname) && has_magic dirname then
        match fuel with
        | O => []
        | S fuel' => iglob fuel' w dirname true
        end
      else [dirname] in
    let glob_in_dir := if has_magic basename then glob1 w else glob0 w in
    dirs ≫= fun dirname =>
      path_join dirname <$> glob_in_dir dirname basename dironly.

(** [glob.glob(pathname)]. *)
Definition glob (w : world) (pathname : string) : list string :=
  iglob (String.length pathname) w pathname false.

(** Put [name] into the listing of directory [parent]. *)
Definition add_entry (parent name : string) (m : gmap string node)
  : gmap string node :=
  match m !! parent with
  | Some (Dir names) =>
      if bool_decide (name ∈ names) then m
      else <[parent := Dir (names ++ [name])]> m
  | _ => m
  end.

(** What stands in the way of creating or writing the entry [p]. *)
Definition check_writable (w : world) (p : string) : result unit :=
  let parent := parent_key (os_key p) in
  match fs w !! parent with
  | None => missing w p
  | Some (File _) => not_a_directory p
  | Some (Dir _) =>
      if bool_decide (parent ∈ readonly w) then
        os_error PermissionError "[Errno 13] Permission denied" p
      else Ok tt
  end.

(** [os.mkdir(p)]. *)
Definition mkdir (p : string) : M unit := fun w =>
  if negb (nonempty p) then (no_such_file p, w)
  else
    let key := os_key p in
    match fs w !! key with
    | Some _ => (os_error FileExistsError "[Errno 17] File exists" p, w)
    | None =>
        match check_writable w p with
        | Raise e => (Raise e, w)
        | Ok _ =>
            (Ok tt,
             with_fs w (<[key := Dir []]>
                          (add_entry (parent_key key) (entry_name key) (fs w))))
        end
    end.

(** [mkdir(name)] inside [try: ... except OSError: if not path.isdir(name):
    raise]. *)
Definition mkdir_exist_ok (name : string) : M unit :=
  try_except (mkdir name)
    (fun e w => if path_isdir w name then (Ok tt, w) else (Raise e, w)).

(** [os.makedirs(name, exist_ok=True)]:
<<
    head, tail = path.split(name)
    if not tail:
        head, tail = path.split(head)
    if head and tail and not path.exists(head):
        try:
            makedirs(head, exist_ok=exist_ok)
        except FileExistsError:
            pass
        if tail == curdir:
            return
    try:
        mkdir(name, mode)
    except OSError:
        if not exist_ok or not path.isdir(name):
            raise
>>
    The inner call is on [head], which is shorter than [name], so the
    length of the name is fuel enough. *)
Fixpoint makedirs_from (fuel : nat) (name : string) : M unit :=
  let '(head, tail) := path_split name in
  let '(head, tail) := if nonempty tail then (head, tail) else path_split head in
  w ← ask;
  if nonempty head && nonempty tail && negb (path_exists w head) then
    match fuel with
    | O => mkdir_exist_ok name
    | S fuel' =>
        try_except (makedirs_from fuel' head)
          (fun e =>
             match exn_class_of e with
             | FileExistsError => mret tt
             | _ => lift (Raise e)
             end) ;;
        if String.eqb tail "." then mret tt else mkdir_exist_ok name
    end
  else mkdir_exist_ok name.

Definition makedirs (name : string) : M unit :=
  emit (EvMakedirs name) ;;
  makedirs_from (String.length name) name.

(** Open [p] for writing and store [data] there. *)
Definition write_file (p : string) (data : file_data) : M unit := fun w =>
  if negb (nonempty p) then (no_such_file p, w)
  else
    match check_writable w p with
    | Raise e => (Raise e, w)
    | Ok _ =>
        if wants_dir p || path_isdir w p then (is_a_directory p, w)
        else
          (Ok tt,
           with_fs w (<[p := File data]>
                        (add_entry (parent_key p) (entry_name p) (fs w))))
    end.

(** Open [p] for reading. *)
Definition read_file (w : world) (p : string) : result file_data :=
  match stat w p with
  | Ok (File data) => Ok data
  | Ok (Dir _) => is_a_directory p
  | Raise e => Raise e
  end.

(** [shutil.copy2(src, dst)]: content and metadata of [src] go to [dst], or
    into [dst] when that is a directory. *)
Definition copy2 (src dst : string) : M unit :=
  emit (EvCopy src dst) ;;
  w ← ask;
  let dst := if path_isdir w dst then path_join dst (path_basename src) else dst in
  if String.eqb src dst && path_exists w src then
    lift (raise SameFileError
            ("'" +:+ src +:+ "' and '" +:+ dst +:+ "' are the same file"))
  else
    data ← lift (read_file w src);
    write_file dst data.

End Os.
Export Os.

(** ** Metadata Reader *)

(** [container[key]] for the containers and keys JSON decoding yields. *)
Definition getitem (container key : value) : result value :=
  match container, key with
  | VDict d, VStr k =>
      match List.find (fun kv => String.eqb (fst kv) k) d with
      | Some kv => Ok (snd kv)
      | None => raise KeyError ("'" +:+ k +:+ "'")
      end
  | VDict _, VInt i => raise KeyError (pretty i)
  | VList l, VInt i =>
      let n := Z.of_nat (length l) in
      let i := if i <? 0 then i + n else i in
      if (i <? 0) || (n <=? i) then raise IndexError "list index out of range"
      else match l !! Z.to_nat i with
           | Some v => Ok v
           | None => raise IndexError "list index out of range"
           end
  | VList _, _ =>
      raise TypeError
        ("list indices must be integers or slices, not " +:+ type_name key)
  | VStr t, VInt i =>
      let n := Z.of_nat (String.length t) in
      let i := if i <? 0 then i + n else i in
      if (i <? 0) || (n <=? i) then raise IndexError "string index out of range"
      else match String.get (Z.to_nat i) t with
           | Some a => Ok (VStr (String a ""))
           | None => raise IndexError "string index out of range"
           end
  | VStr _, _ =>
      raise TypeError
        ("string indices must be integers, not '" +:+ type_name key +:+ "'")
  | _, _ =>
      raise TypeError ("'" +:+ type_name container +:+ "' object is not subscriptable")
  end.

(** [json.load] on an open file. *)
Definition json_load (data : file_data) : result value :=
  match data with
  | JsonFile v => Ok v
  | TextFile _ e => Raise e
  end.

(** [load_morpheme_data] (source lines 39-56).
<<
    with open(morpheme_path, 'r', encoding='utf-8') as f:
        data = json.load(f)
    start_time = data['data'][0]['start']
    end_time = data['data'][0]['end']
    duration = data['metaData']['duration']
    return start_time, end_time, duration
>> *)
Definition load_morpheme_data (w : world) (morpheme_path : string)
  : result (value * value * value) :=
  f ← read_file w morpheme_path;
  data ← json_load f;
  start_time ←
    (getitem data (VStr "data") ≫= fun x =>
     getitem x (VInt 0) ≫= fun x => getitem x (VStr "start"));
  end_time ←
    (getitem data (VStr "data") ≫= fun x =>
     getitem x (VInt 0) ≫= fun x => getitem x (VStr "end"));
  duration ←
    (getitem data (VStr "metaData") ≫= fun x => getitem x (VStr "duration"));
  Ok (start_time, end_time, duration).

(** ** Frame Range Calculator *)

(** [get_frame_range] (source lines 59-83).
<<
    fps = total_frames / duration
    start_frame = int(start_time * fps) - offset
    end_frame = int(end_time * fps) + offset
    start_frame = max(0, start_frame)
    end_frame = min(total_frames - 1, end_frame)
    return start_frame, end_frame
>> *)
Definition get_frame_range (start_time end_time duration : value)
    (total_frames : Z) (offset : Z) : result (Z * Z) :=
  fps ← int_truediv total_frames duration;
  x ← mul_float start_time fps;
  a ← int_of_float x;
  let start_frame := a - offset in
  y ← mul_float end_time fps;
  b ← int_of_float y;
  let end_frame := b + offset in
  let start_frame := Z.max 0 start_frame in
  let end_frame := Z.min (total_frames - 1) end_frame in
  Ok (start_frame, end_frame).

(** The default of the [offset] parameter. *)
Definition default_offset : Z := 10.



(** ** Folder Processor *)

(** A result dictionary. *)
Abbreviation dict := (gmap string value).

(** [range(start, stop)]. *)
Definition py_range (start stop : Z) : list Z := seqZ start (stop - start).

(** [enumerate(l)]. *)
Definition enumerate {A} (l : list A) : list (nat * A) :=
  imap (fun i x => (i, x)) l.

(** [l[i]] on a list of strings. *)
Definition list_getitem (l : list string) (i : Z) : result string :=
  let n := Z.of_nat (length l) in
  let i := if i <? 0 then i + n else i in
  if (i <? 0) || (n <=? i) then raise IndexError "list index out of range"
  else match l !! Z.to_nat i with
       | Some x => Ok x
       | None => raise IndexError "list index out of range"
       end.

(** [parts[-2] = x]. *)
Definition set_second_last (parts : list string) (x : string)
  : result (list string) :=
  if (length parts <? 2)%nat then
    raise IndexError "list assignment index out of range"
  else Ok (<[(length parts - 2)%nat := x]> parts).

Definition view_codes : list string := ["F"; "D"; "L"; "R"; "U"].

(** The scan of the name's parts (source lines 109-116): of several matching
    parts the last one stays. *)
Definition scan_parts (parts : list string) : option string * option string :=
  foldl (fun '(word_num, view_dir) part =>
           (if startswith part "WORD" then Some part else word_num,
            if bool_decide (part ∈ view_codes) then Some part else view_dir))
        (None, None) parts.

(** The copy loop (source lines 161-176), from a given [copied_count]. *)
Fixpoint copy_frames (dry_run : bool) (keypoint_files : list string)
    (output_folder : string) (frames : list (nat * Z)) (copied_count : Z)
  : M Z :=
  match frames with
  | [] => mret copied_count
  | (i, frame_idx) :: rest =>
      src_file ← lift (list_getitem keypoint_files frame_idx);
      (if negb dry_run then
         let base_name := path_basename src_file in
         let parts := split_on "_" base_name in
         parts ← lift (set_second_last parts (format_012d i));
         let new_name := join "_" parts in
         let dst_file := path_join output_folder new_name in
         copy2 src_file dst_file
       else mret tt) ;;
      copy_frames dry_run keypoint_files output_folder rest (copied_count + 1)
  end.

(** [{'skipped': True, 'reason': 'Not F view'}]. *)
Definition skipped_dict : dict :=
  {[ "skipped" := VBool true; "reason" := VStr "Not F view" ]}.

(** [{'error': msg}]. *)
Definition error_dict (msg : string) : dict := {[ "error" := VStr msg ]}.

(** The result dictionary of a processed folder (source lines 178-188). *)
Definition success_dict (folder_name : string) (total_frames start_frame end_frame : Z)
    (start_time end_time : value) : dict :=
  let frames_to_keep := end_frame - start_frame + 1 in
  <["success" := VBool true]>
  (<["folder" := VStr folder_name]>
  (<["total_frames" := VInt total_frames]>
  (<["start_frame" := VInt start_frame]>
  (<["end_frame" := VInt end_frame]>
  (<["kept_frames" := VInt frames_to_keep]>
  (<["trimmed_frames" := VInt (total_frames - frames_to_keep)]>
  (<["start_time" := start_time]>
  (<["end_time" := end_time]> ∅)))))))).

(** [process_sign_folder] once the metadata file is chosen
    (source lines 137-188). *)
Definition trim_folder (folder_name keypoint_folder output_base : string)
    (dry_run : bool) (morpheme_file : string) : M dict :=
  w ← ask;
  let keypoint_files :=
    sorted (glob w (path_join keypoint_folder "*_keypoints.json")) in
  let total_frames := Z.of_nat (length keypoint_files) in
  if total_frames =? 0 then
    mret (error_dict "No keypoint files found")
  else
    match load_morpheme_data w morpheme_file with
    | Raise e =>
        mret (error_dict ("Error loading morpheme data: " +:+ exn_str e))
    | Ok (start_time, end_time, duration) =>
        '(start_frame, end_frame) ←
          lift (get_frame_range start_time end_time duration
                  total_frames default_offset);
        let output_folder := path_join output_base folder_name in
        (if negb dry_run then makedirs output_folder else mret tt) ;;
        copied_count ←
          copy_frames dry_run keypoint_files output_folder
            (enumerate (py_range start_frame (end_frame + 1))) 0;
        mret (success_dict folder_name total_frames start_frame end_frame
                start_time end_time)
    end.

(** The glob pattern of a folder's metadata file (source line 123). *)
Definition morpheme_pattern_of (morpheme_folder word_num view_dir : string) : string :=
  path_join morpheme_folder
    ("NIA_SL_" +:+ word_num +:+ "_REAL*_" +:+ view_dir +:+ "_morpheme.json").

(** [process_sign_folder] (source lines 86-188). *)
Definition process_sign_folder (keypoint_folder morpheme_folder output_base : string)
    (dry_run : bool) : M dict :=
  let folder_name := path_basename keypoint_folder in
  if negb (contains "_F" folder_name) then
    mret skipped_dict
  else
    let parts := split_on "_" folder_name in
    match scan_parts parts with
    | (Some word_num, Some view_dir) =>
        let morpheme_pattern :=
          morpheme_pattern_of morpheme_folder word_num view_dir in
        w ← ask;
        let morpheme_files := glob w morpheme_pattern in
        match morpheme_files with
        | [] =>
            mret (error_dict ("Morpheme file not found with pattern: "
                              +:+ morpheme_pattern))
        | morpheme_file :: _ =>
            trim_folder folder_name keypoint_folder output_base dry_run
              morpheme_file
        end
    | _ => mret (error_dict ("Cannot parse folder name: " +:+ folder_name))
    end.

(** ** Dataset Orchestrator *)

Definition task : Type := string * string * string * bool.

(** [process_single_folder_wrapper] (source lines 191-194). *)
Definition process_single_folder_wrapper (args : task) : M dict :=
  let '(keypoint_folder, morpheme_folder, output_folder_base, dry_run) := args in
  process_sign_folder keypoint_folder morpheme_folder output_folder_base dry_run.

(** One round of the discovery loop (source lines 230-257). *)
Definition folder_tasks (w : world) (keypoint_base morpheme_base output_base : string)
    (dry_run : bool) (folder_num : string) : list task :=
  let keypoint_folder_base := path_join keypoint_base folder_num in
  let morpheme_folder := path_join morpheme_base folder_num in
  if negb (path_exists w morpheme_folder) then []
  else if negb (path_exists w keypoint_folder_base) then []
  else
    match listdir w keypoint_folder_base with
    | Raise _ => []
    | Ok names =>
        let all_folders :=
          sorted (List.filter
                    (fun d => path_isdir w (path_join keypoint_folder_base d))
                    names) in
        let f_folders := List.filter (contains "_F") all_folders in
        (fun folder =>
           (path_join keypoint_folder_base folder, morpheme_folder,
            path_join output_base folder_num, dry_run)) <$> f_folders
    end.

(** The jobs one after the other, in task order; a job that raises ends
    the iteration. *)
Fixpoint run_jobs (all_tasks : list task) : M (list dict) :=
  match all_tasks with
  | [] => mret []
  | t :: rest =>
      r ← process_single_folder_wrapper t;
      rs ← run_jobs rest;
      mret (r :: rs)
  end.

(** [mp.Pool(processes)]. *)
Definition pool_open (processes : Z) : M unit :=
  emit (EvPool processes) ;;
  if processes <? 1 then
    lift (raise ValueError "Number of processes must be at least 1")
  else mret tt.

(** [str(v)] as the report lines need it. *)
Definition str_of (v : value) : string :=
  match v with
  | VStr s => s
  | VInt z => pretty z
  | VBool b => if b then "True" else "False"
  | VNone => "None"
  | _ => "<" +:+ type_name v +:+ ">"
  end.

(** [d.get(k)] followed by a truth test. *)
Definition get_truthy (d : dict) (k : string) : bool :=
  match d !! k with
  | Some v => truthy v
  | None => false
  end.

Record summary := Summary {
  success_count : Z;
  skip_count : Z;
  error_count : Z;
  error_list : list string;
  all_stats : list dict
}.

(** One round of the collection loop (source lines 282-293). *)
Definition collect (acc : summary) (result : dict) : summary :=
  if get_truthy result "skipped" then
    Summary (success_count acc) (skip_count acc + 1) (error_count acc)
            (error_list acc) (all_stats acc)
  else if get_truthy result "error" then
    let folder_name := default (VStr "Unknown") (result !! "folder") in
    let error_msg :=
      str_of folder_name +:+ ": " +:+ str_of (default VNone (result !! "error")) in
    Summary (success_count acc) (skip_count acc) (error_count acc + 1)
            (error_list acc ++ [error_msg]) (all_stats acc)
  else if get_truthy result "success" then
    Summary (success_count acc + 1) (skip_count acc) (error_count acc)
            (error_list acc) (all_stats acc ++ [result])
  else acc.

(** The text of the error report (source lines 315-320). *)
Definition error_report (now : string) (errors : list string) : string :=
  "Korean Sign Language Data Preprocessing - Error Log" +:+ nl +:+
  "Timestamp: " +:+ now +:+ nl +:+
  repeat_char "=" 80 +:+ nl +:+
  "Total errors: " +:+ pretty (length errors) +:+ nl +:+ nl +:+
  String.concat "" ((fun e => e +:+ nl) <$> errors).

(** [process_dataset] (source lines 197-321); console output and log
    records are left out, and the counters the function prints are what
    it returns here. *)
Definition process_dataset (data_root output_base : string) (dry_run : bool)
    (error_log_path : option string) (use_multiprocessing : bool)
    (num_workers : option Z) : M summary :=
  let keypoint_base :=
    foldl path_join data_root ["Training"; "Labeled"; "REAL"; "WORD"] in
  let morpheme_base := path_join keypoint_base "morpheme" in
  w ← ask;
  names ← lift (listdir w keypoint_base);
  let numbered_folders :=
    sorted (List.filter
              (fun d => path_isdir w (path_join keypoint_base d) && isdigit d)
              names) in
  let all_tasks :=
    numbered_folders ≫=
      folder_tasks w keypoint_base morpheme_base output_base dry_run in
  results ←
    (if use_multiprocessing && negb dry_run then
       let num_workers :=
         match num_workers with
         | None => Z.max 1 (cores w - 1)
         | Some n => n
         end in
       pool_open num_workers ;;
       run_jobs all_tasks
     else
       run_jobs all_tasks);
  let acc := foldl collect (Summary 0 0 0 [] []) results in
  (match error_log_path, error_list acc with
   | Some path, _ :: _ =>
       if nonempty path then
         w ← ask;
         emit (EvWrite path) ;;
         write_file path
           (TextFile (error_report (clock w) (error_list acc)) no_json_value)
       else mret tt
   | _, _ => mret tt
   end) ;;
  mret acc.


(** ** Command line *)

(** The parsed arguments (source lines 345-364). *)
Record cli_args := Args {
  args_data_root : string;
  args_output : string;
  args_dry_run : bool;
  args_error_log : string;
  args_multiprocessing : bool;
  args_workers : option Z;
  args_log_file : string
}.

(** [logging.FileHandler(p)]: the handler keeps [os.path.abspath(p)], the
    normalised path, a relative one being read from the working directory
    as everywhere; the file of that name is opened for appending, and made
    when it is not there. The records written to it later are left out. *)
Definition open_append (p : string) : M unit :=
  emit (EvWrite p) ;;
  w ← ask;
  let name := normpath p in
  match stat w name with
  | Ok (File _) => lift (check_writable w name)
  | Ok (Dir _) => lift (is_a_directory name)
  | Raise _ => write_file name (TextFile "" no_json_value)
  end.

(** [setup_logging] (source lines 22-36). *)
Definition setup_logging (log_file : option string) : M unit :=
  match log_file with
  | Some p => if nonempty p then open_append p else mret tt
  | None => mret tt
  end.

(** [main] (source lines 324-416), from the parsed arguments on; console
    output and log records are left out. *)
Definition main (args : cli_args) : M unit :=
  setup_logging (if negb (args_dry_run args) then Some (args_log_file args)
                 else None) ;;
  w ← ask;
  if negb (path_exists w (args_data_root args)) then mret tt
  else
    let word_dir :=
      foldl path_join (args_data_root args)
        ["Training"; "Labeled"; "REAL"; "WORD"] in
    if negb (path_exists w word_dir) then mret tt
    else
      (if negb (args_dry_run args) then makedirs (args_output args)
       else mret tt) ;;
      process_dataset (args_data_root args) (args_output args)
        (args_dry_run args) (Some (args_error_log args))
        (args_multiprocessing args) (args_workers args) ;;
      mret tt.

(** ** Vocabulary of the properties *)

(** Every run of [m] relates the world before to the world after by [R],
    whether it returns or raises. *)
Definition keeps (R : world -> world -> Prop) {A} (m : M A) : Prop :=
  forall w r w', m w = (r, w') -> R w w'.

Definition unchanged (w w' : world) : Prop := w' = w.

Definition same_trace (w w' : world) : Prop := trace w' = trace w.

(** The calls issued between [w] and [w'] all satisfy [P]. *)
Definition emits (P : event -> Prop) (w w' : world) : Prop :=
  exists t, trace w' = trace w ++ t /\ Forall P t.

(** No regular file appears, disappears or changes. *)
Definition same_files (w w' : world) : Prop :=
  forall p data, fs w' !! p = Some (File data) <-> fs w !! p = Some (File data).

Definition is_copy (e : event) : Prop := exists src dst, e = EvCopy src dst.
Definition is_pool (e : event) : Prop := exists n, e = EvPool n.

Definition is_pool_b (e : event) : bool :=
  match e with EvPool _ => true | _ => false end.

(** The calls the Folder Processor can issue. *)
Definition folder_event (e : event) : Prop :=
  match e with
  | EvMakedirs _ | EvCopy _ _ => True
  | _ => False
  end.

(** The jobs run one after the other, in the order of the list: each job
    starts in the world the job before it left, the outcomes come in the
    order of the jobs, and a job that raises ends the run. *)
Inductive sequential : list task -> world -> result (list dict) -> world -> Prop :=
| sequential_nil w :
    sequential [] w (Ok []) w
| sequential_ok t rest w d w1 ds w2 :
    process_single_folder_wrapper t w = (Ok d, w1) ->
    sequential rest w1 (Ok ds) w2 ->
    sequential (t :: rest) w (Ok (d :: ds)) w2
| sequential_raise t rest w e w1 :
    process_single_folder_wrapper t w = (Raise e, w1) ->
    sequential (t :: rest) w (Raise e) w1
| sequential_raise_later t rest w d w1 e w2 :
    process_single_folder_wrapper t w = (Ok d, w1) ->
    sequential rest w1 (Raise e) w2 ->
    sequential (t :: rest) w (Raise e) w2.

(** An outcome that needed no look at the frames: a skip or an early error. *)
Definition early_outcome (d : dict) : Prop :=
  d = skipped_dict \/ exists msg, d = error_dict msg.

(** The root of the keypoint folders (source line 211). *)
Definition keypoint_base_of (data_root : string) : string :=
  foldl path_join data_root ["Training"; "Labeled"; "REAL"; "WORD"].

(** The new name of a frame file: the token before the last one is
    replaced by the twelve-digit position (source lines 167-171). *)
Definition renumber (base_name : string) (i : nat) : result string :=
  parts ← set_second_last (split_on "_" base_name) (format_012d i);
  Ok (join "_" parts).

(** The copy the loop makes for the frame at position [i] with index
    [frame_idx]. *)
Definition copy_call (keypoint_files : list string) (output_folder : string)
    (frame : nat * Z) : option event :=
  match list_getitem keypoint_files (snd frame) with
  | Ok src_file =>
      match renumber (path_basename src_file) (fst frame) with
      | Ok new_name => Some (EvCopy src_file (path_join output_folder new_name))
      | Raise _ => None
      end
  | Raise _ => None
  end.

(** The jobs the discovery loop builds (source lines 215-257). *)
Definition discovered_tasks (w : world) (data_root output_base : string)
    (dry_run : bool) : list task :=
  let keypoint_base := keypoint_base_of data_root in
  match listdir w keypoint_base with
  | Ok names =>
      sorted (List.filter
                (fun d => path_isdir w (path_join keypoint_base d) && isdigit d)
                names) ≫=
        folder_tasks w keypoint_base (path_join keypoint_base "morpheme")
          output_base dry_run
  | Raise _ => []
  end.

Fixpoint no_char (c : ascii) (s : string) : bool :=
  match s with
  | EmptyString => true
  | String a s' => negb (Ascii.eqb a c) && no_char c s'
  end.

(** Directory entries are single path components. *)
Definition listed_names_ok (nd : node) : bool :=
  match nd with
  | Dir names => forallb (no_char "/") names
  | File _ => true
  end.

Definition well_named (w : world) : Prop :=
  map_Forall (fun _ nd => listed_names_ok nd = true) (fs w).

(** A float that is not below zero: a zero of either sign, a positive
    finite number or plus infinity. *)
Definition not_negative (f : float) : bool :=
  match f with
  | S754_zero _ => true
  | S754_finite s _ _ => negb s
  | S754_infinity s => negb s
  | S754_nan => false
  end.

Definition is_write (e : event) : Prop := exists p, e = EvWrite p.

(** The runs of [trim_folder], one constructor per way out of it. *)
Inductive trim_run (folder_name kf ob : string) (dry : bool) (mf : string)
    (w : world) : result dict -> world -> Prop :=
| Trim_no_frames :
    sorted (glob w (path_join kf "*_keypoints.json")) = [] ->
    trim_run folder_name kf ob dry mf w
      (Ok (error_dict "No keypoint files found")) w
| Trim_bad_metadata e :
    sorted (glob w (path_join kf "*_keypoints.json")) <> [] ->
    load_morpheme_data w mf = Raise e ->
    trim_run folder_name kf ob dry mf w
      (Ok (error_dict ("Error loading morpheme data: " +:+ exn_str e))) w
| Trim_range_raises st et du e :
    sorted (glob w (path_join kf "*_keypoints.json")) <> [] ->
    load_morpheme_data w mf = Ok (st, et, du) ->
    get_frame_range st et du
      (Z.of_nat (length (sorted (glob w (path_join kf "*_keypoints.json")))))
      default_offset = Raise e ->
    trim_run folder_name kf ob dry mf w (Raise e) w
| Trim_makedirs_raises st et du s e ex w1 :
    sorted (glob w (path_join kf "*_keypoints.json")) <> [] ->
    load_morpheme_data w mf = Ok (st, et, du) ->
    get_frame_range st et du
      (Z.of_nat (length (sorted (glob w (path_join kf "*_keypoints.json")))))
      default_offset = Ok (s, e) ->
    dry = false ->
    makedirs (path_join ob folder_name) w = (Raise ex, w1) ->
    trim_run folder_name kf ob dry mf w (Raise ex) w1
| Trim_copy_raises st et du s e w1 ex w2 :
    sorted (glob w (path_join kf "*_keypoints.json")) <> [] ->
    load_morpheme_data w mf = Ok (st, et, du) ->
    get_frame_range st et du
      (Z.of_nat (length (sorted (glob w (path_join kf "*_keypoints.json")))))
      default_offset = Ok (s, e) ->
    (if dry then w1 = w else makedirs (path_join ob folder_name) w = (Ok tt, w1)) ->
    copy_frames dry (sorted (glob w (path_join kf "*_keypoints.json")))
      (path_join ob folder_name) (enumerate (py_range s (e + 1))) 0 w1
      = (Raise ex, w2) ->
    trim_run folder_name kf ob dry mf w (Raise ex) w2
| Trim_success st et du s e w1 k w2 :
    sorted (glob w (path_join kf "*_keypoints.json")) <> [] ->
    load_morpheme_data w mf = Ok (st, et, du) ->
    get_frame_range st et du
      (Z.of_nat (length (sorted (glob w (path_join kf "*_keypoints.json")))))
      default_offset = Ok (s, e) ->
    (if dry then w1 = w else makedirs (path_join ob folder_name) w = (Ok tt, w1)) ->
    copy_frames dry (sorted (glob w (path_join kf "*_keypoints.json")))
      (path_join ob folder_name) (enumerate (py_range s (e + 1))) 0 w1
      = (Ok k, w2) ->
    trim_run folder_name kf ob dry mf w
      (Ok (success_dict folder_name
             (Z.of_nat (length (sorted (glob w (path_join kf "*_keypoints.json")))))
             s e st et)) w2.

(** The runs of [process_sign_folder]. *)
Inductive folder_run (kf mf ob : string) (dry : bool) (w : world)
  : result dict -> world -> Prop :=
| Run_skipped :
    contains "_F" (path_basename kf) = false ->
    folder_run kf mf ob dry w (Ok skipped_dict) w
| Run_unparsed :
    contains "_F" (path_basename kf) = true ->
    (fst (scan_parts (split_on "_" (path_basename kf))) = None \/
     snd (scan_parts (split_on "_" (path_basename kf))) = None) ->
    folder_run kf mf ob dry w
      (Ok (error_dict ("Cannot parse folder name: " +:+ path_basename kf))) w
| Run_no_metadata word view :
    contains "_F" (path_basename kf) = true ->
    scan_parts (split_on "_" (path_basename kf)) = (Some word, Some view) ->
    glob w (morpheme_pattern_of mf word view) = [] ->
    folder_run kf mf ob dry w
      (Ok (error_dict ("Morpheme file not found with pattern: "
                       +:+ morpheme_pattern_of mf word view))) w
| Run_trim word view morpheme_file others r w' :
    contains "_F" (path_basename kf) = true ->
    scan_parts (split_on "_" (path_basename kf)) = (Some word, Some view) ->
    glob w (morpheme_pattern_of mf word view) = morpheme_file :: others ->
    trim_run (path_basename kf) kf ob dry morpheme_file w r w' ->
    folder_run kf mf ob dry w r w'.

(** The clock reading stays the same. *)
Definition same_clock (w w' : world) : Prop := clock w' = clock w.

(** What the orchestrator does after the jobs (source lines 313-321). *)
Definition report_due (elp : option string) (acc : summary) : option string :=
  match elp, error_list acc with
  | Some path, _ :: _ => if nonempty path then Some path else None
  | _, _ => None
  end.

(** Between [w] and [w'] nothing happened, or nothing but the opening of the
    error log at the given path: no other file changed and no directory
    appeared. *)
Definition report_only (elp : option string) (w w' : world) : Prop :=
  w' = w \/
  exists path,
    elp = Some path /\ nonempty path = true /\
    trace w' = trace w ++ [EvWrite path] /\
    (forall q d, q <> path ->
       fs w' !! q = Some (File d) <-> fs w !! q = Some (File d)) /\
    (forall q, path_isdir w' q = path_isdir w q).

(** The number a string of decimal digits denotes, read from the left with
    [acc] the value of the digits already read. *)
Fixpoint decimal_value (acc : N) (s : string) : N :=
  match s with
  | EmptyString => acc
  | String c rest =>
      decimal_value (acc * 10 + (N.of_nat (nat_of_ascii c) - 48))%N rest
  end.

(** What stands at a path: a directory, a regular file, or nothing. *)
Definition kind_of (nd : option node) : option bool :=
  match nd with
  | Some (Dir _) => Some true
  | Some (File _) => Some false
  | None => None
  end.

(** Every entry is still there, and is still of the kind it was. *)
Definition entries_stay (w w' : world) : Prop :=
  forall p, fs w !! p <> None -> kind_of (fs w' !! p) = kind_of (fs w !! p).

(** The nodes with a name longer than [n] are as they were. *)
Definition same_beyond (n : nat) (w w' : world) : Prop :=
  forall q, (n < String.length q)%nat -> fs w' !! q = fs w !! q.

(** ** Concrete worlds *)

Module Sample.

(** The binary64 nearest to [n / d]. *)
Definition ratio (n d : Z) : value := VFloat (fdiv (round_int n) (round_int d)).

(** A metadata document with the three fields the reader consumes. *)
Definition morpheme_doc (start_time end_time duration : value) : file_data :=
  JsonFile
    (VDict [("metaData", VDict [("name", VStr "clip"); ("duration", duration)]);
            ("data", VList [VDict [("start", start_time); ("end", end_time)]])]).

Definition frame_name (folder : string) (i : nat) : string :=
  folder +:+ "_" +:+ format_012d i +:+ "_keypoints.json".

Definition add_dir (p : string) (names : list string) (m : gmap string node)
  : gmap string node := <[p := Dir names]> m.

Definition add_file (p : string) (data : file_data) (m : gmap string node)
  : gmap string node := <[p := File data]> m.

(** A capture folder [dir/folder] of [n] frames, listed last frame first. *)
Definition add_capture (dir folder : string) (n : nat) (m : gmap string node)
  : gmap string node :=
  let here := path_join dir folder in
  foldr (fun i acc =>
           add_file (path_join here (frame_name folder i))
             (JsonFile (VInt (Z.of_nat i))) acc)
        (add_dir here (rev (frame_name folder <$> seq 0 n)) m) (seq 0 n).

Definition word_dir : string := "/data/Training/Labeled/REAL/WORD".
Definition kp01 : string := "/data/Training/Labeled/REAL/WORD/01".
Definition mo01 : string := "/data/Training/Labeled/REAL/WORD/morpheme/01".

(** The directories above the captures; [captures] are the entries of
    folder 01 and [morphemes] those of its metadata folder, both in
    listing order. *)
Definition skeleton (captures morphemes : list string) : gmap string node :=
  add_dir "/" ["data"; "out"]
  (add_dir "/out" []
  (add_dir "/data" ["Training"]
  (add_dir "/data/Training" ["Labeled"]
  (add_dir "/data/Training/Labeled" ["REAL"]
  (add_dir "/data/Training/Labeled/REAL" ["WORD"]
  (add_dir word_dir ["morpheme"; "01"]
  (add_dir (word_dir +:+ "/morpheme") ["01"]
  (add_dir kp01 captures
  (add_dir mo01 morphemes ∅))))))))).

Definition mk_world (m : gmap string node) (ro : gset string) (n : Z) : world :=
  World m ro n "2024-01-01 00:00:00" [].

Definition w1_name : string := "NIA_SL_WORD0001_REAL02_F".
Definition w2_name : string := "NIA_SL_WORD0002_REAL02_F".
Definition w3_name : string := "NIA_SL_WORD0003_REAL02_F".

(** One capture of 25 frames lasting 2.5 s, gesture from 1.2 s to 1.3 s. *)
Definition fs_plain : gmap string node :=
  add_capture kp01 w1_name 25
  (add_file (mo01 +:+ "/NIA_SL_WORD0001_REAL02_F_morpheme.json")
     (morpheme_doc (ratio 12 10) (ratio 13 10) (ratio 25 10))
  (skeleton [w1_name] ["NIA_SL_WORD0001_REAL02_F_morpheme.json"])).

Definition plain : world := mk_world fs_plain ∅ 4.

(** The same data with the output tree refusing writes. *)
Definition locked : world := mk_world fs_plain {["/out"]} 4.

(** Three captures of three frames each; the metadata of the second gives
    a duration of zero. *)
Definition fs_mixed : gmap string node :=
  add_capture kp01 w1_name 3
  (add_capture kp01 w2_name 3
  (add_capture kp01 w3_name 3
  (add_file (mo01 +:+ "/NIA_SL_WORD0001_REAL02_F_morpheme.json")
     (morpheme_doc (ratio 1 10) (ratio 2 10) (ratio 3 10))
  (add_file (mo01 +:+ "/NIA_SL_WORD0002_REAL02_F_morpheme.json")
     (morpheme_doc (ratio 0 1) (ratio 0 1) (ratio 0 1))
  (add_file (mo01 +:+ "/NIA_SL_WORD0003_REAL02_F_morpheme.json")
     (morpheme_doc (ratio 1 10) (ratio 2 10) (ratio 3 10))
  (skeleton [w3_name; w1_name; w2_name]
     ["NIA_SL_WORD0001_REAL02_F_morpheme.json";
      "NIA_SL_WORD0002_REAL02_F_morpheme.json";
      "NIA_SL_WORD0003_REAL02_F_morpheme.json"])))))).

Definition zero_duration : world := mk_world fs_mixed ∅ 4.

(** One capture whose output folder is there already and refuses writes. *)
Definition fs_denied : gmap string node :=
  add_capture kp01 w1_name 3
  (add_file (mo01 +:+ "/NIA_SL_WORD0001_REAL02_F_morpheme.json")
     (morpheme_doc (ratio 1 10) (ratio 2 10) (ratio 3 10))
  (add_dir "/out/01" [w1_name]
  (add_dir ("/out/01/" +:+ w1_name) []
  (skeleton [w1_name] ["NIA_SL_WORD0001_REAL02_F_morpheme.json"])))).

Definition copy_denied : world :=
  mk_world fs_denied {["/out/01/NIA_SL_WORD0001_REAL02_F"]} 4.

(** Two captures, the second without a metadata file. *)
Definition fs_missing : gmap string node :=
  add_capture kp01 w2_name 3
  (add_capture kp01 w3_name 3
  (add_file (mo01 +:+ "/NIA_SL_WORD0003_REAL02_F_morpheme.json")
     (morpheme_doc (ratio 1 10) (ratio 2 10) (ratio 3 10))
  (skeleton [w3_name; w2_name] ["NIA_SL_WORD0003_REAL02_F_morpheme.json"]))).

Definition missing_metadata : world := mk_world fs_missing ∅ 4.

(** One capture of 25 frames with two metadata files of different timing;
    [listed] is the order in which the metadata folder lists them. *)
Definition fs_twin (listed : list string) : gmap string node :=
  add_capture kp01 w1_name 25
  (add_file (mo01 +:+ "/NIA_SL_WORD0001_REAL01_F_morpheme.json")
     (morpheme_doc (ratio 12 10) (ratio 13 10) (ratio 25 10))
  (add_file (mo01 +:+ "/NIA_SL_WORD0001_REAL02_F_morpheme.json")
     (morpheme_doc (ratio 10 10) (ratio 11 10) (ratio 25 10))
  (skeleton [w1_name] listed))).

Definition twin_02_first : world :=
  mk_world (fs_twin ["NIA_SL_WORD0001_REAL02_F_morpheme.json";
                     "NIA_SL_WORD0001_REAL01_F_morpheme.json"]) ∅ 4.
Definition twin_01_first : world :=
  mk_world (fs_twin ["NIA_SL_WORD0001_REAL01_F_morpheme.json";
                     "NIA_SL_WORD0001_REAL02_F_morpheme.json"]) ∅ 4.

(** One capture of 25 frames whose metadata puts the start (2.4 s) after
    the end (0.1 s); the output folder is there already and holds a file. *)
Definition fs_inverted : gmap string node :=
  add_capture kp01 w1_name 25
  (add_file (mo01 +:+ "/NIA_SL_WORD0001_REAL02_F_morpheme.json")
     (morpheme_doc (ratio 24 10) (ratio 1 10) (ratio 25 10))
  (add_dir "/out/01" [w1_name]
  (add_dir ("/out/01/" +:+ w1_name) ["old.json"]
  (add_file ("/out/01/" +:+ w1_name +:+ "/old.json") (TextFile "old" no_json_value)
  (skeleton [w1_name] ["NIA_SL_WORD0001_REAL02_F_morpheme.json"]))))).

Definition inverted : world := mk_world fs_inverted ∅ 4.

(** The same capture with nothing yet under the output root. *)
Definition fs_inverted_fresh : gmap string node :=
  add_capture kp01 w1_name 25
  (add_file (mo01 +:+ "/NIA_SL_WORD0001_REAL02_F_morpheme.json")
     (morpheme_doc (ratio 24 10) (ratio 1 10) (ratio 25 10))
  (skeleton [w1_name] ["NIA_SL_WORD0001_REAL02_F_morpheme.json"])).

Definition inverted_fresh : world := mk_world fs_inverted_fresh ∅ 4.
Definition inverted_locked : world := mk_world fs_inverted_fresh {["/out"]} 4.

End Sample.

(** * Properties *)

Import Sample.

(** Closed equations between runs are settled by evaluating both sides on
    the virtual machine, without writing the normal forms into the proof. *)
(** Discharge the first premise of [H] with [tac]. *)
Ltac premise H tac :=
  lazymatch type of H with
  | ?A -> _ =>
      let HA := fresh in
      assert A as HA by tac; specialize (H HA); clear HA
  end.

Ltac by_evaluation :=
  idtac;
  lazymatch goal with
  | |- ?a = _ => vm_cast_no_check (@eq_refl _ a)
  end.

(** ** The two monads *)

Section MonadFacts.
Context {A B : Type}.

Lemma result_bind_ok (r : result A) (k : A -> result B) (b : B) :
  r ≫= k = Ok b -> exists a, r = Ok a /\ k a = Ok b.
Proof. destruct r as [a|e]; cbn; [eauto | discriminate]. Qed.

Lemma bind_inv (m : M A) (k : A -> M B) (w w2 : world) (r : result B) :
  (m ≫= k) w = (r, w2) ->
  (exists a w1, m w = (Ok a, w1) /\ k a w1 = (r, w2)) \/
  (exists e, m w = (Raise e, w2) /\ r = Raise e).
Proof.
  unfold mbind, M_bind. destruct (m w) as [[a|e] w1]; intros H.
  - left. eauto.
  - right. injection H as <- <-. eauto.
Qed.

Lemma bind_ok (m : M A) (k : A -> M B) (w w1 : world) (a : A) :
  m w = (Ok a, w1) -> (m ≫= k) w = k a w1.
Proof. unfold mbind, M_bind. intros ->. reflexivity. Qed.

Lemma bind_raise (m : M A) (k : A -> M B) (w w1 : world) (e : exn) :
  m w = (Raise e, w1) -> (m ≫= k) w = (Raise e, w1).
Proof. unfold mbind, M_bind. intros ->. reflexivity. Qed.
End MonadFacts.

(** ** Frame Range Calculator *)

(** What [get_frame_range] returns, in terms of its intermediate values. *)
Lemma get_frame_range_ok start_time end_time duration total_frames offset s e :
  get_frame_range start_time end_time duration total_frames offset = Ok (s, e) <->
  exists fps x a y b,
    int_truediv total_frames duration = Ok fps /\
    mul_float start_time fps = Ok x /\ int_of_float x = Ok a /\
    mul_float end_time fps = Ok y /\ int_of_float y = Ok b /\
    s = Z.max 0 (a - offset) /\ e = Z.min (total_frames - 1) (b + offset).
Proof.
  unfold get_frame_range. split.
  - intros H.
    apply result_bind_ok in H as (fps & Hfps & H).
    apply result_bind_ok in H as (x & Hx & H).
    apply result_bind_ok in H as (a & Ha & H).
    apply result_bind_ok in H as (y & Hy & H).
    apply result_bind_ok in H as (b & Hb & H).
    injection H as <- <-. exists fps, x, a, y, b. tauto.
  - intros (fps & x & a & y & b & Hfps & Hx & Ha & Hy & Hb & -> & ->).
    rewrite Hfps; cbn. rewrite Hx; cbn. rewrite Ha; cbn.
    rewrite Hy; cbn. rewrite Hb; cbn. reflexivity.
Qed.

(** Whether the call returns does not depend on the offset. *)
Lemma get_frame_range_returns_any_offset st et d n o1 o2 :
  returns (get_frame_range st et d n o1) = returns (get_frame_range st et d n o2).
Proof.
  unfold get_frame_range.
  destruct (int_truediv n d) as [fps|]; cbn; [|reflexivity].
  destruct (mul_float st fps) as [x|]; cbn; [|reflexivity].
  destruct (int_of_float x) as [a|]; cbn; [|reflexivity].
  destruct (mul_float et fps) as [y|]; cbn; [|reflexivity].
  destruct (int_of_float y) as [b|]; cbn; reflexivity.
Qed.

(** Finite, non-zero duration, a frame count within float range and finite
    products are exactly what the call needs in order to return. *)
Lemma get_frame_range_returns (st et d : float) n offset :
  returns (get_frame_range (VFloat st) (VFloat et) (VFloat d) n offset) = true <->
  exists a,
    float_of_int n = Ok a /\ feqb d fzero = false /\
    returns (int_of_float (fmul st (fdiv a d))) = true /\
    returns (int_of_float (fmul et (fdiv a d))) = true.
Proof.
  unfold get_frame_range, int_truediv. split.
  - destruct (float_of_int n) as [a|]; cbn; [|discriminate].
    destruct (feqb d fzero); cbn; [discriminate|].
    destruct (int_of_float (fmul st (fdiv a d))) eqn:H1; cbn; [|discriminate].
    destruct (int_of_float (fmul et (fdiv a d))) eqn:H2; cbn; [|discriminate].
    intros _. exists a. rewrite H1, H2. auto.
  - intros (a & -> & -> & H1 & H2). cbn.
    destruct (int_of_float (fmul st (fdiv a d))); cbn; [|discriminate].
    destruct (int_of_float (fmul et (fdiv a d))); cbn; [|discriminate].
    reflexivity.
Qed.

(** A zero duration raises, whatever the other arguments: the frame count
    is converted first, and a count out of float range raises before that. *)
Lemma get_frame_range_zero_duration (st et d : float) n offset :
  feqb d fzero = true ->
  returns (get_frame_range (VFloat st) (VFloat et) (VFloat d) n offset) = false.
Proof.
  intros Hd. unfold get_frame_range, int_truediv.
  destruct (float_of_int n); cbn; [rewrite Hd|]; reflexivity.
Qed.

(** The clamps alone give the bounds. *)
Lemma get_frame_range_clamped st et d n offset s e :
  get_frame_range st et d n offset = Ok (s, e) -> 0 <= s /\ e <= n - 1.
Proof.
  intros H. apply get_frame_range_ok in H
    as (fps & x & a & y & b & _ & _ & _ & _ & _ & -> & ->).
  lia.
Qed.

(** C4. For start, end and duration with [0 <= start_time <= end_time <=
    duration], every pair [(start_frame, end_frame)] that [get_frame_range]
    returns has [0 <= start_frame] and [end_frame <= total_frames - 1]. *)
Theorem get_frame_range_bounds (start_time end_time duration : float)
    (total_frames offset start_frame end_frame : Z) :
  fleb fzero start_time = true ->
  fleb start_time end_time = true ->
  fleb end_time duration = true ->
  get_frame_range (VFloat start_time) (VFloat end_time) (VFloat duration)
    total_frames offset = Ok (start_frame, end_frame) ->
  0 <= start_frame /\ end_frame <= total_frames - 1.
Proof. intros _ _ _. apply get_frame_range_clamped. Qed.

(** The spec's example scenario: 100 frames over 5 s, gesture from 1 s to
    3 s, offset 10. *)
Lemma get_frame_range_bounds_witness :
  get_frame_range (ratio 1 1) (ratio 3 1) (ratio 5 1) 100 10 = Ok (10, 70) /\
  (0 <= 10 /\ 70 <= 100 - 1).
Proof.
  split; [reflexivity|].
  apply (get_frame_range_bounds
           (fdiv (round_int 1) (round_int 1)) (fdiv (round_int 3) (round_int 1))
           (fdiv (round_int 5) (round_int 1)) 100 10 10 70);
    reflexivity.
Defined.

(** C8. With start, end, duration and frame count fixed, duration above
    zero, and [o1 <= o2]: when the call with offset [o1] returns, so does the
    call with offset [o2], its start frame is no later and its end frame no
    earlier. *)
Theorem get_frame_range_offset_monotone (start_time end_time : value)
    (duration : float) (total_frames o1 o2 s1 e1 : Z) :
  fltb fzero duration = true ->
  o1 <= o2 ->
  get_frame_range start_time end_time (VFloat duration) total_frames o1
    = Ok (s1, e1) ->
  exists s2 e2,
    get_frame_range start_time end_time (VFloat duration) total_frames o2
      = Ok (s2, e2) /\
    s2 <= s1 /\ e1 <= e2.
Proof.
  intros _ Ho H.
  apply get_frame_range_ok in H
    as (fps & x & a & y & b & Hfps & Hx & Ha & Hy & Hb & -> & ->).
  exists (Z.max 0 (a - o2)), (Z.min (total_frames - 1) (b + o2)).
  split; [|lia].
  apply get_frame_range_ok. exists fps, x, a, y, b. tauto.
Qed.

Lemma get_frame_range_offset_monotone_witness :
  exists s2 e2,
    get_frame_range (ratio 1 1) (ratio 3 1) (ratio 5 1) 100 25 = Ok (s2, e2) /\
    s2 <= 10 /\ 70 <= e2.
Proof.
  apply (get_frame_range_offset_monotone (ratio 1 1) (ratio 3 1)
           (fdiv (round_int 5) (round_int 1)) 100 10 25 10 70);
    [reflexivity | lia | reflexivity].
Defined.

(** ** Invariants of effectful code *)

Section Keeps.
Context (R : world -> world -> Prop) `{!PreOrder R}.

Lemma keeps_ret {A} (a : A) : keeps R (mret a).
Proof. intros w r w' [= <- <-]. reflexivity. Qed.

Lemma keeps_lift {A} (r : result A) : keeps R (lift r).
Proof. intros w r' w' [= <- <-]. reflexivity. Qed.

Lemma keeps_ask : keeps R ask.
Proof. intros w r w' [= <- <-]. reflexivity. Qed.

Lemma keeps_bind {A B} (m : M A) (k : A -> M B) :
  keeps R m -> (forall a, keeps R (k a)) -> keeps R (m ≫= k).
Proof.
  intros Hm Hk w r w2 H.
  apply bind_inv in H as [(a & w1 & H1 & H2) | (e & H1 & _)].
  - transitivity w1; [exact (Hm _ _ _ H1) | exact (Hk _ _ _ _ H2)].
  - exact (Hm _ _ _ H1).
Qed.

Lemma keeps_try_except {A} (body : M A) (handler : exn -> M A) :
  keeps R body -> (forall e, keeps R (handler e)) ->
  keeps R (try_except body handler).
Proof.
  intros Hb Hh w r w2. unfold try_except.
  destruct (body w) as [[a|e] w1] eqn:Hw; intros H.
  - injection H as <- <-. exact (Hb _ _ _ Hw).
  - transitivity w1; [exact (Hb _ _ _ Hw) | exact (Hh _ _ _ _ H)].
Qed.
End Keeps.

Create HintDb keeps discriminated.

Ltac keeps_step :=
  first
    [ solve [auto with keeps nocore]
    | apply keeps_ret; solve [typeclasses eauto]
    | apply keeps_lift; solve [typeclasses eauto]
    | apply keeps_ask; solve [typeclasses eauto]
    | apply keeps_bind; [typeclasses eauto | | intros ?]
    | apply keeps_try_except; [typeclasses eauto | | intros ?]
    | match goal with
      | |- keeps _ (if ?b then _ else _) => destruct b
      | |- keeps _ (match ?x with _ => _ end) => destruct x
      end ].

(** The relations between worlds are preorders. *)

#[global] Instance unchanged_preorder : PreOrder unchanged.
Proof. split; unfold unchanged; [intros w | intros a b c]; congruence. Qed.

#[global] Instance same_trace_preorder : PreOrder same_trace.
Proof. split; unfold same_trace; [intros w | intros a b c]; congruence. Qed.

#[global] Instance emits_preorder P : PreOrder (emits P).
Proof.
  split.
  - intros w. exists []. rewrite app_nil_r. auto.
  - intros a b c (t1 & H1 & F1) (t2 & H2 & F2). exists (t1 ++ t2).
    rewrite H2, H1, app_assoc. split; [reflexivity | apply Forall_app; auto].
Qed.

#[global] Instance same_files_preorder : PreOrder same_files.
Proof.
  split; unfold same_files.
  - intros w p data. reflexivity.
  - intros a b c H1 H2 p data. rewrite H2. apply H1.
Qed.

Lemma same_trace_emits P w w' : same_trace w w' -> emits P w w'.
Proof. intros H. exists []. rewrite app_nil_r. auto. Qed.

Lemma emits_weaken (P Q : event -> Prop) w w' :
  (forall e, P e -> Q e) -> emits P w w' -> emits Q w w'.
Proof.
  intros HPQ (t & Ht & F). exists t. split; [exact Ht|].
  eapply Forall_impl; eauto.
Qed.

Lemma keeps_weaken (R Q : world -> world -> Prop) {A} (m : M A) :
  (forall w w', R w w' -> Q w w') -> keeps R m -> keeps Q m.
Proof. intros HRQ Hm w r w' H. apply HRQ. exact (Hm _ _ _ H). Qed.

(** ** A dry run leaves the world as it is *)

Lemma copy_frames_dry_unchanged files out frames c :
  keeps unchanged (copy_frames true files out frames c).
Proof.
  revert c. induction frames as [|[i idx] rest IH]; intros c; cbn.
  - keeps_step.
  - repeat keeps_step.
Qed.
#[export] Hint Resolve copy_frames_dry_unchanged : keeps.

Lemma trim_folder_dry_unchanged folder_name kf ob mf :
  keeps unchanged (trim_folder folder_name kf ob true mf).
Proof. unfold trim_folder. cbn [negb]. repeat keeps_step. Qed.
#[export] Hint Resolve trim_folder_dry_unchanged : keeps.

Lemma process_sign_folder_dry_unchanged kf mf ob :
  keeps unchanged (process_sign_folder kf mf ob true).
Proof. unfold process_sign_folder. repeat keeps_step. Qed.

(** ** What the calls leave in the trace *)

Lemma emit_trace e w r w' :
  emit e w = (r, w') -> r = Ok tt /\ trace w' = trace w ++ [e] /\ fs w' = fs w.
Proof. intros [= <- <-]. auto. Qed.

Lemma keeps_emit (P : event -> Prop) e : P e -> keeps (emits P) (emit e).
Proof.
  intros HP w r w' H. apply emit_trace in H as (_ & H & _).
  exists [e]. auto.
Qed.

(** What [os.stat] answers, in terms of the node the path leads to. *)
Lemma stat_ok w p nd :
  stat w p = Ok nd <->
  nonempty p = true /\ fs w !! os_key p = Some nd /\
  match nd with File _ => os_key p = p | Dir _ => True end.
Proof.
  unfold stat, missing, wants_dir.
  destruct (nonempty p); cbn [negb]; [|split; [discriminate | intros [[=] _]]].
  destruct (fs w !! os_key p) as [[data|names]|].
  - destruct (String.eqb_spec (os_key p) p) as [Hk|Hk]; cbn [negb]; split.
    + intros [= <-]. auto.
    + intros (_ & [= <-] & _). reflexivity.
    + discriminate.
    + intros (_ & [= <-] & Hk'). contradiction.
  - split; [intros [= <-]; auto | intros (_ & [= <-] & _); reflexivity].
  - destruct (under_file _ _ _); split;
      first [discriminate | intros (_ & [=] & _)].
Qed.

Lemma path_isdir_spec w p :
  path_isdir w p
  = nonempty p && match fs w !! os_key p with Some (Dir _) => true | _ => false end.
Proof.
  unfold path_isdir, stat, missing.
  destruct (nonempty p); cbn [negb andb]; [|reflexivity].
  destruct (fs w !! os_key p) as [[data|names]|]; [| reflexivity |].
  - destruct (wants_dir p); reflexivity.
  - destruct (under_file _ _ _); reflexivity.
Qed.

Lemma path_exists_spec w p :
  path_exists w p
  = nonempty p && match fs w !! os_key p with
                  | Some (Dir _) => true
                  | Some (File _) => negb (wants_dir p)
                  | None => false
                  end.
Proof.
  unfold path_exists, stat, missing.
  destruct (nonempty p); cbn [negb andb]; [|reflexivity].
  destruct (fs w !! os_key p) as [[data|names]|]; [| reflexivity |].
  - destruct (wants_dir p); reflexivity.
  - destruct (under_file _ _ _); reflexivity.
Qed.

Lemma path_isdir_same_fs w w' q : fs w' = fs w -> path_isdir w' q = path_isdir w q.
Proof. intros H. rewrite !path_isdir_spec, H. reflexivity. Qed.

Lemma path_exists_same_fs w w' q : fs w' = fs w -> path_exists w' q = path_exists w q.
Proof. intros H. rewrite !path_exists_spec, H. reflexivity. Qed.

Lemma listdir_ok w p names :
  listdir w p = Ok names <-> nonempty p = true /\ fs w !! os_key p = Some (Dir names).
Proof.
  unfold listdir. destruct (stat w p) as [[data|names']|e] eqn:Hs.
  - apply stat_ok in Hs as (Hne & Hk & _).
    split; [discriminate | intros (_ & H); congruence].
  - apply stat_ok in Hs as (Hne & Hk & _).
    split; [intros [= <-]; auto | intros (_ & H); congruence].
  - split; [discriminate|]. intros (Hne & Hk).
    assert (stat w p = Ok (Dir names)) as Hs' by (apply stat_ok; auto).
    congruence.
Qed.

Lemma listdir_isdir w p names :
  listdir w p = Ok names -> path_isdir w p = true /\ path_exists w p = true.
Proof.
  unfold listdir, path_isdir, path_exists.
  destruct (stat w p) as [[]|]; [discriminate | auto | discriminate].
Qed.

Lemma read_file_ok w p data :
  read_file w p = Ok data <->
  nonempty p = true /\ os_key p = p /\ fs w !! p = Some (File data).
Proof.
  unfold read_file. destruct (stat w p) as [[data'|names']|e] eqn:Hs.
  - apply stat_ok in Hs as (Hne & Hk & Hp). rewrite Hp in Hk.
    split; [intros [= <-]; auto | intros (_ & _ & H); congruence].
  - apply stat_ok in Hs as (Hne & Hk & _).
    split; [discriminate | intros (_ & Hp & H); rewrite Hp in Hk; congruence].
  - split; [discriminate|]. intros (Hne & Hp & Hk).
    assert (stat w p = Ok (File data)) as Hs'
      by (apply stat_ok; rewrite Hp; auto).
    congruence.
Qed.

(** What a successful [os.mkdir] does, and that a failing one does nothing. *)
Lemma mkdir_inv p w r w' :
  mkdir p w = (r, w') ->
  (exists e, r = Raise e /\ w' = w) \/
  (r = Ok tt /\ nonempty p = true /\ fs w !! os_key p = None /\
   w' = with_fs w (<[os_key p := Dir []]>
                     (add_entry (parent_key (os_key p)) (entry_name (os_key p))
                        (fs w)))).
Proof.
  unfold mkdir. destruct (nonempty p); cbn [negb].
  2:{ intros [= <- <-]. left. eexists. split; reflexivity. }
  destruct (fs w !! os_key p) eqn:Hp.
  { intros [= <- <-]. left. eexists. split; reflexivity. }
  destruct (check_writable w p) as [[]|e]; intros [= <- <-].
  - right. auto.
  - left. eauto.
Qed.

(** What a successful open for writing does, and that a failing one does
    nothing. *)
Lemma write_file_inv p data w r w' :
  write_file p data w = (r, w') ->
  (exists e, r = Raise e /\ w' = w) \/
  (r = Ok tt /\ nonempty p = true /\ os_key p = p /\ path_isdir w p = false /\
   w' = with_fs w (<[p := File data]>
                     (add_entry (parent_key p) (entry_name p) (fs w)))).
Proof.
  unfold write_file, wants_dir. destruct (nonempty p); cbn [negb].
  2:{ intros [= <- <-]. left. eexists. split; reflexivity. }
  destruct (check_writable w p) as [[]|e]; [|intros [= <- <-]; left; eauto].
  destruct (String.eqb_spec (os_key p) p) as [Hk|Hk]; cbn [negb orb].
  2:{ intros [= <- <-]. left. eexists. split; reflexivity. }
  destruct (path_isdir w p) eqn:Hd; intros [= <- <-].
  - left. eexists. split; reflexivity.
  - right. auto.
Qed.

Lemma mkdir_same_trace p : keeps same_trace (mkdir p).
Proof.
  intros w r w' H.
  apply mkdir_inv in H as [(e & _ & ->) | (_ & _ & _ & ->)]; reflexivity.
Qed.
#[export] Hint Resolve mkdir_same_trace : keeps.

Lemma write_file_same_trace p data : keeps same_trace (write_file p data).
Proof.
  intros w r w' H.
  apply write_file_inv in H as [(e & _ & ->) | (_ & _ & _ & _ & ->)]; reflexivity.
Qed.
#[export] Hint Resolve write_file_same_trace : keeps.

(** [os.makedirs] keeps every invariant that [os.mkdir] keeps. *)
Lemma keeps_mkdir_exist_ok (R : world -> world -> Prop) `{!PreOrder R} name :
  keeps R (mkdir name) -> keeps R (mkdir_exist_ok name).
Proof.
  intros Hm. apply keeps_try_except; [typeclasses eauto | exact Hm |].
  intros e w r w'. destruct (path_isdir w name); intros [= <- <-]; reflexivity.
Qed.

Lemma keeps_makedirs_from_on (P : string -> Prop)
    (R : world -> world -> Prop) `{!PreOrder R} :
  (forall p, P p -> keeps R (mkdir p)) ->
  (forall p, P p -> P (fst (path_split p))) ->
  forall fuel name, P name -> keeps R (makedirs_from fuel name).
Proof.
  intros Hm Hsplit. induction fuel as [|fuel IH]; intros name Hname;
    cbn [makedirs_from];
    pose proof (Hsplit _ Hname) as Hhead;
    destruct (path_split name) as [head tail]; cbn [fst] in Hhead;
    (assert (P (fst (if nonempty tail then (head, tail) else path_split head)))
       as Hhead'
       by (destruct (nonempty tail); [exact Hhead | apply Hsplit; exact Hhead]));
    destruct (if nonempty tail then (head, tail) else path_split head)
      as [head' tail']; cbn [fst] in Hhead';
    (apply keeps_bind; [typeclasses eauto | apply keeps_ask; typeclasses eauto|]);
    intros w0; destruct (_ && _);
    try (apply keeps_mkdir_exist_ok; [typeclasses eauto | apply Hm; exact Hname]).
  apply keeps_bind; [typeclasses eauto | |].
  - apply keeps_try_except; [typeclasses eauto | apply IH; exact Hhead' |].
    intros e. destruct (exn_class_of e);
      first [apply keeps_ret; typeclasses eauto | apply keeps_lift; typeclasses eauto].
  - intros _. destruct (String.eqb tail' ".");
      [apply keeps_ret; typeclasses eauto|].
    apply keeps_mkdir_exist_ok; [typeclasses eauto | apply Hm; exact Hname].
Qed.

Lemma keeps_makedirs_from (R : world -> world -> Prop) `{!PreOrder R} :
  (forall p, keeps R (mkdir p)) ->
  forall fuel name, keeps R (makedirs_from fuel name).
Proof.
  intros Hm fuel name.
  apply (keeps_makedirs_from_on (fun _ => True)); auto.
Qed.

Lemma makedirs_from_same_trace fuel name :
  keeps same_trace (makedirs_from fuel name).
Proof. apply keeps_makedirs_from; [typeclasses eauto | apply mkdir_same_trace]. Qed.
#[export] Hint Resolve makedirs_from_same_trace : keeps.

Lemma makedirs_trace name w r w' :
  makedirs name w = (r, w') -> trace w' = trace w ++ [EvMakedirs name].
Proof.
  unfold makedirs. intros H.
  apply bind_inv in H as [(a & w1 & H1 & H2) | (e & H1 & _)];
    apply emit_trace in H1 as (? & Ht & _); [|discriminate].
  apply makedirs_from_same_trace in H2. congruence.
Qed.

Lemma copy2_trace src dst w r w' :
  copy2 src dst w = (r, w') -> trace w' = trace w ++ [EvCopy src dst].
Proof.
  unfold copy2. intros H.
  apply bind_inv in H as [(a & w1 & H1 & H2) | (e & H1 & _)];
    apply emit_trace in H1 as (? & Ht & _); [|discriminate].
  rewrite <- Ht. clear Ht.
  apply bind_inv in H2 as [(w0 & w2 & [= <- <-] & H2) | (e & [=] & _)].
  destruct (_ && _).
  - injection H2 as <- <-. reflexivity.
  - apply bind_inv in H2 as [(data & w2 & [= _ <-] & H2) | (e & [= _ <-] & _)];
      [|reflexivity].
    exact (write_file_same_trace _ _ _ _ _ H2).
Qed.

Lemma copy_frames_emits dry files out frames c :
  keeps (emits is_copy) (copy_frames dry files out frames c).
Proof.
  revert c. induction frames as [|[i idx] rest IH]; intros c; cbn.
  - keeps_step.
  - apply keeps_bind; [typeclasses eauto | keeps_step |]. intros src.
    apply keeps_bind; [typeclasses eauto | | intros _; apply IH].
    destruct dry; cbn; [keeps_step|].
    apply keeps_bind; [typeclasses eauto | keeps_step |]. intros parts.
    intros w r w' H. apply copy2_trace in H.
    exists [EvCopy src (path_join out (join "_" parts))].
    split; [exact H|]. constructor; [|constructor]. red. eauto.
Qed.

(** ** The paths through the Folder Processor *)

(** The sorted frame files of a folder, as the processor enumerates them. *)
Lemma trim_folder_inv folder_name kf ob dry mf w r w' :
  trim_folder folder_name kf ob dry mf w = (r, w') ->
  let files := sorted (glob w (path_join kf "*_keypoints.json")) in
  let n := Z.of_nat (length files) in
  let out := path_join ob folder_name in
  (exists msg, r = Ok (error_dict msg) /\ w' = w) \/
  (exists st et du,
     load_morpheme_data w mf = Ok (st, et, du) /\
     match get_frame_range st et du n default_offset with
     | Raise e => r = Raise e /\ w' = w
     | Ok (s, e) =>
         exists r1 w1,
           (if negb dry then makedirs out else mret tt) w = (r1, w1) /\
           match r1 with
           | Raise ex => r = Raise ex /\ w' = w1
           | Ok _ =>
               exists r2,
                 copy_frames dry files out (enumerate (py_range s (e + 1))) 0 w1
                   = (r2, w') /\
                 match r2 with
                 | Raise ex => r = Raise ex
                 | Ok _ => r = Ok (success_dict folder_name n s e st et)
                 end
           end
     end).
Proof.
  unfold trim_folder. intros H.
  apply bind_inv in H as [(w0 & w1 & [= <- <-] & H) | (e & [=] & _)].
  cbv zeta. cbv zeta in H.
  destruct (_ =? 0).
  { left. injection H as <- <-. eauto. }
  destruct (load_morpheme_data w mf) as [[[st et] du]|ex].
  2:{ left. injection H as <- <-. eauto. }
  right. exists st, et, du. split; [reflexivity|].
  destruct (get_frame_range _ _ _ _ _) as [[s e]|ex].
  2:{ apply bind_inv in H as [(? & ? & [=] & _) | (? & [= <- <-] & ->)]. auto. }
  apply bind_inv in H as [(se & w1 & [= <- <-] & H) | (? & [=] & _)].
  apply bind_inv in H as [([] & w1 & H1 & H) | (ex & H1 & ->)].
  2:{ exists (Raise ex), w'. auto. }
  exists (Ok tt), w1. split; [exact H1|].
  apply bind_inv in H as [(k & w2 & H2 & [= <- <-]) | (ex & H2 & ->)].
  - exists (Ok k). auto.
  - exists (Raise ex). auto.
Qed.

Lemma process_sign_folder_inv kf mf ob dry w r w' :
  process_sign_folder kf mf ob dry w = (r, w') ->
  (exists d, r = Ok d /\ early_outcome d /\ w' = w) \/
  (exists morpheme_file,
     trim_folder (path_basename kf) kf ob dry morpheme_file w = (r, w')).
Proof.
  unfold process_sign_folder, early_outcome. intros H.
  destruct (negb _).
  { left. injection H as <- <-. eauto. }
  destruct (scan_parts _) as [[word|] [view|]];
    try (left; injection H as <- <-; eauto 6).
  apply bind_inv in H as [(w0 & w1 & [= <- <-] & H) | (e & [=] & _)].
  cbv zeta in H. destruct (glob w _) as [|f rest].
  - left. injection H as <- <-. eauto 6.
  - right. eauto.
Qed.

(** ** Dry run against real run *)

(** Where the copying loop completes, the counting loop completes with the
    same count. *)
Lemma copy_frames_dry_of_real files out frames c w1 w2 k w :
  copy_frames false files out frames c w1 = (Ok k, w2) ->
  copy_frames true files out frames c w = (Ok k, w).
Proof.
  revert c w1 w. induction frames as [|[i idx] rest IH]; intros c w1 w; cbn.
  - intros [= <- _]. reflexivity.
  - intros H.
    apply bind_inv in H as [(src & w3 & [= Hsrc <-] & H) | (e & _ & [=])].
    apply bind_inv in H as [([] & w3 & _ & H) | (e & _ & [=])].
    rewrite (bind_ok _ _ w w src) by (unfold lift; rewrite Hsrc; reflexivity).
    rewrite (bind_ok _ _ w w tt) by reflexivity.
    eapply IH. exact H.
Qed.

Lemma trim_folder_dry_of_real folder_name kf ob mf w d w' :
  trim_folder folder_name kf ob false mf w = (Ok d, w') ->
  trim_folder folder_name kf ob true mf w = (Ok d, w).
Proof.
  unfold trim_folder. intros H.
  apply bind_inv in H as [(w0 & w1 & [= <- <-] & H) | (e & [=] & _)].
  rewrite (bind_ok _ _ w w w) by reflexivity.
  revert H. cbv zeta.
  destruct (_ =? 0); [intros [= <- <-]; reflexivity|].
  destruct (load_morpheme_data w mf) as [[[st et] du]|ex];
    [|intros [= <- <-]; reflexivity].
  destruct (get_frame_range _ _ _ _ _) as [[s e]|ex]; intros H.
  2:{ apply bind_inv in H as [(? & ? & [=] & _) | (? & _ & [=])]. }
  apply bind_inv in H as [(se & w1 & [= <- <-] & H) | (? & [=] & _)].
  apply bind_inv in H as [([] & w1 & _ & H) | (ex & _ & [=])].
  apply bind_inv in H as [(k & w2 & H2 & [= <- <-]) | (ex & _ & [=])].
  rewrite (bind_ok _ _ w w (s, e)) by reflexivity.
  rewrite (bind_ok _ _ w w tt) by reflexivity.
  erewrite bind_ok by (eapply copy_frames_dry_of_real; exact H2).
  reflexivity.
Qed.

(** C6, as the code has it. A dry run never changes the world: it creates no
    directory, copies no file and issues no call with an effect; and on
    every folder for which the real run returns an outcome, the dry run
    returns that same outcome. *)
Theorem dry_run_matches_completed_run kf mf ob w :
  keeps unchanged (process_sign_folder kf mf ob true) /\
  forall d w',
    process_sign_folder kf mf ob false w = (Ok d, w') ->
    process_sign_folder kf mf ob true w = (Ok d, w).
Proof.
  split; [apply process_sign_folder_dry_unchanged|].
  unfold process_sign_folder. intros d w'. cbv zeta.
  destruct (negb _); [intros [= <- <-]; reflexivity|].
  destruct (scan_parts _) as [[word|] [view|]];
    try (intros [= <- <-]; reflexivity).
  intros H.
  apply bind_inv in H as [(w0 & w1 & [= <- <-] & H) | (e & [=] & _)].
  rewrite (bind_ok _ _ w w w) by reflexivity.
  revert H. destruct (glob w _) as [|f rest].
  - intros [= <- <-]. reflexivity.
  - apply trim_folder_dry_of_real.
Qed.

Lemma dry_run_matches_completed_run_witness :
  process_sign_folder (path_join kp01 w1_name) mo01 "/out/01" true plain
  = (Ok (success_dict w1_name 25 2 23 (ratio 12 10) (ratio 13 10)), plain).
Proof.
  destruct (process_sign_folder (path_join kp01 w1_name) mo01 "/out/01" false plain)
    as [r w'] eqn:E.
  assert (r = Ok (success_dict w1_name 25 2 23 (ratio 12 10) (ratio 13 10))) as ->.
  { change r with (fst (r, w')). rewrite <- E. by_evaluation. }
  exact (proj2 (dry_run_matches_completed_run
                  (path_join kp01 w1_name) mo01 "/out/01" plain) _ w' E).
Defined.

(** C6, as stated, fails where the real run cannot write: with the output
    tree read-only the dry run reports success and the real run raises. *)
Lemma dry_run_differs_when_write_fails :
  let real := fst (process_sign_folder (path_join kp01 w1_name) mo01 "/out/01"
                     false locked) in
  let dry := fst (process_sign_folder (path_join kp01 w1_name) mo01 "/out/01"
                    true locked) in
  dry = Ok (success_dict w1_name 25 2 23 (ratio 12 10) (ratio 13 10)) /\
  real = Raise (Exn PermissionError "[Errno 13] Permission denied: '/out/01'") /\
  dry <> real.
Proof.
  cbv zeta.
  assert (fst (process_sign_folder (path_join kp01 w1_name) mo01 "/out/01"
                 true locked)
          = Ok (success_dict w1_name 25 2 23 (ratio 12 10) (ratio 13 10)))
    as Hdry by by_evaluation.
  assert (fst (process_sign_folder (path_join kp01 w1_name) mo01 "/out/01"
                 false locked)
          = Raise (Exn PermissionError "[Errno 13] Permission denied: '/out/01'"))
    as Hreal by by_evaluation.
  rewrite Hdry, Hreal. repeat split. discriminate.
Qed.

(** ** Directory creation *)

Lemma add_entry_files parent name m q data :
  add_entry parent name m !! q = Some (File data) <-> m !! q = Some (File data).
Proof.
  unfold add_entry. destruct (m !! parent) as [[?|names]|] eqn:Hp; try reflexivity.
  destruct (bool_decide _); [reflexivity|].
  destruct (decide (parent = q)) as [->|Hne].
  - rewrite lookup_insert_eq, Hp. split; discriminate.
  - rewrite lookup_insert_ne by exact Hne. reflexivity.
Qed.

Lemma add_entry_absent parent name m q :
  m !! q = None -> add_entry parent name m !! q = None.
Proof.
  intros Hq. unfold add_entry.
  destruct (m !! parent) as [[?|names]|] eqn:Hp; try exact Hq.
  destruct (bool_decide _); [exact Hq|].
  rewrite lookup_insert_ne; [exact Hq | congruence].
Qed.

Lemma add_entry_isdir parent name m q :
  match add_entry parent name m !! q with Some (Dir _) => true | _ => false end
  = match m !! q with Some (Dir _) => true | _ => false end.
Proof.
  unfold add_entry. destruct (m !! parent) as [[?|names]|] eqn:Hp; try reflexivity.
  destruct (bool_decide _); [reflexivity|].
  destruct (decide (parent = q)) as [->|Hne].
  - rewrite lookup_insert_eq, Hp. reflexivity.
  - rewrite lookup_insert_ne by exact Hne. reflexivity.
Qed.

Lemma add_entry_other parent name m q :
  q <> parent -> add_entry parent name m !! q = m !! q.
Proof.
  intros Hq. unfold add_entry.
  destruct (m !! parent) as [[?|names]|]; try reflexivity.
  destruct (bool_decide _); [reflexivity|].
  apply lookup_insert_ne. congruence.
Qed.

Lemma mkdir_same_files p : keeps same_files (mkdir p).
Proof.
  intros w r w' H.
  apply mkdir_inv in H as [(e & _ & ->) | (_ & _ & Hp & ->)]; [reflexivity|].
  intros q data. cbn [fs with_fs].
  destruct (decide (os_key p = q)) as [<-|Hne].
  - rewrite lookup_insert_eq, Hp. split; discriminate.
  - rewrite lookup_insert_ne by exact Hne. apply add_entry_files.
Qed.
#[export] Hint Resolve mkdir_same_files : keeps.

Lemma makedirs_from_same_files fuel name :
  keeps same_files (makedirs_from fuel name).
Proof. apply keeps_makedirs_from; [typeclasses eauto | apply mkdir_same_files]. Qed.

Lemma makedirs_same_files name : keeps same_files (makedirs name).
Proof.
  unfold makedirs. apply keeps_bind; [typeclasses eauto | |].
  - intros w r w' H. apply emit_trace in H as (_ & _ & Hfs).
    intros p data. rewrite Hfs. reflexivity.
  - intros _. apply makedirs_from_same_files.
Qed.

(** ** Lengths of paths *)

Lemma length_append (s1 s2 : string) :
  String.length (s1 +:+ s2) = (String.length s1 + String.length s2)%nat.
Proof.
  induction s1 as [|a s1 IH]; [reflexivity|].
  change (S (String.length (s1 +:+ s2))
          = S (String.length s1 + String.length s2)%nat).
  rewrite IH. reflexivity.
Qed.

Lemma path_join_length a b :
  (String.length (path_join a b) <= String.length a + 1 + String.length b)%nat.
Proof.
  unfold path_join. destruct (startswith b "/"); [lia|].
  destruct (_ || _); rewrite !length_append; cbn; lia.
Qed.

Lemma nonempty_length c : nonempty c = true -> (1 <= String.length c)%nat.
Proof. destruct c; cbn; [discriminate | lia]. Qed.

(** ** Result dictionaries *)

Lemma success_dict_lookup folder_name n s e st et :
  let d := success_dict folder_name n s e st et in
  d !! "success" = Some (VBool true) /\
  d !! "folder" = Some (VStr folder_name) /\
  d !! "start_frame" = Some (VInt s) /\
  d !! "end_frame" = Some (VInt e) /\
  d !! "error" = None /\
  d !! "skipped" = None.
Proof. cbv zeta. unfold success_dict. repeat split; reflexivity. Qed.

Lemma error_dict_lookup msg :
  error_dict msg !! "error" = Some (VStr msg) /\
  error_dict msg !! "folder" = None /\
  error_dict msg !! "skipped" = None /\
  error_dict msg !! "success" = None /\
  error_dict msg !! "start_frame" = None.
Proof. unfold error_dict. repeat split; reflexivity. Qed.

Lemma skipped_dict_lookup :
  skipped_dict !! "error" = None /\
  skipped_dict !! "folder" = None /\
  skipped_dict !! "start_frame" = None.
Proof. repeat split; reflexivity. Qed.

Lemma early_outcome_no_frames d :
  early_outcome d -> d !! "start_frame" = None /\ d !! "folder" = None.
Proof.
  intros [->|(msg & ->)].
  - split; apply skipped_dict_lookup.
  - split; apply error_dict_lookup.
Qed.

(** ** Empty ranges *)

Lemma py_range_empty s e : e < s -> py_range s (e + 1) = [].
Proof. intros H. unfold py_range. apply seqZ_nil. lia. Qed.

Lemma copy_frames_nothing dry files out c w :
  copy_frames dry files out [] c w = (Ok c, w).
Proof. reflexivity. Qed.

(** ** Failures that leave the Folder Processor *)

(** A zero duration always reaches the division: the folder has frames and
    its metadata loads, so nothing returns an error dictionary first. *)
Lemma trim_folder_zero_duration folder_name kf ob dry mf w st et (d : float) :
  sorted (glob w (path_join kf "*_keypoints.json")) <> [] ->
  load_morpheme_data w mf = Ok (VFloat st, VFloat et, VFloat d) ->
  feqb d fzero = true ->
  exists e, trim_folder folder_name kf ob dry mf w = (Raise e, w).
Proof.
  intros Hfiles Hload Hd. unfold trim_folder.
  rewrite (bind_ok _ _ w w w) by reflexivity. cbv zeta.
  destruct (sorted _) as [|f files]; [congruence|].
  replace (Z.of_nat (length (f :: files)) =? 0) with false
    by (symmetry; apply Z.eqb_neq; cbn [length]; lia).
  rewrite Hload.
  pose proof (get_frame_range_zero_duration st et d
                (Z.of_nat (length (f :: files))) default_offset Hd) as Hr.
  destruct (get_frame_range _ _ _ _ _) as [?|e]; [discriminate|].
  exists e. reflexivity.
Qed.

(** C1, at two folders the code can meet. With a duration of zero in the
    metadata the Folder Processor raises [ZeroDivisionError]; with an output
    folder that refuses writes it raises [PermissionError] out of the copy
    loop, after the first copy call. Neither comes back as an error
    dictionary, and the orchestrator's loop over three folders ends at the
    second one: the third gets no call at all. *)
Theorem folder_failures_escape :
  let run name w := process_sign_folder (path_join kp01 name) mo01 "/out/01" false w in
  fst (run w2_name zero_duration)
    = Raise (Exn ZeroDivisionError "float division by zero") /\
  (fst (run w1_name copy_denied)
     = Raise (Exn PermissionError
                "[Errno 13] Permission denied: '/out/01/NIA_SL_WORD0001_REAL02_F/NIA_SL_WORD0001_REAL02_F_000000000000_keypoints.json'") /\
   List.length (trace (snd (run w1_name copy_denied))) = 2%nat) /\
  (fst (process_dataset "/data" "/out" false None false None zero_duration)
     = Raise (Exn ZeroDivisionError "float division by zero") /\
   EvMakedirs "/out/01/NIA_SL_WORD0001_REAL02_F"
     ∈ trace (snd (process_dataset "/data" "/out" false None false None zero_duration)) /\
   EvMakedirs "/out/01/NIA_SL_WORD0003_REAL02_F"
     ∉ trace (snd (process_dataset "/data" "/out" false None false None zero_duration))).
Proof.
  cbv zeta. split; [by_evaluation|].
  split; [split; by_evaluation|].
  split; [by_evaluation|].
  split.
  - eapply (bool_decide_unpack _). vm_compute. exact I.
  - eapply (bool_decide_unpack _). vm_compute. exact I.
Qed.

(** ** Error outcomes in the report *)

(** C3, the defect. An outcome of the Folder Processor that counts as an
    error has no ['folder'] entry, so the collection loop files it under
    the placeholder: the line it appends is ["Unknown: <message>"]. *)
Theorem error_outcome_reported_as_unknown kf mf ob dry w d w' acc :
  process_sign_folder kf mf ob dry w = (Ok d, w') ->
  get_truthy d "error" = true ->
  d !! "folder" = None /\
  exists msg,
    d !! "error" = Some (VStr msg) /\
    error_list (collect acc d) = error_list acc ++ ["Unknown: " +:+ msg].
Proof.
  intros H Herr.
  assert (exists msg, d = error_dict msg) as (msg & ->).
  { apply process_sign_folder_inv in H
      as [(d' & [= <-] & [->|(msg & ->)] & _) | (f & H)]; [discriminate|eauto|].
    apply trim_folder_inv in H as [(msg & [= ->] & _) | (st & et & du & _ & H)];
      [eauto|].
    destruct (get_frame_range _ _ _ _ _) as [[s e]|ex]; [|destruct H as [[=] _]].
    destruct H as (r1 & w1 & _ & H).
    destruct r1 as [[]|ex]; [|destruct H as [[=] _]].
    destruct H as ([k|ex] & _ & H); [|discriminate].
    injection H as ->. discriminate. }
  split; [reflexivity|]. exists msg. split; [reflexivity|].
  unfold collect. rewrite Herr. reflexivity.
Qed.

Lemma error_outcome_reported_as_unknown_witness :
  exists msg,
    error_dict ("Morpheme file not found with pattern: "
                +:+ morpheme_pattern_of mo01 "WORD0002" "F") !! "error"
      = Some (VStr msg) /\
    error_list
      (collect (Summary 0 0 0 [] [])
         (error_dict ("Morpheme file not found with pattern: "
                      +:+ morpheme_pattern_of mo01 "WORD0002" "F")))
    = [] ++ ["Unknown: " +:+ msg].
Proof.
  destruct (process_sign_folder (path_join kp01 w2_name) mo01 "/out/01" true
              missing_metadata) as [r w'] eqn:E.
  assert (r = Ok (error_dict ("Morpheme file not found with pattern: "
                              +:+ morpheme_pattern_of mo01 "WORD0002" "F"))) as ->.
  { change r with (fst (r, w')). rewrite <- E. by_evaluation. }
  apply (error_outcome_reported_as_unknown
           (path_join kp01 w2_name) mo01 "/out/01" true missing_metadata
           _ w' (Summary 0 0 0 [] []) E).
  reflexivity.
Defined.

(** The report written for a data set with one such folder. *)
Lemma error_report_names_unknown :
  let w' := snd (process_dataset "/data" "/out" true (Some "/out/errors.log")
                   false None missing_metadata) in
  fs w' !! "/out/errors.log"
  = Some (File (TextFile
      (error_report "2024-01-01 00:00:00"
         ["Unknown: Morpheme file not found with pattern: /data/Training/Labeled/REAL/WORD/morpheme/01/NIA_SL_WORD0002_REAL*_F_morpheme.json"])
      no_json_value)).
Proof. cbv zeta. by_evaluation. Qed.

(** ** Choice of the metadata file *)

Lemma filter_head_find {A} (P : A -> bool) (l : list A) x :
  List.find P l = Some x -> exists rest, List.filter P l = x :: rest.
Proof.
  induction l as [|y l IH]; cbn; [discriminate|].
  destruct (P y); [intros [= ->]; eauto | exact IH].
Qed.

Lemma find_filter_and {A} (P Q : A -> bool) (l : list A) :
  List.find P (List.filter Q l) = List.find (fun x => Q x && P x) l.
Proof.
  induction l as [|y l IH]; cbn; [reflexivity|].
  destruct (Q y); cbn; [destruct (P y); [reflexivity | exact IH] | exact IH].
Qed.

Lemma has_magic_app a b : has_magic (a +:+ b) = has_magic a || has_magic b.
Proof.
  unfold has_magic. induction a as [|c a IH]; [reflexivity|].
  change (String c a +:+ b) with (String c (a +:+ b)).
  cbn [list_ascii_of_string existsb]. rewrite IH. apply orb_assoc.
Qed.

Lemma has_magic_path_join a b : has_magic b = true -> has_magic (path_join a b) = true.
Proof.
  intros Hb. unfold path_join. destruct (startswith b "/"); [exact Hb|].
  destruct (_ || _); rewrite !has_magic_app, Hb, ?orb_true_r; reflexivity.
Qed.

(** [glob.glob] on a pattern whose directory part is a plain name and whose
    last component has wildcards: the entries of that directory that match,
    in listing order. *)
Lemma iglob_plain_dir fuel w pathname dirname basename dironly :
  path_split pathname = (dirname, basename) ->
  has_magic pathname = true ->
  has_magic dirname = false ->
  has_magic basename = true ->
  nonempty dirname = true ->
  iglob fuel w pathname dironly
  = path_join dirname <$> glob1 w dirname basename dironly.
Proof.
  intros Hsplit Hp Hd Hb Hne.
  destruct fuel; cbn [iglob]; rewrite Hsplit, Hp, Hd, Hb, Hne, andb_false_r;
    cbn [negb]; cbn [mbind list_bind mapM]; apply app_nil_r.
Qed.

(** C2, as the code has it. When the metadata folder is a plain path with
    no wildcard character of its own, the Folder Processor continues with
    the first entry of that folder, in the order the folder lists its
    entries, that is visible and matches the pattern as [fnmatch] reads it;
    the matches are not sorted. *)
Theorem morpheme_file_is_first_listed_match kf mf ob dry w word view names pick :
  let pattern := "NIA_SL_" +:+ word +:+ "_REAL*_" +:+ view +:+ "_morpheme.json" in
  contains "_F" (path_basename kf) = true ->
  scan_parts (split_on "_" (path_basename kf)) = (Some word, Some view) ->
  has_magic mf = false ->
  path_split (path_join mf pattern) = (mf, pattern) ->
  listdir w mf = Ok names ->
  List.find (fun x => negb (is_hidden x) && fnmatch x pattern) names = Some pick ->
  process_sign_folder kf mf ob dry w
  = trim_folder (path_basename kf) kf ob dry (path_join mf pick) w.
Proof.
  cbv zeta. intros Hview Hscan Hplain Hsplit Hdir Hfind.
  assert (has_magic ("NIA_SL_" +:+ word +:+ "_REAL*_" +:+ view +:+ "_morpheme.json")
          = true) as Hmagic.
  { rewrite (has_magic_app "NIA_SL_"), (has_magic_app word),
      (has_magic_app "_REAL*_"). cbn. apply orb_true_r. }
  assert (nonempty mf = true) as Hne.
  { unfold listdir, stat in Hdir. destruct (nonempty mf); [reflexivity|].
    discriminate Hdir. }
  unfold process_sign_folder. rewrite Hview, Hscan. cbn [negb].
  rewrite (bind_ok _ _ w w w) by reflexivity. cbv zeta.
  unfold glob, morpheme_pattern_of.
  rewrite (iglob_plain_dir _ _ _ _ _ _ Hsplit (has_magic_path_join _ _ Hmagic)
             Hplain Hmagic Hne).
  unfold glob1, glob_listdir. rewrite Hne, Hdir.
  change (is_hidden ("NIA_SL_" +:+ word +:+ "_REAL*_" +:+ view +:+ "_morpheme.json"))
    with false. cbv iota.
  rewrite <- find_filter_and in Hfind.
  apply filter_head_find in Hfind as (rest & ->). reflexivity.
Qed.

(** Two metadata files match; the folder lists [REAL02] before [REAL01]. *)
Lemma morpheme_file_is_first_listed_match_witness :
  process_sign_folder (path_join kp01 w1_name) mo01 "/out/01" true twin_02_first
  = trim_folder w1_name (path_join kp01 w1_name) "/out/01" true
      (path_join mo01 "NIA_SL_WORD0001_REAL02_F_morpheme.json") twin_02_first.
Proof.
  apply (morpheme_file_is_first_listed_match
           (path_join kp01 w1_name) mo01 "/out/01" true twin_02_first
           "WORD0001" "F"
           ["NIA_SL_WORD0001_REAL02_F_morpheme.json";
            "NIA_SL_WORD0001_REAL01_F_morpheme.json"]
           "NIA_SL_WORD0001_REAL02_F_morpheme.json");
    by_evaluation.
Defined.

(** C2, as stated, fails: two worlds that differ in nothing but the order
    in which the metadata folder lists its two files give two different
    outcomes, and with [REAL02] listed first the timing used (start 1.0 s,
    end 1.1 s) is that of [REAL02], although [REAL01] sorts before it. *)
Lemma morpheme_choice_follows_listing_order :
  let run w := fst (process_sign_folder (path_join kp01 w1_name) mo01 "/out/01"
                      true w) in
  delete mo01 (fs twin_02_first) = delete mo01 (fs twin_01_first) /\
  fs twin_02_first !! mo01
    = Some (Dir ["NIA_SL_WORD0001_REAL02_F_morpheme.json";
                 "NIA_SL_WORD0001_REAL01_F_morpheme.json"]) /\
  fs twin_01_first !! mo01
    = Some (Dir ["NIA_SL_WORD0001_REAL01_F_morpheme.json";
                 "NIA_SL_WORD0001_REAL02_F_morpheme.json"]) /\
  sorted ["NIA_SL_WORD0001_REAL02_F_morpheme.json";
          "NIA_SL_WORD0001_REAL01_F_morpheme.json"]
    = ["NIA_SL_WORD0001_REAL01_F_morpheme.json";
       "NIA_SL_WORD0001_REAL02_F_morpheme.json"] /\
  run twin_01_first
    = Ok (success_dict w1_name 25 2 23 (ratio 12 10) (ratio 13 10)) /\
  run twin_02_first
    = Ok (success_dict w1_name 25 0 21 (ratio 10 10) (ratio 11 10)) /\
  run twin_02_first <> run twin_01_first.
Proof.
  cbv beta zeta.
  assert (fst (process_sign_folder (path_join kp01 w1_name) mo01 "/out/01"
                 true twin_01_first)
          = Ok (success_dict w1_name 25 2 23 (ratio 12 10) (ratio 13 10)))
    as H01 by by_evaluation.
  assert (fst (process_sign_folder (path_join kp01 w1_name) mo01 "/out/01"
                 true twin_02_first)
          = Ok (success_dict w1_name 25 0 21 (ratio 10 10) (ratio 11 10)))
    as H02 by by_evaluation.
  rewrite H01, H02.
  split; [by_evaluation|].
  split; [by_evaluation|].
  split; [by_evaluation|].
  split; [by_evaluation|].
  repeat split.
  intros H.
  apply (f_equal (fun r : result dict =>
                    match r with
                    | Ok d => d !! "start_frame"
                    | Raise _ => None
                    end)) in H.
  discriminate H.
Qed.

(** ** The calls of the orchestrator *)

Lemma makedirs_emits (P : event -> Prop) name :
  P (EvMakedirs name) -> keeps (emits P) (makedirs name).
Proof.
  intros HP w r w' H. apply makedirs_trace in H. exists [EvMakedirs name]. auto.
Qed.

Lemma copy_frames_folder_events dry files out frames c :
  keeps (emits folder_event) (copy_frames dry files out frames c).
Proof.
  eapply keeps_weaken; [|apply copy_frames_emits].
  intros w w'. apply emits_weaken. intros e (src & dst & ->). exact I.
Qed.
#[export] Hint Resolve copy_frames_folder_events : keeps.

Lemma trim_folder_folder_events folder_name kf ob dry mf :
  keeps (emits folder_event) (trim_folder folder_name kf ob dry mf).
Proof.
  unfold trim_folder.
  repeat first [apply makedirs_emits; exact I | keeps_step].
Qed.
#[export] Hint Resolve trim_folder_folder_events : keeps.

Lemma process_sign_folder_folder_events kf mf ob dry :
  keeps (emits folder_event) (process_sign_folder kf mf ob dry).
Proof. unfold process_sign_folder. repeat keeps_step. Qed.

Lemma run_jobs_folder_events all_tasks :
  keeps (emits folder_event) (run_jobs all_tasks).
Proof.
  induction all_tasks as [|[[[kf mf] ob] dry] rest IH]; cbn [run_jobs].
  - keeps_step.
  - apply keeps_bind; [typeclasses eauto | | intros r].
    + apply process_sign_folder_folder_events.
    + repeat keeps_step.
Qed.

Lemma folder_event_not_pool e : folder_event e -> ~ is_pool e.
Proof. intros H (n & ->). exact H. Qed.

(** The part of [process_dataset] after the jobs: collection and report. *)
Lemma report_emits (P : event -> Prop) (elp : option string) (acc : summary) :
  (forall p, P (EvWrite p)) ->
  keeps (emits P)
    (match elp, error_list acc with
     | Some path, _ :: _ =>
         if nonempty path then
           w ← ask;
           emit (EvWrite path) ;;
           write_file path
             (TextFile (error_report (clock w) (error_list acc)) no_json_value)
         else mret tt
     | _, _ => mret tt
     end).
Proof.
  intros HP. destruct elp as [path|]; [|keeps_step].
  destruct (error_list acc); [keeps_step|].
  destruct (nonempty path); [|keeps_step].
  apply keeps_bind; [typeclasses eauto | keeps_step | intros w0].
  apply keeps_bind; [typeclasses eauto | apply keeps_emit, HP | intros _].
  eapply keeps_weaken; [|apply write_file_same_trace].
  intros w w'. apply same_trace_emits.
Qed.

Lemma process_dataset_emits (P : event -> Prop) dr ob dry elp use_mp nw :
  (forall e, folder_event e -> P e) ->
  (forall p, P (EvWrite p)) ->
  (use_mp && negb dry = true -> forall n, P (EvPool n)) ->
  keeps (emits P) (process_dataset dr ob dry elp use_mp nw).
Proof.
  intros Hfolder Hwrite Hpool. unfold process_dataset.
  assert (forall tasks, keeps (emits P) (run_jobs tasks)) as Hjobs.
  { intros tasks. eapply keeps_weaken; [|apply run_jobs_folder_events].
    intros w w'. apply emits_weaken. exact Hfolder. }
  apply keeps_bind; [typeclasses eauto | keeps_step | intros w0].
  apply keeps_bind; [typeclasses eauto | keeps_step | intros names].
  cbv zeta.
  apply keeps_bind; [typeclasses eauto | | intros results].
  - destruct (use_mp && negb dry); [|apply Hjobs].
    apply keeps_bind; [typeclasses eauto | | intros _; apply Hjobs].
    unfold pool_open.
    apply keeps_bind; [typeclasses eauto | apply keeps_emit; auto | intros _].
    repeat keeps_step.
  - apply keeps_bind; [typeclasses eauto | | intros _; keeps_step].
    apply report_emits. exact Hwrite.
Qed.

(** ** Size of the pool *)

(** C7, as the code has it. When the pool is used (parallel execution on,
    no dry run, the data set's folder listed), exactly one pool is created:
    with the configured worker count as it is when one is configured, and
    with [max(1, cores - 1)] when none is. *)
Theorem pool_size_is_worker_count dr ob elp nw w names :
  listdir w (keypoint_base_of dr) = Ok names ->
  exists rest,
    trace (snd (process_dataset dr ob false elp true nw w))
    = trace w
      ++ EvPool (match nw with
                 | Some n => n
                 | None => Z.max 1 (cores w - 1)
                 end) :: rest /\
    Forall (fun e => ~ is_pool e) rest.
Proof.
  intros Hls.
  destruct (process_dataset dr ob false elp true nw w) as [r w'] eqn:H.
  cbn [snd]. revert H. unfold process_dataset.
  rewrite (bind_ok _ _ w w w) by reflexivity.
  change (foldl path_join dr ["Training"; "Labeled"; "REAL"; "WORD"])
    with (keypoint_base_of dr).
  rewrite (bind_ok _ _ w w names) by (unfold lift; rewrite Hls; reflexivity).
  cbv zeta. cbn [andb negb].
  set (n := match nw with Some n => n | None => Z.max 1 (cores w - 1) end).
  intros H.
  apply bind_inv in H as [(results & w3 & H1 & H) | (e & H1 & _)].
  - apply bind_inv in H1 as [([] & w1 & Hp & Hj) | (e & Hp & [=])].
    unfold pool_open in Hp.
    apply bind_inv in Hp as [([] & w0 & He & Hp) | (e & He & [=])].
    apply emit_trace in He as (_ & He & _).
    assert (w1 = w0) as ->
      by (destruct (n <? 1); [discriminate | injection Hp as <-; reflexivity]).
    apply run_jobs_folder_events in Hj as (t1 & Ht1 & F1).
    apply bind_inv in H as [([] & w4 & Hr & [= _ <-]) | (e & Hr & _)];
      apply (report_emits (fun e => ~ is_pool e)) in Hr as (t2 & Ht2 & F2);
      try (intros p (k & [=])).
    all: exists (t1 ++ t2); rewrite Ht2, Ht1, He, <- !app_assoc;
      (split; [reflexivity|]); apply Forall_app; split; [|exact F2];
      eapply Forall_impl; [exact F1 | apply folder_event_not_pool].
  - apply bind_inv in H1 as [([] & w1 & Hp & Hj) | (e' & Hp & _)].
    + unfold pool_open in Hp.
      apply bind_inv in Hp as [([] & w0 & He & Hp) | (e' & He & [=])].
      apply emit_trace in He as (_ & He & _).
      assert (w1 = w0) as ->
        by (destruct (n <? 1); [discriminate | injection Hp as <-; reflexivity]).
      apply run_jobs_folder_events in Hj as (t1 & Ht1 & F1).
      exists t1. rewrite Ht1, He, <- app_assoc. split; [reflexivity|].
      eapply Forall_impl; [exact F1 | apply folder_event_not_pool].
    + unfold pool_open in Hp.
      apply bind_inv in Hp as [([] & w0 & He & Hp) | (e'' & He & _)];
        [|apply emit_trace in He as ([=] & _)].
      apply emit_trace in He as (_ & He & _).
      assert (w' = w0) as ->
        by (destruct (n <? 1); [injection Hp as _ <-; reflexivity | discriminate]).
      exists []. rewrite He. auto.
Qed.

Lemma pool_size_is_worker_count_witness :
  exists rest,
    trace (snd (process_dataset "/data" "/out" false None true (Some 16) plain))
    = trace plain ++ EvPool 16 :: rest /\
    Forall (fun e => ~ is_pool e) rest.
Proof.
  apply (pool_size_is_worker_count "/data" "/out" None (Some 16) plain
           ["morpheme"; "01"]).
  reflexivity.
Defined.

(** C7, as stated, fails: on four cores with sixteen workers configured the
    pool is created with sixteen processes, not with [min(16, 4 - 1) = 3]. *)
Lemma pool_size_not_capped_by_cores :
  let w' := snd (process_dataset "/data" "/out" false None true (Some 16) plain) in
  cores plain = 4 /\
  List.filter (fun e => bool_decide (is_pool_b e = true)) (trace w')
    = [EvPool 16] /\
  EvPool (Z.min 16 (cores plain - 1)) ∉ trace w'.
Proof.
  cbv zeta. split; [reflexivity|]. split; [by_evaluation|].
  eapply (bool_decide_unpack _). vm_compute. exact I.
Qed.

(** ** Runs of the Folder Processor *)

Lemma trim_folder_run folder_name kf ob dry mf w r w' :
  trim_folder folder_name kf ob dry mf w = (r, w') <->
  trim_run folder_name kf ob dry mf w r w'.
Proof.
  unfold trim_folder. rewrite (bind_ok _ _ w w w) by reflexivity. cbv zeta.
  split.
  - destruct (sorted (glob w _)) as [|f files] eqn:Hfiles.
    { intros [= <- <-]. apply Trim_no_frames. exact Hfiles. }
    assert (sorted (glob w (path_join kf "*_keypoints.json")) <> [])
      as Hne by congruence.
    rewrite <- Hfiles in *. clear Hfiles.
    replace (Z.of_nat _ =? 0) with false
      by (symmetry; apply Z.eqb_neq;
          destruct (sorted (glob w (path_join kf "*_keypoints.json")));
          [congruence | cbn [length]; lia]).
    destruct (load_morpheme_data w mf) as [[[st et] du]|ex] eqn:Hload.
    2:{ intros [= <- <-]. apply Trim_bad_metadata; assumption. }
    destruct (get_frame_range _ _ _ _ _) as [[s e]|ex] eqn:Hr; intros H.
    2:{ apply bind_inv in H as [(? & ? & [=] & _) | (? & [= <- <-] & ->)].
        eapply Trim_range_raises; eassumption. }
    apply bind_inv in H as [(se & w1 & [= <- <-] & H) | (? & [=] & _)].
    apply bind_inv in H as [([] & w1 & H1 & H) | (ex & H1 & ->)].
    2:{ destruct dry; cbn [negb] in H1; [discriminate|].
        eapply Trim_makedirs_raises; eauto. }
    assert (if dry then w1 = w
            else makedirs (path_join ob folder_name) w = (Ok tt, w1)) as Hmk.
    { destruct dry; cbn [negb] in H1; [injection H1 as <-; reflexivity | exact H1]. }
    apply bind_inv in H as [(k & w2 & H2 & [= <- <-]) | (ex & H2 & ->)].
    + eapply Trim_success; eassumption.
    + eapply Trim_copy_raises; eassumption.
  - intros H. destruct H as [Hf | e Hne Hl | st et du e Hne Hl Hr
                            | st et du s e ex w1 Hne Hl Hr -> Hm
                            | st et du s e w1 ex w2 Hne Hl Hr Hm Hc
                            | st et du s e w1 k w2 Hne Hl Hr Hm Hc].
    + rewrite Hf. reflexivity.
    + replace (Z.of_nat _ =? 0) with false
        by (symmetry; apply Z.eqb_neq;
            destruct (sorted (glob w (path_join kf "*_keypoints.json")));
            [congruence | cbn [length]; lia]).
      rewrite Hl. reflexivity.
    + replace (Z.of_nat _ =? 0) with false
        by (symmetry; apply Z.eqb_neq;
            destruct (sorted (glob w (path_join kf "*_keypoints.json")));
            [congruence | cbn [length]; lia]).
      rewrite Hl, Hr. reflexivity.
    + replace (Z.of_nat _ =? 0) with false
        by (symmetry; apply Z.eqb_neq;
            destruct (sorted (glob w (path_join kf "*_keypoints.json")));
            [congruence | cbn [length]; lia]).
      rewrite Hl, Hr. rewrite (bind_ok _ _ w w (s, e)) by reflexivity.
      cbn [negb]. apply bind_raise. exact Hm.
    + replace (Z.of_nat _ =? 0) with false
        by (symmetry; apply Z.eqb_neq;
            destruct (sorted (glob w (path_join kf "*_keypoints.json")));
            [congruence | cbn [length]; lia]).
      rewrite Hl, Hr. rewrite (bind_ok _ _ w w (s, e)) by reflexivity.
      rewrite (bind_ok _ _ w w1 tt)
        by (destruct dry; cbn [negb]; [subst w1; reflexivity | exact Hm]).
      apply bind_raise. exact Hc.
    + replace (Z.of_nat _ =? 0) with false
        by (symmetry; apply Z.eqb_neq;
            destruct (sorted (glob w (path_join kf "*_keypoints.json")));
            [congruence | cbn [length]; lia]).
      rewrite Hl, Hr. rewrite (bind_ok _ _ w w (s, e)) by reflexivity.
      rewrite (bind_ok _ _ w w1 tt)
        by (destruct dry; cbn [negb]; [subst w1; reflexivity | exact Hm]).
      rewrite (bind_ok _ _ w1 w2 k) by exact Hc. reflexivity.
Qed.

Lemma process_sign_folder_run kf mf ob dry w r w' :
  process_sign_folder kf mf ob dry w = (r, w') <-> folder_run kf mf ob dry w r w'.
Proof.
  unfold process_sign_folder. cbv zeta. split.
  - destruct (contains "_F" (path_basename kf)) eqn:Hv; cbn [negb].
    2:{ intros [= <- <-]. apply Run_skipped. exact Hv. }
    destruct (scan_parts _) as [[word|] [view|]] eqn:Hs;
      try (intros [= <- <-]; apply Run_unparsed; [exact Hv | rewrite Hs; cbn; auto]).
    rewrite (bind_ok _ _ w w w) by reflexivity. cbv zeta.
    destruct (glob w _) as [|f rest] eqn:Hg.
    + intros [= <- <-]. eapply Run_no_metadata; eassumption.
    + intros H. apply trim_folder_run in H. eapply Run_trim; eassumption.
  - intros H. destruct H as [Hv | Hv Hs | word view Hv Hs Hg
                            | word view f rest r w' Hv Hs Hg Ht].
    + rewrite Hv. reflexivity.
    + rewrite Hv. cbn [negb].
      destruct (scan_parts _) as [[word|] [view|]]; cbn in Hs;
        try reflexivity. destruct Hs; discriminate.
    + rewrite Hv, Hs. cbn [negb].
      rewrite (bind_ok _ _ w w w) by reflexivity. cbv zeta. rewrite Hg.
      reflexivity.
    + rewrite Hv, Hs. cbn [negb].
      rewrite (bind_ok _ _ w w w) by reflexivity. cbv zeta. rewrite Hg.
      apply trim_folder_run. exact Ht.
Qed.

(** ** Indexing the frame list *)

Lemma list_getitem_ok (l : list string) (i : Z) :
  0 <= i < Z.of_nat (length l) ->
  exists x, list_getitem l i = Ok x /\ l !! Z.to_nat i = Some x.
Proof.
  intros Hi. unfold list_getitem. cbv zeta.
  assert ((i <? 0) = false) as H0 by (apply Z.ltb_ge; lia).
  assert ((Z.of_nat (length l) <=? i) = false) as H1 by (apply Z.leb_gt; lia).
  rewrite H0. cbv iota. rewrite H0, H1. cbn [orb].
  destruct (l !! Z.to_nat i) as [x|] eqn:Hx.
  - exists x. split; reflexivity.
  - apply lookup_ge_None in Hx. lia.
Qed.

Lemma enumerate_lookup {A} (l : list A) (i : nat) (f : nat * A) :
  enumerate l !! i = Some f <-> fst f = i /\ l !! i = Some (snd f).
Proof.
  unfold enumerate. rewrite list_lookup_imap. destruct (l !! i) as [x|]; cbn.
  - destruct f as [j y]. cbn. split; [intros [= <- <-]; auto | intros [-> [= ->]]; auto].
  - split; [discriminate | intros [_ [=]]].
Qed.

Lemma enumerate_length {A} (l : list A) : length (enumerate l) = length l.
Proof. unfold enumerate. apply length_imap. Qed.

Lemma py_range_length s e :
  length (py_range s (e + 1)) = Z.to_nat (e - s + 1).
Proof. unfold py_range. rewrite length_seqZ. f_equal. lia. Qed.

Lemma py_range_lookup s e (i : nat) x :
  py_range s (e + 1) !! i = Some x <-> x = s + Z.of_nat i /\ s + Z.of_nat i <= e.
Proof.
  unfold py_range. rewrite lookup_seqZ. split; intros [-> H]; split; lia.
Qed.

(** The frame indices the loop visits lie within the frame list. *)
Lemma loop_frames_in_range (n s e : Z) :
  0 <= s -> e <= n - 1 ->
  Forall (fun f : nat * Z => 0 <= snd f < n) (enumerate (py_range s (e + 1))).
Proof.
  intros Hs He. apply Forall_lookup. intros i f Hf.
  apply enumerate_lookup in Hf as [_ Hf]. apply py_range_lookup in Hf.
  cbn beta. lia.
Qed.

(** Counting never fails on indices within the list. *)
Lemma copy_frames_dry_total files out frames c w :
  Forall (fun f : nat * Z => 0 <= snd f < Z.of_nat (length files)) frames ->
  copy_frames true files out frames c w
  = (Ok (c + Z.of_nat (length frames)), w).
Proof.
  intros H. revert c. induction H as [|[i idx] rest Hidx _ IH]; intros c.
  - cbn [copy_frames length]. replace (c + Z.of_nat 0) with c by lia. reflexivity.
  - cbn [copy_frames negb]. cbn [snd] in Hidx.
    destruct (list_getitem_ok files idx Hidx) as (x & Hx & _).
    rewrite (bind_ok _ _ w w x) by (unfold lift; rewrite Hx; reflexivity).
    rewrite (bind_ok _ _ w w tt) by reflexivity.
    rewrite IH. f_equal. f_equal. cbn [length]. lia.
Qed.

(** ** Where an exception can come from *)

(** X1. An exception leaves the Folder Processor only after the folder was
    recognised, its metadata file found and loaded and its frames listed.
    It is then either the one [get_frame_range] raised, with the world
    untouched, or, in a real run only, one raised after the call that
    creates the output directory. A dry run raises nothing else. *)
Theorem escaping_exception_origin kf mf ob dry w e w' :
  process_sign_folder kf mf ob dry w = (Raise e, w') ->
  let files := sorted (glob w (path_join kf "*_keypoints.json")) in
  exists morpheme_file st et du,
    files <> [] /\
    load_morpheme_data w morpheme_file = Ok (st, et, du) /\
    ((get_frame_range st et du (Z.of_nat (length files)) default_offset = Raise e
      /\ w' = w) \/
     (dry = false /\
      exists copies,
        trace w' = trace w ++ EvMakedirs (path_join ob (path_basename kf)) :: copies
        /\ Forall is_copy copies)).
Proof.
  intros H. apply process_sign_folder_run in H.
  inversion H as [| | |word view f rest r0 w0 Hv Hs Hg Ht]; subst.
  cbv zeta. exists f.
  inversion Ht as [| |st et du e0 Hne Hl Hr
                   |st et du s e1 ex w1 Hne Hl Hr Hd Hm
                   |st et du s e1 w1 ex w2 Hne Hl Hr Hm Hc|]; subst;
    exists st, et, du; (split; [exact Hne|]); (split; [exact Hl|]).
  - left. auto.
  - right. split; [reflexivity|]. exists [].
    split; [eapply makedirs_trace; exact Hm | constructor].
  - destruct dry.
    + subst w1. exfalso.
      pose proof (get_frame_range_clamped _ _ _ _ _ _ _ Hr) as [Hs0 He0].
      rewrite copy_frames_dry_total in Hc; [discriminate|].
      apply loop_frames_in_range; assumption.
    + right. split; [reflexivity|].
      apply makedirs_trace in Hm.
      apply copy_frames_emits in Hc as (t & Ht' & Ft).
      exists t. rewrite Ht', Hm, <- app_assoc. auto.
Qed.

Lemma escaping_exception_origin_witness :
  let files := sorted (glob zero_duration
                         (path_join (path_join kp01 w2_name) "*_keypoints.json")) in
  exists morpheme_file st et du,
    files <> [] /\
    load_morpheme_data zero_duration morpheme_file = Ok (st, et, du) /\
    ((get_frame_range st et du (Z.of_nat (length files)) default_offset
        = Raise (Exn ZeroDivisionError "float division by zero")
      /\ snd (process_sign_folder (path_join kp01 w2_name) mo01 "/out/01" true
                zero_duration) = zero_duration) \/
     (true = false /\
      exists copies,
        trace (snd (process_sign_folder (path_join kp01 w2_name) mo01 "/out/01"
                      true zero_duration))
        = trace zero_duration
          ++ EvMakedirs (path_join "/out/01"
                           (path_basename (path_join kp01 w2_name))) :: copies
        /\ Forall is_copy copies)).
Proof.
  destruct (process_sign_folder (path_join kp01 w2_name) mo01 "/out/01" true
              zero_duration) as [r w'] eqn:E.
  assert (r = Raise (Exn ZeroDivisionError "float division by zero")) as ->.
  { change r with (fst (r, w')). rewrite <- E. by_evaluation. }
  exact (escaping_exception_origin _ _ _ _ _ _ _ E).
Defined.

(** ** Statistics of a processed folder *)

(** X2. In every success outcome the folder has at least one frame, the
    range lies within the frames, [kept_frames] is [end - start + 1] (which
    is at most the frame count, and below one for an inverted range), and
    [trimmed_frames] is the rest, never negative. *)
Theorem success_outcome_statistics kf mf ob dry w d w' :
  process_sign_folder kf mf ob dry w = (Ok d, w') ->
  get_truthy d "success" = true ->
  exists n s e,
    n = Z.of_nat (length (sorted (glob w (path_join kf "*_keypoints.json")))) /\
    d !! "folder" = Some (VStr (path_basename kf)) /\
    d !! "total_frames" = Some (VInt n) /\
    d !! "start_frame" = Some (VInt s) /\
    d !! "end_frame" = Some (VInt e) /\
    d !! "kept_frames" = Some (VInt (e - s + 1)) /\
    d !! "trimmed_frames" = Some (VInt (n - (e - s + 1))) /\
    1 <= n /\ 0 <= s /\ e <= n - 1 /\ e - s + 1 <= n /\ 0 <= n - (e - s + 1).
Proof.
  intros H Hok. apply process_sign_folder_run in H.
  inversion H as [Hv|Hv Hs|word view Hv Hs Hg
                  |word view f rest r0 w0 Hv Hs Hg Ht]; subst;
    try discriminate.
  inversion Ht as [Hf|e0 Hne Hl| | | |st et du s e w1 k w2 Hne Hl Hr Hm Hc];
    subst; try discriminate.
  pose proof (get_frame_range_clamped _ _ _ _ _ _ _ Hr) as [Hs0 He0].
  eexists _, s, e. split; [reflexivity|].
  repeat (split; [reflexivity|]).
  destruct (sorted (glob w (path_join kf "*_keypoints.json"))) as [|x l];
    [congruence|].
  cbn [length] in *. lia.
Qed.

Lemma success_outcome_statistics_witness :
  exists n s e,
    n = Z.of_nat (length (sorted (glob plain
                            (path_join (path_join kp01 w1_name) "*_keypoints.json")))) /\
    success_dict w1_name 25 2 23 (ratio 12 10) (ratio 13 10) !! "folder"
      = Some (VStr (path_basename (path_join kp01 w1_name))) /\
    success_dict w1_name 25 2 23 (ratio 12 10) (ratio 13 10) !! "total_frames"
      = Some (VInt n) /\
    success_dict w1_name 25 2 23 (ratio 12 10) (ratio 13 10) !! "start_frame"
      = Some (VInt s) /\
    success_dict w1_name 25 2 23 (ratio 12 10) (ratio 13 10) !! "end_frame"
      = Some (VInt e) /\
    success_dict w1_name 25 2 23 (ratio 12 10) (ratio 13 10) !! "kept_frames"
      = Some (VInt (e - s + 1)) /\
    success_dict w1_name 25 2 23 (ratio 12 10) (ratio 13 10) !! "trimmed_frames"
      = Some (VInt (n - (e - s + 1))) /\
    1 <= n /\ 0 <= s /\ e <= n - 1 /\ e - s + 1 <= n /\ 0 <= n - (e - s + 1).
Proof.
  destruct (process_sign_folder (path_join kp01 w1_name) mo01 "/out/01" true plain)
    as [r w'] eqn:E.
  assert (r = Ok (success_dict w1_name 25 2 23 (ratio 12 10) (ratio 13 10))) as ->.
  { change r with (fst (r, w')). rewrite <- E. by_evaluation. }
  exact (success_outcome_statistics _ _ _ _ _ _ _ E eq_refl).
Defined.

(** ** The copies of a real run *)

Lemma list_getitem_lookup (l : list string) (i : Z) x :
  0 <= i -> list_getitem l i = Ok x -> l !! Z.to_nat i = Some x.
Proof.
  intros Hi. unfold list_getitem. cbv zeta.
  assert ((i <? 0) = false) as H0 by (apply Z.ltb_ge; lia).
  rewrite H0. cbv iota. rewrite H0. cbn [orb].
  destruct (Z.of_nat (length l) <=? i); [discriminate|].
  destruct (l !! Z.to_nat i); [congruence | discriminate].
Qed.

(** A copying loop that completes made, for each frame in turn, the copy
    [copy_call] describes, and counted each of them. *)
Lemma copy_frames_real_plan files out frames c w1 k w2 :
  copy_frames false files out frames c w1 = (Ok k, w2) ->
  k = c + Z.of_nat (length frames) /\
  exists t,
    trace w2 = trace w1 ++ t /\
    Forall2 (fun f ev => copy_call files out f = Some ev) frames t.
Proof.
  revert c w1. induction frames as [|[i idx] rest IH]; intros c w1.
  - cbn [copy_frames]. intros [= <- <-]. split; [cbn [length]; lia|].
    exists []. rewrite app_nil_r. auto.
  - cbn [copy_frames negb]. intros H.
    apply bind_inv in H as [(src & w3 & [= Hsrc <-] & H) | (e & _ & [=])].
    apply bind_inv in H as [([] & w3 & Hcopy & H) | (e & _ & [=])].
    apply bind_inv in Hcopy as [(parts & w4 & [= Hparts <-] & Hcopy) | (e & _ & [=])].
    apply copy2_trace in Hcopy.
    apply IH in H as (-> & t & Ht & Hall).
    split; [cbn [length]; lia|].
    exists (EvCopy src (path_join out (join "_" parts)) :: t).
    split; [rewrite Ht, Hcopy, <- app_assoc; reflexivity|].
    constructor; [|exact Hall].
    unfold copy_call, renumber. cbn [fst snd]. rewrite Hsrc, Hparts. reflexivity.
Qed.

(** X3. A real run that succeeds issues exactly these calls: the creation
    of the output folder, then one copy per frame of the kept range, in
    order; copy number [i] reads the frame at position [start_frame + i] of
    the sorted frame list and writes it into the output folder under its
    renumbered name. *)
Theorem real_run_copy_plan kf mf ob w d w' :
  process_sign_folder kf mf ob false w = (Ok d, w') ->
  get_truthy d "success" = true ->
  let files := sorted (glob w (path_join kf "*_keypoints.json")) in
  let out := path_join ob (path_basename kf) in
  exists s e copies,
    d !! "start_frame" = Some (VInt s) /\
    d !! "end_frame" = Some (VInt e) /\
    trace w' = trace w ++ EvMakedirs out :: copies /\
    length copies = Z.to_nat (e - s + 1) /\
    forall i, (i < length copies)%nat ->
      exists src name,
        files !! (Z.to_nat s + i)%nat = Some src /\
        renumber (path_basename src) i = Ok name /\
        copies !! i = Some (EvCopy src (path_join out name)).
Proof.
  intros H Hok. apply process_sign_folder_run in H.
  inversion H as [Hv|Hv Hs|word view Hv Hs Hg
                  |word view f rest r0 w0 Hv Hs Hg Ht]; subst;
    try discriminate.
  inversion Ht as [Hf|e0 Hne Hl| | | |st et du s e w1 k w2 Hne Hl Hr Hm Hc];
    subst; try discriminate.
  cbv zeta.
  pose proof (get_frame_range_clamped _ _ _ _ _ _ _ Hr) as [Hs0 He0].
  apply makedirs_trace in Hm.
  apply copy_frames_real_plan in Hc as (_ & t & Ht' & Hall).
  exists s, e, t. split; [reflexivity|]. split; [reflexivity|].
  split; [rewrite Ht', Hm, <- app_assoc; reflexivity|].
  pose proof (Forall2_length _ _ _ Hall) as Hlen.
  rewrite enumerate_length, py_range_length in Hlen.
  split; [congruence|].
  intros i Hi.
  destruct (lookup_lt_is_Some_2 t i Hi) as [ev Hev].
  destruct (Forall2_lookup_r _ _ _ _ _ Hall Hev) as (fr & Hfr & Hcall).
  apply enumerate_lookup in Hfr as [Hfst Hfr].
  apply py_range_lookup in Hfr as [Hidx _].
  destruct fr as [j idx]. cbn [fst snd] in *. subst j idx.
  unfold copy_call in Hcall. cbn [fst snd] in Hcall.
  destruct (list_getitem _ (s + Z.of_nat i)) as [src|] eqn:Hsrc; [|discriminate].
  destruct (renumber (path_basename src) i) as [name|] eqn:Hname; [|discriminate].
  injection Hcall as <-.
  exists src, name. split; [|auto].
  apply list_getitem_lookup in Hsrc; [|lia].
  replace (Z.to_nat s + i)%nat with (Z.to_nat (s + Z.of_nat i)) by lia.
  exact Hsrc.
Qed.

Lemma real_run_copy_plan_witness :
  let w' := snd (process_sign_folder (path_join kp01 w1_name) mo01 "/out/01"
                   false plain) in
  let files := sorted (glob plain
                         (path_join (path_join kp01 w1_name) "*_keypoints.json")) in
  let out := path_join "/out/01" (path_basename (path_join kp01 w1_name)) in
  exists s e copies,
    success_dict w1_name 25 2 23 (ratio 12 10) (ratio 13 10) !! "start_frame"
      = Some (VInt s) /\
    success_dict w1_name 25 2 23 (ratio 12 10) (ratio 13 10) !! "end_frame"
      = Some (VInt e) /\
    trace w' = trace plain ++ EvMakedirs out :: copies /\
    length copies = Z.to_nat (e - s + 1) /\
    forall i, (i < length copies)%nat ->
      exists src name,
        files !! (Z.to_nat s + i)%nat = Some src /\
        renumber (path_basename src) i = Ok name /\
        copies !! i = Some (EvCopy src (path_join out name)).
Proof.
  destruct (process_sign_folder (path_join kp01 w1_name) mo01 "/out/01" false plain)
    as [r w'] eqn:E.
  assert (r = Ok (success_dict w1_name 25 2 23 (ratio 12 10) (ratio 13 10))) as ->.
  { change r with (fst (r, w')). rewrite <- E. by_evaluation. }
  exact (real_run_copy_plan _ _ _ _ _ _ E eq_refl).
Defined.

(** ** Renumbered names *)

Lemma no_char_append c s t :
  no_char c (s +:+ t) = no_char c s && no_char c t.
Proof.
  induction s as [|a s IH]; [reflexivity|].
  change (no_char c (String a (s +:+ t))
          = no_char c (String a s) && no_char c t).
  cbn [no_char]. rewrite IH. apply andb_assoc.
Qed.

Lemma split_on_tokens c s :
  Forall (fun t => no_char c t = true) (split_on c s).
Proof.
  induction s as [|a s IH]; cbn [split_on].
  - repeat constructor.
  - destruct (Ascii.eqb a c) eqn:Ha; [constructor; [reflexivity | exact IH]|].
    destruct (split_on c s) as [|p ps]; [repeat constructor; cbn; rewrite Ha; reflexivity|].
    inversion IH as [|? ? Hp Hps]; subst.
    constructor; [cbn [no_char]; rewrite Ha, Hp; reflexivity | exact Hps].
Qed.

Lemma split_on_token c t : no_char c t = true -> split_on c t = [t].
Proof.
  induction t as [|a t IH]; [reflexivity|]. cbn [no_char split_on].
  intros H. apply andb_true_iff in H as [Ha Ht].
  apply negb_true_iff in Ha. rewrite Ha, (IH Ht). reflexivity.
Qed.

Lemma split_on_token_app c t s :
  no_char c t = true ->
  split_on c (t +:+ String c s) = t :: split_on c s.
Proof.
  induction t as [|a t IH].
  - intros _. change (split_on c (String c s) = "" :: split_on c s).
    cbn [split_on]. rewrite Ascii.eqb_refl. reflexivity.
  - cbn [no_char]. intros H. apply andb_true_iff in H as [Ha Ht].
    apply negb_true_iff in Ha.
    change (split_on c (String a (t +:+ String c s)) = String a t :: split_on c s).
    cbn [split_on]. rewrite Ha, (IH Ht). reflexivity.
Qed.

(** Splitting what [join] put together gives the tokens back. *)
Lemma split_on_join c parts :
  parts <> [] ->
  Forall (fun t => no_char c t = true) parts ->
  split_on c (join (String c "") parts) = parts.
Proof.
  intros Hne Hall. induction Hall as [|t rest Ht Hrest IH]; [congruence|].
  destruct rest as [|t' rest'].
  - cbn [join]. apply split_on_token. exact Ht.
  - change (join (String c "") (t :: t' :: rest'))
      with (t +:+ String c (join (String c "") (t' :: rest'))).
    rewrite split_on_token_app by exact Ht. rewrite IH by congruence. reflexivity.
Qed.

Lemma pretty_N_go_no_char c x s :
  is_digit c = false ->
  no_char c s = true -> no_char c (pretty_N_go x s) = true.
Proof.
  intros Hc. revert s. induction (N.lt_wf_0 x) as [x _ IH]; intros s Hs.
  assert (x = 0 \/ 0 < x)%N as [->|Hx] by lia.
  - rewrite pretty_N_go_0. exact Hs.
  - rewrite pretty_N_go_step by exact Hx. apply IH.
    + apply N.div_lt; [exact Hx | reflexivity].
    + cbn [no_char]. rewrite Hs, andb_true_r. apply negb_true_iff.
      destruct (Ascii.eqb_spec (pretty_N_char (x `mod` 10)) c) as [<-|]; [|reflexivity].
      exfalso. revert Hc. unfold pretty_N_char.
      repeat case_match; discriminate.
Qed.

Lemma repeat_char_no_char a c n :
  Ascii.eqb a c = false -> no_char c (repeat_char a n) = true.
Proof.
  intros Ha. induction n as [|n IH]; [reflexivity|].
  cbn [repeat_char no_char]. rewrite Ha, IH. reflexivity.
Qed.

Lemma format_012d_no_underscore i : no_char "_" (format_012d i) = true.
Proof.
  unfold format_012d. rewrite no_char_append.
  rewrite repeat_char_no_char by reflexivity. cbn [andb].
  unfold pretty, pretty_nat, pretty, pretty_N.
  destruct (decide _); [reflexivity|].
  apply pretty_N_go_no_char; reflexivity.
Qed.

(** X4. The new name of a frame file differs from the old one in a single
    token: split at the underscores, it has the same tokens as the old
    name except the one before the last, which is the twelve-digit
    position. A name with a single token cannot be renumbered. *)
Theorem renumber_tokens base_name i name :
  renumber base_name i = Ok name ->
  let parts := split_on "_" base_name in
  (2 <= length parts)%nat /\
  split_on "_" name = <[(length parts - 2)%nat := format_012d i]> parts.
Proof.
  unfold renumber, set_second_last. cbv zeta.
  destruct (Nat.ltb_spec (length (split_on "_" base_name)) 2) as [Hlt|Hge];
    [discriminate|].
  cbn. intros [= <-]. split; [exact Hge|].
  apply split_on_join.
  - intros Hnil. apply (f_equal length) in Hnil.
    rewrite length_insert in Hnil. cbn in Hnil. lia.
  - apply Forall_insert; [apply split_on_tokens | apply format_012d_no_underscore].
Qed.

Lemma renumber_tokens_witness :
  let parts := split_on "_" "NIA_SL_WORD0001_REAL02_F_000000000005_keypoints.json" in
  (2 <= length parts)%nat /\
  split_on "_" "NIA_SL_WORD0001_REAL02_F_000000000000_keypoints.json"
  = <[(length parts - 2)%nat := format_012d 0]> parts.
Proof.
  apply (renumber_tokens "NIA_SL_WORD0001_REAL02_F_000000000005_keypoints.json"
           0 "NIA_SL_WORD0001_REAL02_F_000000000000_keypoints.json").
  reflexivity.
Defined.

(** ** The orchestrator's counters *)

(** The three shapes an outcome of the Folder Processor has. *)
Lemma folder_outcome_shape kf mf ob dry w d w' :
  process_sign_folder kf mf ob dry w = (Ok d, w') ->
  (d = skipped_dict /\ contains "_F" (path_basename kf) = false) \/
  (exists msg, d = error_dict msg /\ nonempty msg = true) \/
  (exists n s e st et, d = success_dict (path_basename kf) n s e st et).
Proof.
  intros H. apply process_sign_folder_run in H.
  inversion H as [Hv|Hv Hs|word view Hv Hs Hg
                  |word view f rest r0 w0 Hv Hs Hg Ht]; subst.
  - left. auto.
  - right. left. eexists. split; reflexivity.
  - right. left. eexists. split; reflexivity.
  - inversion Ht; subst.
    + right. left. eexists. split; reflexivity.
    + right. left. eexists. split; reflexivity.
    + right. right. eauto 8.
Qed.

(** What the sequential loop returns: one outcome per task, in task order. *)
Lemma run_jobs_results tasks w results w' :
  run_jobs tasks w = (Ok results, w') ->
  Forall2 (fun (t : task) d =>
             exists w1 w2,
               process_sign_folder t.1.1.1 t.1.1.2 t.1.2 t.2 w1 = (Ok d, w2))
          tasks results.
Proof.
  revert w results w'. induction tasks as [|[[[kf mf] ob] dry] rest IH];
    intros w results w'; cbn [run_jobs].
  - intros [= <- _]. constructor.
  - intros H.
    apply bind_inv in H as [(d & w1 & H1 & H) | (e & _ & [=])].
    apply bind_inv in H as [(ds & w2 & H2 & [= <- <-]) | (e & _ & [=])].
    constructor; [cbn; eauto | eapply IH; exact H2].
Qed.

Lemma process_dataset_returns dr ob dry elp use_mp nw w acc w' :
  process_dataset dr ob dry elp use_mp nw w = (Ok acc, w') ->
  exists results w0 w1,
    run_jobs (discovered_tasks w dr ob dry) w0 = (Ok results, w1) /\
    acc = foldl collect (Summary 0 0 0 [] []) results.
Proof.
  unfold process_dataset, discovered_tasks.
  rewrite (bind_ok _ _ w w w) by reflexivity.
  change (foldl path_join dr ["Training"; "Labeled"; "REAL"; "WORD"])
    with (keypoint_base_of dr).
  cbv zeta. intros H.
  apply bind_inv in H as [(names & w0 & [= Hls <-] & H) | (e & _ & [=])].
  rewrite Hls.
  apply bind_inv in H as [(results & w1 & H1 & H) | (e & _ & [=])].
  apply bind_inv in H as [([] & w2 & _ & [= <- _]) | (e & _ & [=])].
  exists results. destruct (use_mp && negb dry).
  - apply bind_inv in H1 as [([] & w3 & _ & H1) | (e & _ & [=])]. eauto.
  - eauto.
Qed.

Lemma collect_one acc d :
  (d = skipped_dict \/
   (exists msg, d = error_dict msg /\ nonempty msg = true) \/
   (exists fn n s e st et, d = success_dict fn n s e st et)) ->
  let acc' := collect acc d in
  success_count acc' + skip_count acc' + error_count acc'
    = success_count acc + skip_count acc + error_count acc + 1 /\
  success_count acc' - Z.of_nat (length (all_stats acc'))
    = success_count acc - Z.of_nat (length (all_stats acc)) /\
  error_count acc' - Z.of_nat (length (error_list acc'))
    = error_count acc - Z.of_nat (length (error_list acc)) /\
  (skip_count acc' = skip_count acc \/ d = skipped_dict).
Proof.
  intros [->|[(msg & -> & Hmsg)|(fn & n & s & e & st & et & ->)]]; cbv zeta.
  - unfold collect.
    replace (get_truthy skipped_dict "skipped") with true by reflexivity.
    cbn [success_count skip_count error_count error_list all_stats].
    repeat split; try lia; auto.
  - unfold collect.
    replace (get_truthy (error_dict msg) "skipped") with false by reflexivity.
    replace (get_truthy (error_dict msg) "error") with true
      by (symmetry; exact Hmsg).
    cbn [success_count skip_count error_count error_list all_stats].
    rewrite length_app. cbn [length]. repeat split; try lia; auto.
  - unfold collect.
    replace (get_truthy (success_dict fn n s e st et) "skipped") with false
      by reflexivity.
    replace (get_truthy (success_dict fn n s e st et) "error") with false
      by reflexivity.
    replace (get_truthy (success_dict fn n s e st et) "success") with true
      by reflexivity.
    cbn [success_count skip_count error_count error_list all_stats].
    rewrite length_app. cbn [length]. repeat split; try lia; auto.
Qed.

Lemma collect_all results acc :
  Forall (fun d =>
            d = skipped_dict \/
            (exists msg, d = error_dict msg /\ nonempty msg = true) \/
            (exists fn n s e st et, d = success_dict fn n s e st et)) results ->
  let acc' := foldl collect acc results in
  success_count acc' + skip_count acc' + error_count acc'
    = success_count acc + skip_count acc + error_count acc
      + Z.of_nat (length results) /\
  success_count acc' - Z.of_nat (length (all_stats acc'))
    = success_count acc - Z.of_nat (length (all_stats acc)) /\
  error_count acc' - Z.of_nat (length (error_list acc'))
    = error_count acc - Z.of_nat (length (error_list acc)) /\
  (skipped_dict ∉ results -> skip_count acc' = skip_count acc).
Proof.
  intros H. revert acc. induction H as [|d rest Hd _ IH]; intros acc; cbv zeta.
  - cbn [foldl length]. repeat split; try lia; auto.
  - cbn [foldl length].
    destruct (collect_one acc d Hd) as (H1 & H2 & H3 & H4).
    destruct (IH (collect acc d)) as (I1 & I2 & I3 & I4).
    cbv zeta in *. repeat split; try lia.
    intros Hnot. rewrite I4.
    + destruct H4 as [H4| ->]; [exact H4|]. exfalso. apply Hnot. left.
    + intros Hin. apply Hnot. right. exact Hin.
Qed.

(** X5. When the orchestrator returns, every discovered folder was counted
    exactly once: the three counters add up to the number of jobs, the
    success count is the number of collected statistics and the error
    count the number of report lines. *)
Theorem every_job_counted_once dr ob dry elp use_mp nw w acc w' :
  process_dataset dr ob dry elp use_mp nw w = (Ok acc, w') ->
  success_count acc + skip_count acc + error_count acc
    = Z.of_nat (length (discovered_tasks w dr ob dry)) /\
  success_count acc = Z.of_nat (length (all_stats acc)) /\
  error_count acc = Z.of_nat (length (error_list acc)).
Proof.
  intros H. apply process_dataset_returns in H as (results & w0 & w1 & Hrun & ->).
  apply run_jobs_results in Hrun.
  assert (Forall (fun d =>
            d = skipped_dict \/
            (exists msg, d = error_dict msg /\ nonempty msg = true) \/
            (exists fn n s e st et, d = success_dict fn n s e st et)) results)
    as Hshape.
  { apply Forall_forall. intros d Hd.
    apply list_elem_of_lookup in Hd as [i Hd].
    destruct (Forall2_lookup_r _ _ _ _ _ Hrun Hd) as (t & _ & wa & wb & Hp).
    apply folder_outcome_shape in Hp as [[-> _]|[?|(n & s & e & st & et & ->)]];
      eauto 10. }
  destruct (collect_all results (Summary 0 0 0 [] []) Hshape) as (H1 & H2 & H3 & _).
  cbv zeta in *. cbn [success_count skip_count error_count error_list all_stats
                     length] in *.
  rewrite (Forall2_length _ _ _ Hrun). lia.
Qed.

Lemma every_job_counted_once_witness :
  let acc := Summary 1 0 1
               ["Unknown: Morpheme file not found with pattern: /data/Training/Labeled/REAL/WORD/morpheme/01/NIA_SL_WORD0002_REAL*_F_morpheme.json"]
               [success_dict w3_name 3 0 2 (ratio 1 10) (ratio 2 10)] in
  success_count acc + skip_count acc + error_count acc
    = Z.of_nat (length (discovered_tasks missing_metadata "/data" "/out" true)) /\
  success_count acc = Z.of_nat (length (all_stats acc)) /\
  error_count acc = Z.of_nat (length (error_list acc)).
Proof.
  cbv zeta.
  destruct (process_dataset "/data" "/out" true None false None missing_metadata)
    as [r w'] eqn:E.
  assert (r = Ok (Summary 1 0 1
               ["Unknown: Morpheme file not found with pattern: /data/Training/Labeled/REAL/WORD/morpheme/01/NIA_SL_WORD0002_REAL*_F_morpheme.json"]
               [success_dict w3_name 3 0 2 (ratio 1 10) (ratio 2 10)])) as ->.
  { change r with (fst (r, w')). rewrite <- E. by_evaluation. }
  exact (every_job_counted_once _ _ _ _ _ _ _ _ _ E).
Defined.

(** ** No job is skipped *)

Lemma append_assoc_string (s t u : string) : (s +:+ t) +:+ u = s +:+ (t +:+ u).
Proof.
  induction s as [|a s IH]; [reflexivity|].
  change (String a ((s +:+ t) +:+ u) = String a (s +:+ (t +:+ u))).
  rewrite IH. reflexivity.
Qed.

Lemma split_on_not_nil c s : split_on c s <> [].
Proof.
  destruct s as [|a s]; cbn [split_on]; [discriminate|].
  destruct (Ascii.eqb a c); [discriminate|].
  destruct (split_on c s); discriminate.
Qed.

Lemma split_on_app_sep c s t :
  split_on c (s +:+ String c t) = split_on c s ++ split_on c t.
Proof.
  induction s as [|a s IH].
  - change (split_on c (String c t) = [""] ++ split_on c t).
    cbn [split_on]. rewrite Ascii.eqb_refl. reflexivity.
  - change (split_on c (String a (s +:+ String c t))
            = split_on c (String a s) ++ split_on c t).
    cbn [split_on]. rewrite IH. destruct (Ascii.eqb a c); [reflexivity|].
    pose proof (split_on_not_nil c s) as Hs.
    destruct (split_on c s) as [|p ps]; [congruence | reflexivity].
Qed.

Lemma last_app_not_nil {A} (l1 l2 : list A) d :
  l2 <> [] -> List.last (l1 ++ l2) d = List.last l2 d.
Proof.
  intros H2. induction l1 as [|x l1 IH]; [reflexivity|].
  cbn [app]. destruct (l1 ++ l2) eqn:E.
  - destruct l1; destruct l2; cbn in E; congruence.
  - rewrite <- IH. reflexivity.
Qed.

Lemma endswith_char_split a c :
  endswith_char a c = true -> exists a', a = a' +:+ String c "".
Proof.
  induction a as [|x a IH]; cbn [endswith_char]; [discriminate|].
  destruct a as [|y a].
  - intros H. apply Ascii.eqb_eq in H as ->. exists "". reflexivity.
  - intros H. destruct (IH H) as [a' ->]. exists (String x a'). reflexivity.
Qed.

Lemma startswith_no_char c b :
  no_char c b = true -> startswith b (String c "") = false.
Proof.
  unfold startswith. destruct b as [|x b]; [reflexivity|].
  cbn [no_char String.prefix]. intros H. apply andb_true_iff in H as [Hx _].
  apply negb_true_iff in Hx.
  destruct (ascii_dec c x) as [->|]; [|reflexivity].
  rewrite Ascii.eqb_refl in Hx. discriminate.
Qed.

(** The last component of a path built from a folder and an entry name is
    the entry name. *)
Lemma path_basename_join a b :
  no_char "/" b = true -> path_basename (path_join a b) = b.
Proof.
  intros Hb. unfold path_basename, path_join.
  rewrite (startswith_no_char "/" b Hb).
  assert (List.last (split_on "/" b) "" = b) as Hlast
    by (rewrite split_on_token by exact Hb; reflexivity).
  destruct (nonempty a) eqn:Ha; cbn [negb orb].
  - destruct (endswith_char a "/") eqn:He.
    + destruct (endswith_char_split a "/" He) as [a' ->].
      rewrite append_assoc_string.
      change (String "/" "" +:+ b) with (String "/" b).
      rewrite split_on_app_sep, last_app_not_nil by apply split_on_not_nil.
      exact Hlast.
    + change ("/" +:+ b) with (String "/" b).
      rewrite split_on_app_sep, last_app_not_nil by apply split_on_not_nil.
      exact Hlast.
  - destruct a; [exact Hlast | discriminate].
Qed.

Lemma insert_sorted_elem x y l : x ∈ insert_sorted y l -> x = y \/ x ∈ l.
Proof.
  induction l as [|z l IH]; cbn [insert_sorted].
  - intros H. apply list_elem_of_singleton in H. auto.
  - destruct (String.leb y z).
    + intros H. apply elem_of_cons in H as [->|H]; auto.
    + intros H. apply elem_of_cons in H as [->|H].
      * right. left.
      * destruct (IH H) as [->|Hl]; [auto | right; right; exact Hl].
Qed.

Lemma sorted_elem x l : x ∈ sorted l -> x ∈ l.
Proof.
  unfold sorted. induction l as [|y l IH]; cbn [foldr]; [auto|].
  intros H. apply insert_sorted_elem in H as [->|H]; [left | right; auto].
Qed.

(** Every discovered job is a Front-view folder. *)
Lemma discovered_tasks_front_view w dr ob dry (t : task) :
  well_named w ->
  t ∈ discovered_tasks w dr ob dry ->
  contains "_F" (path_basename t.1.1.1) = true.
Proof.
  intros Hw. unfold discovered_tasks. cbv zeta.
  destruct (listdir w (keypoint_base_of dr)) as [names|]; [|intros H; inversion H].
  intros H. apply list_elem_of_bind in H as (num & Ht & _).
  unfold folder_tasks in Ht. cbv zeta in Ht.
  destruct (negb (path_exists w _)); [inversion Ht|].
  destruct (negb (path_exists w _)); [inversion Ht|].
  destruct (listdir w (path_join (keypoint_base_of dr) num)) as [entries|] eqn:Hls;
    [|inversion Ht].
  apply list_elem_of_fmap in Ht as (folder & -> & Hf). cbn [fst].
  apply list_elem_of_In, filter_In in Hf as [Hf Hview].
  apply list_elem_of_In, sorted_elem, list_elem_of_In, filter_In in Hf as [Hf _].
  rewrite path_basename_join; [exact Hview|].
  apply listdir_ok in Hls as (_ & Hnode).
  pose proof (map_Forall_lookup_1 _ _ _ _ Hw Hnode) as Hok. cbn in Hok.
  rewrite forallb_forall in Hok. apply Hok. exact Hf.
Qed.

(** X6. On a file system whose directory entries are single path
    components, the orchestrator never counts a skip: discovery keeps the
    folders whose name holds the Front-view marker, and the Folder
    Processor skips a folder only when its name lacks it. *)
Theorem orchestrator_never_skips dr ob dry elp use_mp nw w acc w' :
  well_named w ->
  process_dataset dr ob dry elp use_mp nw w = (Ok acc, w') ->
  skip_count acc = 0.
Proof.
  intros Hw H. apply process_dataset_returns in H as (results & w0 & w1 & Hrun & ->).
  apply run_jobs_results in Hrun.
  assert (Forall (fun d =>
            d <> skipped_dict /\
            (d = skipped_dict \/
             (exists msg, d = error_dict msg /\ nonempty msg = true) \/
             (exists fn n s e st et, d = success_dict fn n s e st et))) results)
    as Hshape.
  { apply Forall_forall. intros d Hd.
    apply list_elem_of_lookup in Hd as [i Hd].
    destruct (Forall2_lookup_r _ _ _ _ _ Hrun Hd) as (t & Ht & wa & wb & Hp).
    assert (contains "_F" (path_basename t.1.1.1) = true) as Hview.
    { eapply discovered_tasks_front_view; [exact Hw|].
      apply list_elem_of_lookup. eauto. }
    apply folder_outcome_shape in Hp
      as [[-> Hno]|[(msg & -> & Hm)|(n & s & e & st & et & ->)]].
    - congruence.
    - split; [|eauto]. intros Heq.
      apply (f_equal (fun m : dict => m !! "skipped")) in Heq. discriminate Heq.
    - split; [|eauto 10]. intros Heq.
      apply (f_equal (fun m : dict => m !! "skipped")) in Heq. discriminate Heq. }
  destruct (collect_all results (Summary 0 0 0 [] [])) as (_ & _ & _ & Hskip).
  { eapply Forall_impl; [exact Hshape|]. intros d [_ Hd]. exact Hd. }
  cbv zeta in Hskip. rewrite Hskip; [reflexivity|].
  intros Hin. rewrite Forall_forall in Hshape.
  destruct (Hshape _ Hin) as [Hne _]. congruence.
Qed.

Lemma orchestrator_never_skips_witness :
  well_named missing_metadata /\
  skip_count (Summary 1 0 1
               ["Unknown: Morpheme file not found with pattern: /data/Training/Labeled/REAL/WORD/morpheme/01/NIA_SL_WORD0002_REAL*_F_morpheme.json"]
               [success_dict w3_name 3 0 2 (ratio 1 10) (ratio 2 10)]) = 0.
Proof.
  assert (well_named missing_metadata) as Hw
    by (eapply (bool_decide_unpack _); vm_compute; exact I).
  split; [exact Hw|].
  destruct (process_dataset "/data" "/out" true None false None missing_metadata)
    as [r w'] eqn:E.
  assert (r = Ok (Summary 1 0 1
               ["Unknown: Morpheme file not found with pattern: /data/Training/Labeled/REAL/WORD/morpheme/01/NIA_SL_WORD0002_REAL*_F_morpheme.json"]
               [success_dict w3_name 3 0 2 (ratio 1 10) (ratio 2 10)])) as ->.
  { change r with (fst (r, w')). rewrite <- E. by_evaluation. }
  exact (orchestrator_never_skips _ _ _ _ _ _ missing_metadata _ _ Hw E).
Defined.

(** ** The error report *)

#[global] Instance same_clock_preorder : PreOrder same_clock.
Proof. split; [intros w; reflexivity | intros a b c H1 H2; unfold same_clock in *; congruence]. Qed.

Lemma emit_same_clock e : keeps same_clock (emit e).
Proof. intros w r w' [= <- <-]. reflexivity. Qed.
#[export] Hint Resolve emit_same_clock : keeps.

Lemma mkdir_same_clock p : keeps same_clock (mkdir p).
Proof.
  intros w r w' H.
  apply mkdir_inv in H as [(e & _ & ->) | (_ & _ & _ & ->)]; reflexivity.
Qed.
#[export] Hint Resolve mkdir_same_clock : keeps.

Lemma write_file_same_clock p data : keeps same_clock (write_file p data).
Proof.
  intros w r w' H.
  apply write_file_inv in H as [(e & _ & ->) | (_ & _ & _ & _ & ->)]; reflexivity.
Qed.
#[export] Hint Resolve write_file_same_clock : keeps.

Lemma makedirs_from_same_clock fuel name :
  keeps same_clock (makedirs_from fuel name).
Proof. apply keeps_makedirs_from; [typeclasses eauto | apply mkdir_same_clock]. Qed.
#[export] Hint Resolve makedirs_from_same_clock : keeps.

Lemma copy_frames_same_clock dry files out frames c :
  keeps same_clock (copy_frames dry files out frames c).
Proof.
  revert c. induction frames as [|[i idx] rest IH]; intros c; cbn [copy_frames].
  - keeps_step.
  - unfold copy2. repeat keeps_step.
Qed.
#[export] Hint Resolve copy_frames_same_clock : keeps.

Lemma process_sign_folder_same_clock kf mf ob dry :
  keeps same_clock (process_sign_folder kf mf ob dry).
Proof.
  unfold process_sign_folder, trim_folder, makedirs. cbv zeta.
  repeat keeps_step.
Qed.

Lemma run_jobs_same_clock tasks : keeps same_clock (run_jobs tasks).
Proof.
  induction tasks as [|[[[kf mf] ob] dry] rest IH]; cbn [run_jobs].
  - keeps_step.
  - apply keeps_bind; [typeclasses eauto | | intros r].
    + apply process_sign_folder_same_clock.
    + repeat keeps_step.
Qed.

Lemma discovered_tasks_mode w dr ob dry (t : task) :
  t ∈ discovered_tasks w dr ob dry -> t.2 = dry.
Proof.
  unfold discovered_tasks. cbv zeta.
  destruct (listdir w (keypoint_base_of dr)) as [names|]; [|intros H; inversion H].
  intros H. apply list_elem_of_bind in H as (num & Ht & _).
  unfold folder_tasks in Ht. cbv zeta in Ht.
  destruct (negb (path_exists w _)); [inversion Ht|].
  destruct (negb (path_exists w _)); [inversion Ht|].
  destruct (listdir w (path_join (keypoint_base_of dr) num)); [|inversion Ht].
  apply list_elem_of_fmap in Ht as (folder & -> & _). reflexivity.
Qed.

Lemma run_jobs_dry_unchanged tasks :
  Forall (fun t : task => t.2 = true) tasks -> keeps unchanged (run_jobs tasks).
Proof.
  induction 1 as [|[[[kf mf] ob] dry] rest Hd _ IH]; cbn [run_jobs].
  - keeps_step.
  - cbn in Hd. subst dry.
    apply keeps_bind; [typeclasses eauto | | intros r].
    + apply process_sign_folder_dry_unchanged.
    + repeat keeps_step.
Qed.

Lemma pool_open_inv n w r w' :
  pool_open n w = (r, w') ->
  trace w' = trace w ++ [EvPool n] /\ fs w' = fs w /\ clock w' = clock w.
Proof.
  unfold pool_open. intros H.
  apply bind_inv in H as [([] & w0 & He & H) | (e & He & _)];
    [|apply emit_trace in He as ([=] & _)].
  assert (w' = w0) as -> by (destruct (n <? 1); injection H as _ <-; reflexivity).
  injection He as <-. auto.
Qed.

(** What a returning run of the orchestrator consists of: the jobs, which
    issue folder calls and at most a pool, and then the report. *)
Lemma process_dataset_report dr ob dry elp use_mp nw w acc w' :
  process_dataset dr ob dry elp use_mp nw w = (Ok acc, w') ->
  exists wj,
    emits (fun e => folder_event e \/ is_pool e) w wj /\
    clock wj = clock w /\
    (dry = true -> wj = w) /\
    match report_due elp acc with
    | Some path =>
        exists ww,
          emit (EvWrite path) wj = (Ok tt, ww) /\
          write_file path
            (TextFile (error_report (clock w) (error_list acc)) no_json_value) ww
          = (Ok tt, w')
    | None => w' = wj
    end.
Proof.
  unfold process_dataset.
  rewrite (bind_ok _ _ w w w) by reflexivity.
  change (foldl path_join dr ["Training"; "Labeled"; "REAL"; "WORD"])
    with (keypoint_base_of dr).
  cbv zeta. intros H.
  apply bind_inv in H as [(names & w0 & [= Hls <-] & H) | (e & _ & [=])].
  apply bind_inv in H as [(results & wj & Hj & H) | (e & _ & [=])].
  apply bind_inv in H as [([] & w2 & Hr & [= <- <-]) | (e & _ & [=])].
  exists wj.
  assert (sorted
            (List.filter
               (fun d => path_isdir w (path_join (keypoint_base_of dr) d) && isdigit d)
               names) ≫=
          folder_tasks w (keypoint_base_of dr)
            (path_join (keypoint_base_of dr) "morpheme") ob dry
          = discovered_tasks w dr ob dry) as Htasks.
  { unfold discovered_tasks. rewrite Hls. reflexivity. }
  rewrite Htasks in Hj.
  assert (emits (fun e => folder_event e \/ is_pool e) w wj /\ clock wj = clock w
          /\ (dry = true -> wj = w))
    as (Hem & Hclock & Hdry).
  { assert (forall tasks, keeps (emits (fun e => folder_event e \/ is_pool e))
                            (run_jobs tasks)) as Hjobs.
    { intros tasks. eapply keeps_weaken; [|apply run_jobs_folder_events].
      intros wa wb. apply emits_weaken. auto. }
    destruct dry.
    - rewrite andb_false_r in Hj.
      assert (wj = w) as ->; [|repeat split; auto; exists []; rewrite app_nil_r; auto].
      revert Hj. apply run_jobs_dry_unchanged.
      apply Forall_forall. intros t Ht. exact (discovered_tasks_mode _ _ _ _ _ Ht).
    - split; [|split; [|discriminate]].
      + destruct (use_mp && negb false); [|exact (Hjobs _ _ _ _ Hj)].
        apply bind_inv in Hj as [([] & wp & Hp & Hj) | (e & _ & [=])].
        apply pool_open_inv in Hp as (Hp & _).
        destruct (Hjobs _ _ _ _ Hj) as (t & Ht & Hall).
        exists (EvPool (match nw with Some n => n | None => Z.max 1 (cores w - 1) end)
                  :: t).
        split; [rewrite Ht, Hp, <- app_assoc; reflexivity|].
        constructor; [right; eexists; reflexivity | exact Hall].
      + destruct (use_mp && negb false);
          [|exact (run_jobs_same_clock _ _ _ _ Hj)].
        apply bind_inv in Hj as [([] & wp & Hp & Hj) | (e & _ & [=])].
        apply pool_open_inv in Hp as (_ & _ & Hp).
        rewrite <- Hp. exact (run_jobs_same_clock _ _ _ _ Hj). }
  split; [exact Hem|]. split; [exact Hclock|]. split; [exact Hdry|].
  unfold report_due.
  destruct elp as [path|]; [|injection Hr as <-; reflexivity].
  destruct (error_list _); [injection Hr as <-; reflexivity|].
  destruct (nonempty path); [|injection Hr as <-; reflexivity].
  apply bind_inv in Hr as [(wa & wb & [= <- <-] & Hr) | (e & _ & [=])].
  apply bind_inv in Hr as [([] & ww & He & Hr) | (e & _ & [=])].
  exists ww. rewrite <- Hclock. auto.
Qed.

Lemma write_file_effect p data w w' :
  write_file p data w = (Ok tt, w') ->
  trace w' = trace w /\
  fs w' !! p = Some (File data) /\
  (forall q d, q <> p -> fs w' !! q = Some (File d) <-> fs w !! q = Some (File d)) /\
  (forall q, path_isdir w' q = path_isdir w q).
Proof.
  intros H. apply write_file_inv in H
    as [(e & [=] & _) | (_ & Hne & Hk & Hd & ->)].
  cbn [trace fs with_fs]. split; [reflexivity|].
  split; [apply lookup_insert_eq|]. split.
  - intros q d Hq. rewrite lookup_insert_ne by congruence. apply add_entry_files.
  - intros q. rewrite !path_isdir_spec. cbn [fs with_fs]. f_equal.
    destruct (decide (p = os_key q)) as [Heq|Hne'].
    + rewrite <- Heq, lookup_insert_eq.
      rewrite path_isdir_spec, Hne, Hk in Hd. symmetry. exact Hd.
    + rewrite lookup_insert_ne by exact Hne'. apply add_entry_isdir.
Qed.

(** ** Sequential execution *)

Lemma run_jobs_sequential tasks w r w' :
  run_jobs tasks w = (r, w') -> sequential tasks w r w'.
Proof.
  revert w r w'. induction tasks as [|t rest IH]; intros w r w'; cbn [run_jobs].
  - intros [= <- <-]. constructor.
  - intros H.
    apply bind_inv in H as [(d & w1 & H1 & H) | (e & H1 & ->)];
      [|apply sequential_raise; exact H1].
    apply bind_inv in H as [(ds & w2 & H2 & [= <- <-]) | (e & H2 & ->)].
    + eapply sequential_ok; [exact H1 | apply IH; exact H2].
    + eapply sequential_raise_later; [exact H1 | apply IH; exact H2].
Qed.

Lemma sequential_length tasks w results w' :
  sequential tasks w (Ok results) w' -> length results = length tasks.
Proof.
  revert w results. induction tasks as [|t rest IH]; intros w results H;
    inversion H; subst; [reflexivity|].
  cbn [length]. f_equal. eapply IH. eassumption.
Qed.

(** C9. With [dry_run] true the orchestrator runs every discovered job in
    the sequential loop, whatever [use_multiprocessing] and [num_workers]
    are: once the WORD directory is listed, the jobs run one after the
    other on the world as it is, a job that raises ends the run with its
    exception, and otherwise there is one outcome for each job and the
    summary returned is the one collected from these outcomes, in order.
    The run is the run with parallel execution switched off and no worker
    count. In every run, a pool is created only with [use_multiprocessing]
    true and [dry_run] false. *)
Theorem pool_only_when_parallel_and_real dr ob dry elp use_mp nw w r w' :
  process_dataset dr ob dry elp use_mp nw w = (r, w') ->
  (dry = true ->
   match listdir w (keypoint_base_of dr) with
   | Raise e => r = Raise e /\ w' = w
   | Ok _ =>
       let all_tasks := discovered_tasks w dr ob true in
       exists jobs,
         sequential all_tasks w jobs w /\
         match jobs with
         | Raise e => r = Raise e /\ w' = w
         | Ok results =>
             let acc := foldl collect (Summary 0 0 0 [] []) results in
             length results = length all_tasks /\
             (r = Ok acc \/
              exists e path, r = Raise e /\ report_due elp acc = Some path)
         end
   end) /\
  (dry = true -> process_dataset dr ob true elp false None w = (r, w')) /\
  emits (fun e => is_pool e -> use_mp = true /\ dry = false) w w'.
Proof.
  intros H. split; [|split].
  - intros ->. revert H. unfold process_dataset.
    rewrite (bind_ok _ _ w w w) by reflexivity.
    change (foldl path_join dr ["Training"; "Labeled"; "REAL"; "WORD"])
      with (keypoint_base_of dr).
    cbv zeta. rewrite andb_false_r. intros H.
    destruct (listdir w (keypoint_base_of dr)) as [names|e0] eqn:Hls.
    2:{ apply bind_inv in H as [(? & ? & [=] & _) | (e & [= <- <-] & ->)]. auto. }
    apply bind_inv in H as [(names' & w0 & [= <- <-] & H) | (e & [=] & _)].
    assert (sorted
              (List.filter
                 (fun d => path_isdir w (path_join (keypoint_base_of dr) d)
                           && isdigit d)
                 names) ≫=
            folder_tasks w (keypoint_base_of dr)
              (path_join (keypoint_base_of dr) "morpheme") ob true
            = discovered_tasks w dr ob true) as Htasks.
    { unfold discovered_tasks. rewrite Hls. reflexivity. }
    rewrite Htasks in H.
    assert (keeps unchanged (run_jobs (discovered_tasks w dr ob true))) as Hjobs.
    { apply run_jobs_dry_unchanged, Forall_forall. intros t Ht.
      exact (discovered_tasks_mode _ _ _ _ _ Ht). }
    apply bind_inv in H as [(results & wj & Hj & H) | (e & Hj & ->)].
    + pose proof (Hjobs _ _ _ Hj) as Hw. red in Hw. subst wj.
      apply run_jobs_sequential in Hj.
      exists (Ok results). split; [exact Hj|].
      split; [exact (sequential_length _ _ _ _ Hj)|].
      apply bind_inv in H as [([] & w2 & _ & [= <- _]) | (e & Hr & ->)];
        [left; reflexivity|].
      right. exists e. unfold report_due.
      destruct elp as [path|]; [|discriminate Hr].
      destruct (error_list _); [discriminate Hr|].
      destruct (nonempty path); [eauto | discriminate Hr].
    + pose proof (Hjobs _ _ _ Hj) as Hw. red in Hw. subst w'.
      apply run_jobs_sequential in Hj.
      exists (Raise e). auto.
  - intros ->. revert H. unfold process_dataset.
    destruct use_mp; exact (fun H => H).
  - revert H. apply process_dataset_emits.
    + intros e He Hp. destruct (folder_event_not_pool e He Hp).
    + intros p (n & [=]).
    + intros Hc n _. destruct use_mp, dry; try discriminate. auto.
Qed.

Lemma pool_only_when_parallel_and_real_witness :
  let run := process_dataset "/data" "/out" true None true (Some 8) plain in
  let all_tasks := discovered_tasks plain "/data" "/out" true in
  (exists results,
     sequential all_tasks plain (Ok results) plain /\
     length results = length all_tasks /\
     fst run = Ok (foldl collect (Summary 0 0 0 [] []) results)) /\
  process_dataset "/data" "/out" true None false None plain = run /\
  emits (fun e => is_pool e -> true = true /\ true = false) plain (snd run).
Proof.
  cbv zeta.
  destruct (process_dataset "/data" "/out" true None true (Some 8) plain)
    as [r w'] eqn:E.
  assert (returns r = true) as Hr.
  { change r with (fst (r, w')). rewrite <- E. by_evaluation. }
  destruct (pool_only_when_parallel_and_real _ _ _ _ _ _ _ _ _ E)
    as (Hseq & Hsame & Hpool).
  split; [|split; [exact (Hsame eq_refl) | exact Hpool]].
  specialize (Hseq eq_refl).
  assert (returns (listdir plain (keypoint_base_of "/data")) = true) as Hls
    by by_evaluation.
  destruct (listdir plain (keypoint_base_of "/data")) as [names|e];
    [|discriminate Hls].
  destruct Hseq as ([results|e] & Hjobs & Hrest).
  - destruct Hrest as (Hlen & [-> | (e & path & _ & [=])]).
    exists results. auto.
  - destruct Hrest as [-> _]. discriminate Hr.
Defined.

(** ** What a dry run touches *)

(** A dry run of the orchestrator does nothing, or nothing but open the
    error log. *)
Lemma process_dataset_dry_effect dr ob elp use_mp nw :
  keeps (report_only elp) (process_dataset dr ob true elp use_mp nw).
Proof.
  intros w r w'. unfold report_only.
  unfold process_dataset.
  rewrite (bind_ok _ _ w w w) by reflexivity.
  change (foldl path_join dr ["Training"; "Labeled"; "REAL"; "WORD"])
    with (keypoint_base_of dr).
  cbv zeta. rewrite andb_false_r. intros H.
  apply bind_inv in H as [(names & w0 & [= Hls <-] & H) | (e & [= _ <-] & _)];
    [|left; reflexivity].
  assert (sorted
            (List.filter
               (fun d => path_isdir w (path_join (keypoint_base_of dr) d) && isdigit d)
               names) ≫=
          folder_tasks w (keypoint_base_of dr)
            (path_join (keypoint_base_of dr) "morpheme") ob true
          = discovered_tasks w dr ob true) as Htasks.
  { unfold discovered_tasks. rewrite Hls. reflexivity. }
  rewrite Htasks in H.
  assert (keeps unchanged (run_jobs (discovered_tasks w dr ob true))) as Hjobs.
  { apply run_jobs_dry_unchanged, Forall_forall. intros t Ht.
    exact (discovered_tasks_mode _ _ _ _ _ Ht). }
  apply bind_inv in H as [(results & wj & Hj & H) | (e & Hj & _)];
    [|left; exact (Hjobs _ _ _ Hj)].
  apply Hjobs in Hj. red in Hj. subst wj.
  assert (forall rr, (match elp, error_list (foldl collect (Summary 0 0 0 [] []) results)
                      with
                      | Some path, _ :: _ =>
                          if nonempty path then
                            w1 ← ask;
                            emit (EvWrite path) ;;
                            write_file path
                              (TextFile
                                 (error_report (clock w1)
                                    (error_list
                                       (foldl collect (Summary 0 0 0 [] []) results)))
                                 no_json_value)
                          else mret tt
                      | _, _ => mret tt
                      end) w = (rr, w') ->
          w' = w \/
          exists path,
            elp = Some path /\ nonempty path = true /\
            trace w' = trace w ++ [EvWrite path] /\
            (forall q d, q <> path ->
               fs w' !! q = Some (File d) <-> fs w !! q = Some (File d)) /\
            (forall q, path_isdir w' q = path_isdir w q)) as Hreport.
  { intros rr Hr.
    destruct elp as [path|]; [|injection Hr as _ <-; left; reflexivity].
    destruct (error_list _); [injection Hr as _ <-; left; reflexivity|].
    destruct (nonempty path) eqn:Hne; [|injection Hr as _ <-; left; reflexivity].
    right. exists path. split; [reflexivity|]. split; [exact Hne|].
    rewrite (bind_ok _ _ w w w) in Hr by reflexivity.
    apply bind_inv in Hr as [([] & ww & He & Hr) | (e & He & _)];
      [|apply emit_trace in He as ([=] & _)].
    apply emit_trace in He as (_ & Htr & Hfs).
    assert (forall q, path_isdir ww q = path_isdir w q) as Hdirs
      by (intros q; apply path_isdir_same_fs; exact Hfs).
    destruct rr as [[]|e].
    - apply write_file_effect in Hr as (Ht & _ & Hfiles & Hd).
      rewrite Ht, Htr. split; [reflexivity|]. split.
      + intros q d Hq. rewrite (Hfiles q d Hq), Hfs. reflexivity.
      + intros q. rewrite Hd. apply Hdirs.
    - apply write_file_inv in Hr as [(e' & _ & ->) | ([=] & _)].
      rewrite Htr. split; [reflexivity|]. split.
      + intros q d _. rewrite Hfs. reflexivity.
      + exact Hdirs. }
  apply bind_inv in H as [([] & w2 & Hr & [= _ <-]) | (e & Hr & _)];
    eapply Hreport; exact Hr.
Qed.

(** X7. A dry run of the orchestrator leaves the world as it found it, with
    one exception: when errors were collected and an error-log path is
    given, it opens that path for writing. No other file is created or
    changed and no directory appears, whatever the run returns or raises. *)
Theorem dry_run_touches_only_the_report dr ob elp use_mp nw w r w' :
  process_dataset dr ob true elp use_mp nw w = (r, w') ->
  w' = w \/
  exists path,
    elp = Some path /\ nonempty path = true /\
    trace w' = trace w ++ [EvWrite path] /\
    (forall q d, q <> path ->
       fs w' !! q = Some (File d) <-> fs w !! q = Some (File d)) /\
    (forall q, path_isdir w' q = path_isdir w q).
Proof.
  intros H. destruct (process_dataset_dry_effect _ _ _ _ _ _ _ _ H) as [Hw|Hw].
  - left. exact Hw.
  - right. exact Hw.
Qed.

Lemma dry_run_touches_only_the_report_witness :
  let w' := snd (process_dataset "/data" "/out" true (Some "/data/errors.log")
                   false None missing_metadata) in
  w' = missing_metadata \/
  exists path,
    Some "/data/errors.log" = Some path /\ nonempty path = true /\
    trace w' = trace missing_metadata ++ [EvWrite path] /\
    (forall q d, q <> path ->
       fs w' !! q = Some (File d) <-> fs missing_metadata !! q = Some (File d)) /\
    (forall q, path_isdir w' q = path_isdir missing_metadata q).
Proof.
  cbv zeta.
  destruct (process_dataset "/data" "/out" true (Some "/data/errors.log")
              false None missing_metadata) as [r w'] eqn:E.
  exact (dry_run_touches_only_the_report _ _ _ _ _ _ _ _ E).
Defined.

Lemma folder_event_not_write e : folder_event e -> ~ is_write e.
Proof. intros H (p & ->). exact H. Qed.

(** X8. When the orchestrator returns, the error log was opened exactly
    when an error-log path was given, it is not empty and at least one error
    was collected. Then the open is the last call of the run, no other file
    is opened for writing, and the file holds the report of the collected
    errors stamped with the clock; otherwise no file is opened for writing
    at all. *)
Theorem error_report_written_when_due dr ob dry elp use_mp nw w acc w' :
  process_dataset dr ob dry elp use_mp nw w = (Ok acc, w') ->
  exists before,
    Forall (fun e => ~ is_write e) before /\
    match report_due elp acc with
    | Some path =>
        trace w' = trace w ++ before ++ [EvWrite path] /\
        fs w' !! path
        = Some (File (TextFile (error_report (clock w) (error_list acc))
                        no_json_value))
    | None => trace w' = trace w ++ before
    end.
Proof.
  intros H.
  apply process_dataset_report in H as (wj & (before & Hbefore & Hall) & _ & _ & H).
  exists before. split.
  - eapply Forall_impl; [exact Hall|]. intros e [He|He] [p ->].
    + exact He.
    + destruct He as [n He]. discriminate He.
  - destruct (report_due elp acc) as [path|]; [|subst w'; exact Hbefore].
    destruct H as (ww & He & Hw).
    apply emit_trace in He as (_ & Htr & _).
    apply write_file_effect in Hw as (Ht & Hfile & _).
    split; [|exact Hfile].
    rewrite Ht, Htr, Hbefore, <- app_assoc. reflexivity.
Qed.

Lemma error_report_written_when_due_witness :
  let w' := snd (process_dataset "/data" "/out" true (Some "/data/errors.log")
                   false None missing_metadata) in
  let errors :=
    ["Unknown: Morpheme file not found with pattern: /data/Training/Labeled/REAL/WORD/morpheme/01/NIA_SL_WORD0002_REAL*_F_morpheme.json"] in
  let acc := Summary 1 0 1 errors
               [success_dict w3_name 3 0 2 (ratio 1 10) (ratio 2 10)] in
  exists before,
    Forall (fun e => ~ is_write e) before /\
    match report_due (Some "/data/errors.log") acc with
    | Some path =>
        trace w' = trace missing_metadata ++ before ++ [EvWrite path] /\
        fs w' !! path
        = Some (File (TextFile (error_report (clock missing_metadata)
                                  (error_list acc))
                        no_json_value))
    | None => trace w' = trace missing_metadata ++ before
    end.
Proof.
  cbv zeta.
  destruct (process_dataset "/data" "/out" true (Some "/data/errors.log")
              false None missing_metadata) as [r w'] eqn:E.
  assert (r = Ok (Summary 1 0 1
               ["Unknown: Morpheme file not found with pattern: /data/Training/Labeled/REAL/WORD/morpheme/01/NIA_SL_WORD0002_REAL*_F_morpheme.json"]
               [success_dict w3_name 3 0 2 (ratio 1 10) (ratio 2 10)])) as ->.
  { change r with (fst (r, w')). rewrite <- E. by_evaluation. }
  exact (error_report_written_when_due _ _ _ _ _ _ _ _ _ E).
Defined.

(** ** The offset *)

(** X9. The offset widens the range by exactly that many frames on each
    side, as far as the folder goes: when the call with offset 0 returns
    [(s0, e0)], the call with an offset [o >= 0] returns
    [(max 0 (s0 - o), min (n - 1) (e0 + o))], so the clamping of the
    widened range and the widening of the clamped range agree. *)
Theorem offset_widens_both_ends (start_time end_time duration : value)
    (total_frames offset s0 e0 : Z) :
  0 <= offset ->
  get_frame_range start_time end_time duration total_frames 0 = Ok (s0, e0) ->
  get_frame_range start_time end_time duration total_frames offset
  = Ok (Z.max 0 (s0 - offset), Z.min (total_frames - 1) (e0 + offset)).
Proof.
  intros Ho H.
  apply get_frame_range_ok in H
    as (fps & x & a & y & b & Hfps & Hx & Ha & Hy & Hb & -> & ->).
  apply get_frame_range_ok. exists fps, x, a, y, b.
  repeat split; try assumption; lia.
Qed.

Lemma offset_widens_both_ends_witness :
  get_frame_range (ratio 1 1) (ratio 3 1) (ratio 5 1) 100 45
  = Ok (Z.max 0 (20 - 45), Z.min (100 - 1) (60 + 45)).
Proof.
  apply (offset_widens_both_ends (ratio 1 1) (ratio 3 1) (ratio 5 1) 100 45 20 60);
    [lia | reflexivity].
Defined.

(** ** The scan of a folder name *)

Lemma scan_parts_snoc parts part :
  scan_parts (parts ++ [part])
  = (if startswith part "WORD" then Some part else fst (scan_parts parts),
     if bool_decide (part ∈ view_codes) then Some part else snd (scan_parts parts)).
Proof.
  unfold scan_parts. rewrite foldl_snoc.
  destruct (foldl _ _ parts) as [word view]. reflexivity.
Qed.

Lemma last_filter_snoc {A} (P : A -> bool) (l : list A) x :
  last (List.filter P (l ++ [x])) = if P x then Some x else last (List.filter P l).
Proof.
  rewrite List.filter_app. cbn [List.filter].
  destruct (P x); [apply last_snoc | rewrite app_nil_r; reflexivity].
Qed.

(** X10. Of the underscore-separated tokens of a folder name, the scan
    keeps the last one that starts with WORD and the last one that is a view
    code; it finds none exactly when there is none. *)
Theorem scan_parts_last_match (parts : list string) :
  scan_parts parts
  = (last (List.filter (fun part => startswith part "WORD") parts),
     last (List.filter (fun part => bool_decide (part ∈ view_codes)) parts)).
Proof.
  induction parts as [|part parts IH] using rev_ind; [reflexivity|].
  rewrite scan_parts_snoc, IH, !last_filter_snoc. reflexivity.
Qed.

(** ** Output names do not collide *)

Lemma pretty_N_char_value x :
  (x < 10)%N -> (N.of_nat (nat_of_ascii (pretty_N_char x)) - 48 = x)%N.
Proof.
  intros Hx. unfold pretty_N_char.
  destruct x as [|p]; [reflexivity|].
  do 4 (destruct p as [p|p|]; try reflexivity; try lia).
Qed.

Lemma pretty_N_go_value x :
  exists k, forall a s,
    decimal_value a (pretty_N_go x s) = decimal_value (a * k + x)%N s.
Proof.
  induction (N.lt_wf_0 x) as [x _ IH].
  assert (x = 0 \/ 0 < x)%N as [->|Hx] by lia.
  - exists 1%N. intros a s. rewrite pretty_N_go_0. f_equal. lia.
  - destruct (IH (x `div` 10)%N) as [k Hk];
      [apply N.div_lt; [exact Hx | reflexivity]|].
    exists (k * 10)%N. intros a s.
    rewrite pretty_N_go_step by exact Hx. rewrite Hk. cbn [decimal_value].
    rewrite pretty_N_char_value by (apply N.mod_lt; discriminate).
    f_equal. pose proof (N.div_mod x 10). lia.
Qed.

Lemma decimal_value_pretty (i : nat) : decimal_value 0 (pretty i) = N.of_nat i.
Proof.
  unfold pretty, pretty_nat, pretty, pretty_N.
  destruct (decide (N.of_nat i = 0%N)) as [->|_]; [reflexivity|].
  destruct (pretty_N_go_value (N.of_nat i)) as [k Hk].
  rewrite Hk. reflexivity.
Qed.

Lemma decimal_value_zeros k s :
  decimal_value 0 (repeat_char "0" k +:+ s) = decimal_value 0 s.
Proof. induction k as [|k IH]; [reflexivity | exact IH]. Qed.

Lemma format_012d_inj i j : format_012d i = format_012d j -> i = j.
Proof.
  intros H. apply (f_equal (decimal_value 0)) in H.
  unfold format_012d in H. cbv zeta in H.
  rewrite !decimal_value_zeros, !decimal_value_pretty in H. lia.
Qed.

(** The position can be read back from a renumbered name. *)
Lemma renumber_position base1 base2 i j name :
  renumber base1 i = Ok name -> renumber base2 j = Ok name -> i = j.
Proof.
  unfold renumber, set_second_last. intros H1 H2.
  destruct (Nat.ltb_spec (length (split_on "_" base1)) 2) as [|Hl1];
    [discriminate|].
  destruct (Nat.ltb_spec (length (split_on "_" base2)) 2) as [|Hl2];
    [discriminate|].
  cbn in H1, H2. injection H1 as H1. injection H2 as H2.
  assert (forall base k,
            (2 <= length (split_on "_" base))%nat ->
            split_on "_"
              (join "_" (<[(length (split_on "_" base) - 2)%nat := format_012d k]>
                           (split_on "_" base)))
            = <[(length (split_on "_" base) - 2)%nat := format_012d k]>
                (split_on "_" base)) as Hsplit.
  { intros base k Hl. apply split_on_join.
    - intros Hnil. apply (f_equal length) in Hnil.
      rewrite length_insert in Hnil. cbn in Hnil. lia.
    - apply Forall_insert; [apply split_on_tokens | apply format_012d_no_underscore]. }
  pose proof (Hsplit base1 i Hl1) as E1. pose proof (Hsplit base2 j Hl2) as E2.
  rewrite H1 in E1. rewrite H2 in E2. rewrite E1 in E2.
  assert (length (split_on "_" base1) = length (split_on "_" base2)) as Hlen.
  { apply (f_equal length) in E2. rewrite !length_insert in E2. exact E2. }
  apply (f_equal (fun l => l !! (length (split_on "_" base1) - 2)%nat)) in E2.
  rewrite list_lookup_insert_eq in E2 by lia.
  rewrite Hlen, list_lookup_insert_eq in E2 by lia.
  injection E2 as E2. exact (format_012d_inj _ _ E2).
Qed.

(** X11. Two frames renumbered to different positions get different names,
    whatever their old names were: the copies of one run cannot overwrite
    one another. *)
Theorem renumbered_names_differ base1 base2 i j name1 name2 :
  i <> j ->
  renumber base1 i = Ok name1 ->
  renumber base2 j = Ok name2 ->
  name1 <> name2.
Proof.
  intros Hij H1 H2 Heq. apply Hij. subst name2.
  exact (renumber_position _ _ _ _ _ H1 H2).
Qed.

Lemma renumbered_names_differ_witness :
  "NIA_SL_WORD0001_REAL02_F_000000000000_keypoints.json"
  <> "NIA_SL_WORD0001_REAL02_F_000000000001_keypoints.json".
Proof.
  apply (renumbered_names_differ
           "NIA_SL_WORD0001_REAL02_F_000000000007_keypoints.json"
           "NIA_SL_WORD0001_REAL02_F_000000000007_keypoints.json" 0 1);
    [lia | reflexivity | reflexivity].
Defined.

(** ** Discovery *)

Lemma insert_sorted_elem_iff x y l : x ∈ insert_sorted y l <-> x = y \/ x ∈ l.
Proof.
  induction l as [|z l IH]; cbn [insert_sorted].
  - rewrite list_elem_of_singleton, elem_of_nil. tauto.
  - destruct (String.leb y z).
    + rewrite elem_of_cons. reflexivity.
    + rewrite !elem_of_cons, IH. tauto.
Qed.

Lemma sorted_elem_iff x l : x ∈ sorted l <-> x ∈ l.
Proof.
  unfold sorted. induction l as [|y l IH]; cbn [foldr]; [reflexivity|].
  rewrite insert_sorted_elem_iff, IH, elem_of_cons. reflexivity.
Qed.

Lemma elem_of_list_filter {A} (P : A -> bool) (l : list A) x :
  x ∈ List.filter P l <-> x ∈ l /\ P x = true.
Proof.
  split.
  - intros H. apply list_elem_of_In, filter_In in H as [H1 H2].
    split; [apply list_elem_of_In; exact H1 | exact H2].
  - intros [H1 H2]. apply list_elem_of_In, filter_In.
    split; [apply list_elem_of_In; exact H1 | exact H2].
Qed.

(** X12. Discovery queues exactly the Front-view folders of the numbered
    folders that have a metadata folder: a job is queued if and only if it
    is made of a numeric entry [num] of the WORD directory that is a
    directory and has [morpheme/num], and of an entry of [num] that is a
    directory and has [_F] in its name; it carries the metadata folder
    [morpheme/num], the output base [output/num] and the run's mode. *)
Theorem discovery_queues_exactly dr ob dry w names (t : task) :
  listdir w (keypoint_base_of dr) = Ok names ->
  t ∈ discovered_tasks w dr ob dry <->
  exists num entries folder,
    num ∈ names /\ isdigit num = true /\
    path_exists w (path_join (path_join (keypoint_base_of dr) "morpheme") num) = true /\
    listdir w (path_join (keypoint_base_of dr) num) = Ok entries /\
    folder ∈ entries /\
    path_isdir w (path_join (path_join (keypoint_base_of dr) num) folder) = true /\
    contains "_F" folder = true /\
    t = (path_join (path_join (keypoint_base_of dr) num) folder,
         path_join (path_join (keypoint_base_of dr) "morpheme") num,
         path_join ob num, dry).
Proof.
  intros Hls. unfold discovered_tasks. cbv zeta. rewrite Hls.
  rewrite list_elem_of_bind. split.
  - intros (num & Ht & Hnum).
    apply sorted_elem_iff, elem_of_list_filter in Hnum as [Hnum Hok].
    apply andb_true_iff in Hok as [_ Hdigit].
    unfold folder_tasks in Ht. cbv zeta in Ht.
    destruct (path_exists w (path_join (path_join (keypoint_base_of dr) "morpheme") num))
      eqn:Hm; [|inversion Ht].
    cbn [negb] in Ht.
    destruct (negb (path_exists w _)); [inversion Ht|].
    destruct (listdir w (path_join (keypoint_base_of dr) num)) as [entries|] eqn:Hl;
      [|inversion Ht].
    apply list_elem_of_fmap in Ht as (folder & -> & Hf).
    apply elem_of_list_filter in Hf as [Hf Hview].
    apply sorted_elem_iff, elem_of_list_filter in Hf as [Hf Hdir].
    exists num, entries, folder. auto 10.
  - intros (num & entries & folder & Hnum & Hdigit & Hm & Hl & Hf & Hdir & Hview & ->).
    exists num. split.
    + unfold folder_tasks. cbv zeta. rewrite Hm, Hl. cbn [negb].
      assert (path_exists w (path_join (keypoint_base_of dr) num) = true) as ->.
      { exact (proj2 (listdir_isdir _ _ _ Hl)). }
      cbn [negb]. apply list_elem_of_fmap. exists folder. split; [reflexivity|].
      apply elem_of_list_filter. split; [|exact Hview].
      apply sorted_elem_iff, elem_of_list_filter. auto.
    + apply sorted_elem_iff, elem_of_list_filter. split; [exact Hnum|].
      apply andb_true_iff. split; [|exact Hdigit].
      exact (proj1 (listdir_isdir _ _ _ Hl)).
Qed.

Lemma discovery_queues_exactly_witness :
  (path_join kp01 w3_name, mo01, "/out/01", true)
    ∈ discovered_tasks missing_metadata "/data" "/out" true.
Proof.
  apply (discovery_queues_exactly "/data" "/out" true missing_metadata
           ["morpheme"; "01"]); [reflexivity|].
  exists "01", [w3_name; w2_name], w3_name.
  split; [eapply (bool_decide_unpack _); vm_compute; exact I|].
  split; [reflexivity|]. split; [reflexivity|]. split; [reflexivity|].
  split; [eapply (bool_decide_unpack _); vm_compute; exact I|].
  split; [reflexivity|]. split; reflexivity.
Defined.

(** ** Nothing is removed *)

#[global] Instance entries_stay_preorder : PreOrder entries_stay.
Proof.
  split.
  - intros w p _. reflexivity.
  - intros a b c Hab Hbc p Hp.
    rewrite <- (Hab p Hp). apply Hbc.
    intros Hb. specialize (Hab p Hp). rewrite Hb in Hab.
    destruct (fs a !! p) as [[]|]; [discriminate | discriminate | congruence].
Qed.

Lemma add_entry_kind parent name m q :
  kind_of (add_entry parent name m !! q) = kind_of (m !! q).
Proof.
  unfold add_entry. destruct (m !! parent) as [[?|names]|] eqn:Hp; try reflexivity.
  destruct (bool_decide _); [reflexivity|].
  destruct (decide (parent = q)) as [->|Hne].
  - rewrite lookup_insert_eq, Hp. reflexivity.
  - rewrite lookup_insert_ne by exact Hne. reflexivity.
Qed.

Lemma emit_entries_stay e : keeps entries_stay (emit e).
Proof. intros w r w' [= <- <-] p _. reflexivity. Qed.
#[export] Hint Resolve emit_entries_stay : keeps.

Lemma mkdir_entries_stay p : keeps entries_stay (mkdir p).
Proof.
  intros w r w' H. apply mkdir_inv in H as [(e & _ & ->) | (_ & _ & Hp & ->)];
    [reflexivity|].
  intros q Hq. cbn [fs with_fs].
  rewrite lookup_insert_ne by congruence. apply add_entry_kind.
Qed.
#[export] Hint Resolve mkdir_entries_stay : keeps.

Lemma write_file_entries_stay p data : keeps entries_stay (write_file p data).
Proof.
  intros w r w' H. apply write_file_inv in H
    as [(e & _ & ->) | (_ & Hne & Hk & Hd & ->)]; [reflexivity|].
  intros q Hq. cbn [fs with_fs].
  destruct (decide (p = q)) as [<-|Hne'].
  - rewrite lookup_insert_eq. rewrite path_isdir_spec, Hne, Hk in Hd.
    destruct (fs w !! p) as [[]|]; [reflexivity | discriminate | congruence].
  - rewrite lookup_insert_ne by exact Hne'. apply add_entry_kind.
Qed.
#[export] Hint Resolve write_file_entries_stay : keeps.

Lemma makedirs_from_entries_stay fuel name :
  keeps entries_stay (makedirs_from fuel name).
Proof. apply keeps_makedirs_from; [typeclasses eauto | apply mkdir_entries_stay]. Qed.
#[export] Hint Resolve makedirs_from_entries_stay : keeps.

Lemma copy_frames_entries_stay dry files out frames c :
  keeps entries_stay (copy_frames dry files out frames c).
Proof.
  revert c. induction frames as [|[i idx] rest IH]; intros c; cbn [copy_frames].
  - keeps_step.
  - unfold copy2. repeat keeps_step.
Qed.
#[export] Hint Resolve copy_frames_entries_stay : keeps.

Lemma process_sign_folder_entries_stay kf mf ob dry :
  keeps entries_stay (process_sign_folder kf mf ob dry).
Proof.
  unfold process_sign_folder, trim_folder, makedirs. cbv zeta.
  repeat keeps_step.
Qed.

Lemma run_jobs_entries_stay tasks : keeps entries_stay (run_jobs tasks).
Proof.
  induction tasks as [|[[[kf mf] ob] dry] rest IH]; cbn [run_jobs].
  - keeps_step.
  - apply keeps_bind; [typeclasses eauto | | intros r].
    + apply process_sign_folder_entries_stay.
    + repeat keeps_step.
Qed.
#[export] Hint Resolve run_jobs_entries_stay : keeps.

Lemma process_dataset_entries_stay dr ob dry elp use_mp nw :
  keeps entries_stay (process_dataset dr ob dry elp use_mp nw).
Proof.
  unfold process_dataset, pool_open. cbv zeta. repeat keeps_step.
Qed.

(** X13. The tool removes nothing: whatever a run of [main] does, returning
    or raising, every path that existed before it still exists after it,
    a directory is still a directory and a file still a file. *)
Theorem main_removes_nothing args w r w' p :
  main args w = (r, w') ->
  path_exists w p = true ->
  path_exists w' p = true /\ path_isdir w' p = path_isdir w p.
Proof.
  intros H Hp.
  assert (keeps entries_stay (main args)) as Hmain.
  { unfold main, setup_logging, open_append, makedirs. cbv zeta.
    pose proof process_dataset_entries_stay. repeat keeps_step. }
  specialize (Hmain _ _ _ H (os_key p)).
  rewrite !path_exists_spec, !path_isdir_spec in *.
  destruct (nonempty p); [cbn [andb] in *|discriminate].
  destruct (fs w !! os_key p) as [[]|]; [| |discriminate];
    (destruct (fs w' !! os_key p) as [[]|]; cbn in Hmain;
     try (specialize (Hmain ltac:(discriminate)); discriminate);
     split; first [reflexivity | assumption]).
Qed.

Lemma main_removes_nothing_witness :
  let args := Args "/data" "/out" false "/data/errors.log" true (Some 2)
                "/data/run.log" in
  let w' := snd (main args plain) in
  path_exists w' kp01 = true /\ path_isdir w' kp01 = path_isdir plain kp01.
Proof.
  cbv zeta.
  destruct (main (Args "/data" "/out" false "/data/errors.log" true (Some 2)
                    "/data/run.log") plain) as [r w'] eqn:E.
  exact (main_removes_nothing _ _ _ _ kp01 E eq_refl).
Defined.

(** ** The command line *)

(** X14. With [--dry-run], [main] opens no log file and creates no output
    directory: it leaves the world as it found it, except that it may open
    the error log for writing. When the data root or the WORD directory is
    missing it returns normally and has done nothing at all. *)
Theorem main_dry_run_effect args w r w' :
  args_dry_run args = true ->
  main args w = (r, w') ->
  (w' = w \/
   (nonempty (args_error_log args) = true /\
    trace w' = trace w ++ [EvWrite (args_error_log args)] /\
    (forall q d, q <> args_error_log args ->
       fs w' !! q = Some (File d) <-> fs w !! q = Some (File d)) /\
    (forall q, path_isdir w' q = path_isdir w q))) /\
  (path_exists w (args_data_root args) = false \/
   path_exists w (keypoint_base_of (args_data_root args)) = false ->
   r = Ok tt /\ w' = w).
Proof.
  intros Hdry. unfold main. rewrite Hdry. cbn [negb setup_logging].
  change (foldl path_join (args_data_root args) ["Training"; "Labeled"; "REAL"; "WORD"])
    with (keypoint_base_of (args_data_root args)).
  cbv zeta. intros H.
  rewrite (bind_ok _ _ w w tt) in H by reflexivity.
  rewrite (bind_ok _ _ w w w) in H by reflexivity.
  destruct (path_exists w (args_data_root args)) eqn:Hroot; cbn [negb] in H;
    [|injection H as <- <-; auto].
  destruct (path_exists w (keypoint_base_of (args_data_root args))) eqn:Hword;
    cbn [negb] in H; [|injection H as <- <-; auto].
  split; [|intros [|]; discriminate].
  rewrite (bind_ok _ _ w w tt) in H by reflexivity.
  assert (report_only (Some (args_error_log args)) w w') as Hw.
  { apply bind_inv in H as [(acc & w1 & Hp & [= _ <-]) | (e & Hp & _)];
      exact (process_dataset_dry_effect _ _ _ _ _ _ _ _ Hp). }
  destruct Hw as [Hw | (path & [= <-] & Hw)]; [left; exact Hw | right; exact Hw].
Qed.

Lemma main_dry_run_effect_witness :
  let args := Args "/data" "/out" true "/data/errors.log" false None "/data/run.log" in
  let w' := snd (main args missing_metadata) in
  (w' = missing_metadata \/
   (nonempty (args_error_log args) = true /\
    trace w' = trace missing_metadata ++ [EvWrite (args_error_log args)] /\
    (forall q d, q <> args_error_log args ->
       fs w' !! q = Some (File d) <-> fs missing_metadata !! q = Some (File d)) /\
    (forall q, path_isdir w' q = path_isdir missing_metadata q))) /\
  (path_exists missing_metadata (args_data_root args) = false \/
   path_exists missing_metadata (keypoint_base_of (args_data_root args)) = false ->
   fst (main args missing_metadata) = Ok tt /\ w' = missing_metadata).
Proof.
  cbv zeta.
  destruct (main (Args "/data" "/out" true "/data/errors.log" false None
                    "/data/run.log") missing_metadata) as [r w'] eqn:E.
  exact (main_dry_run_effect
           (Args "/data" "/out" true "/data/errors.log" false None "/data/run.log")
           _ _ _ eq_refl E).
Defined.

Lemma open_append_trace p w r w' :
  open_append p w = (r, w') -> trace w' = trace w ++ [EvWrite p].
Proof.
  unfold open_append. intros H.
  apply bind_inv in H as [([] & w1 & He & H) | (e & He & _)];
    [|apply emit_trace in He as ([=] & _)].
  apply emit_trace in He as (_ & <- & _).
  rewrite (bind_ok _ _ w1 w1 w1) in H by reflexivity. cbv zeta in H.
  destruct (stat w1 (normpath p)) as [[]|].
  - injection H as _ <-. reflexivity.
  - injection H as _ <-. reflexivity.
  - exact (write_file_same_trace _ _ _ _ _ H).
Qed.

(** The calls of the orchestrator, with the error log at its path. *)
Lemma process_dataset_emits_at (P : event -> Prop) dr ob dry elp use_mp nw :
  (forall e, folder_event e -> P e) ->
  (forall p, elp = Some p -> P (EvWrite p)) ->
  (use_mp && negb dry = true -> forall n, P (EvPool n)) ->
  keeps (emits P) (process_dataset dr ob dry elp use_mp nw).
Proof.
  intros Hfolder Hwrite Hpool. unfold process_dataset.
  assert (forall tasks, keeps (emits P) (run_jobs tasks)) as Hjobs.
  { intros tasks. eapply keeps_weaken; [|apply run_jobs_folder_events].
    intros w w'. apply emits_weaken. exact Hfolder. }
  apply keeps_bind; [typeclasses eauto | keeps_step | intros w0].
  apply keeps_bind; [typeclasses eauto | keeps_step | intros names].
  cbv zeta.
  apply keeps_bind; [typeclasses eauto | | intros results].
  - destruct (use_mp && negb dry); [|apply Hjobs].
    apply keeps_bind; [typeclasses eauto | | intros _; apply Hjobs].
    unfold pool_open.
    apply keeps_bind; [typeclasses eauto | apply keeps_emit; auto | intros _].
    repeat keeps_step.
  - apply keeps_bind; [typeclasses eauto | | intros _; keeps_step].
    destruct elp as [path|]; [|keeps_step].
    destruct (error_list _); [keeps_step|].
    destruct (nonempty path); [|keeps_step].
    apply keeps_bind; [typeclasses eauto | keeps_step | intros w1].
    apply keeps_bind; [typeclasses eauto | apply keeps_emit; auto | intros _].
    eapply keeps_weaken; [|apply write_file_same_trace].
    intros w w'. apply same_trace_emits.
Qed.

(** X15. A real run of [main] goes through these steps, in this order. It
    opens the log file, when a log path is given; if that raises, the run
    raises and nothing follows. If the data root or the WORD directory is
    missing, the run returns with nothing else done. Otherwise it calls
    [os.makedirs] on the output directory; if that raises, the run raises
    and nothing follows. Otherwise the orchestrator runs on the world the
    call left, the run returns or raises as the orchestrator does, and the
    orchestrator's calls, the pool, the folders' own calls and the error
    log, come after the creation of the output directory. *)
Theorem main_real_run_order args w r w' :
  args_dry_run args = false ->
  main args w = (r, w') ->
  let opened :=
    if nonempty (args_log_file args) then [EvWrite (args_log_file args)] else [] in
  let word_dir := keypoint_base_of (args_data_root args) in
  exists logged wl,
    setup_logging (Some (args_log_file args)) w = (logged, wl) /\
    trace wl = trace w ++ opened /\
    match logged with
    | Raise e => r = Raise e /\ w' = wl
    | Ok _ =>
        if path_exists wl (args_data_root args) && path_exists wl word_dir then
          exists made wm,
            makedirs (args_output args) wl = (made, wm) /\
            trace wm = trace w ++ opened ++ [EvMakedirs (args_output args)] /\
            match made with
            | Raise e => r = Raise e /\ w' = wm
            | Ok _ =>
                exists processed rest,
                  process_dataset (args_data_root args) (args_output args) false
                    (Some (args_error_log args)) (args_multiprocessing args)
                    (args_workers args) wm = (processed, w') /\
                  r = match processed with
                      | Ok _ => Ok tt
                      | Raise e => Raise e
                      end /\
                  trace w'
                  = trace w ++ opened ++ EvMakedirs (args_output args) :: rest /\
                  Forall (fun e => folder_event e \/ is_pool e
                                   \/ e = EvWrite (args_error_log args)) rest
            end
        else r = Ok tt /\ w' = wl
    end.
Proof.
  intros Hdry. unfold main. rewrite Hdry. cbn [negb]. cbv zeta.
  change (foldl path_join (args_data_root args) ["Training"; "Labeled"; "REAL"; "WORD"])
    with (keypoint_base_of (args_data_root args)).
  intros H.
  destruct (setup_logging (Some (args_log_file args)) w) as [logged wl] eqn:Hlog.
  exists logged, wl. split; [reflexivity|].
  assert (trace wl = trace w ++
            (if nonempty (args_log_file args)
             then [EvWrite (args_log_file args)] else [])) as Hopened.
  { unfold setup_logging in Hlog. destruct (nonempty (args_log_file args)).
    - exact (open_append_trace _ _ _ _ Hlog).
    - injection Hlog as _ <-. rewrite app_nil_r. reflexivity. }
  split; [exact Hopened|].
  destruct logged as [[]|e].
  2:{ rewrite (bind_raise _ _ _ _ _ Hlog) in H. injection H as <- <-. auto. }
  rewrite (bind_ok _ _ _ _ _ Hlog) in H.
  rewrite (bind_ok _ _ wl wl wl) in H by reflexivity.
  destruct (path_exists wl (args_data_root args)); cbn [negb andb] in H |- *;
    [|injection H as <- <-; auto].
  destruct (path_exists wl (keypoint_base_of (args_data_root args)));
    cbn [negb] in H; [|injection H as <- <-; auto].
  destruct (makedirs (args_output args) wl) as [made wm] eqn:Hmk.
  exists made, wm. split; [reflexivity|].
  pose proof (makedirs_trace _ _ _ _ Hmk) as Hmade.
  rewrite Hopened, <- app_assoc in Hmade.
  split; [exact Hmade|].
  destruct made as [[]|e].
  2:{ rewrite (bind_raise _ _ _ _ _ Hmk) in H. injection H as <- <-. auto. }
  rewrite (bind_ok _ _ _ _ _ Hmk) in H.
  destruct (process_dataset (args_data_root args) (args_output args) false
              (Some (args_error_log args)) (args_multiprocessing args)
              (args_workers args) wm) as [processed wp] eqn:Hp.
  assert (emits (fun e => folder_event e \/ is_pool e
                          \/ e = EvWrite (args_error_log args)) wm wp)
    as (rest & Hrest & Hall).
  { revert Hp. apply process_dataset_emits_at.
    - auto.
    - intros p [= <-]. auto.
    - intros _ n. right. left. eexists. reflexivity. }
  assert (w' = wp /\ r = match processed with
                          | Ok _ => Ok tt
                          | Raise e => Raise e
                          end) as [-> ->].
  { destruct processed as [acc|e].
    - rewrite (bind_ok _ _ _ _ _ Hp) in H. injection H as <- <-. auto.
    - rewrite (bind_raise _ _ _ _ _ Hp) in H. injection H as <- <-. auto. }
  exists processed, rest. split; [reflexivity|]. split; [reflexivity|].
  split; [|exact Hall].
  rewrite Hrest, Hmade, <- !app_assoc. reflexivity.
Qed.

(** A run on the sample data: the log is opened, the output directory made,
    and the orchestrator's calls follow. *)
Lemma main_real_run_order_witness :
  let args := Args "/data" "/out" false "/data/errors.log" true (Some 2)
                "/data/run.log" in
  fst (main args plain) = Ok tt /\
  exists rest,
    trace (snd (main args plain))
    = [EvWrite "/data/run.log"; EvMakedirs "/out"] ++ rest /\
    Forall (fun e => folder_event e \/ is_pool e \/ e = EvWrite "/data/errors.log")
      rest.
Proof.
  cbv zeta.
  destruct (main (Args "/data" "/out" false "/data/errors.log" true (Some 2)
                    "/data/run.log") plain) as [r w'] eqn:E.
  assert (r = Ok tt) as Hr.
  { change r with (fst (r, w')). rewrite <- E. by_evaluation. }
  split; [exact Hr|].
  destruct (main_real_run_order
              (Args "/data" "/out" false "/data/errors.log" true (Some 2)
                 "/data/run.log") _ _ _ eq_refl E)
    as (logged & wl & Hlog & _ & H).
  cbn [args_log_file args_data_root args_output args_error_log
       args_multiprocessing args_workers] in Hlog, H.
  assert (logged = Ok tt) as ->.
  { change logged with (fst (logged, wl)). rewrite <- Hlog. by_evaluation. }
  assert (path_exists wl "/data" && path_exists wl (keypoint_base_of "/data")
          = true) as Hin.
  { change wl with (snd (Ok tt : result unit, wl)). rewrite <- Hlog. by_evaluation. }
  rewrite Hin in H. destruct H as (made & wm & Hmk & _ & H).
  destruct made as [[]|e].
  - destruct H as (processed & rest & _ & _ & Htrace & Hall).
    exists rest. split; [exact Htrace | exact Hall].
  - destruct H as [-> _]. discriminate Hr.
Defined.

(** ** What the copies leave behind *)

Lemma copy2_effect src dst w w' :
  copy2 src dst w = (Ok tt, w') ->
  path_isdir w dst = false ->
  (exists data, fs w !! src = Some (File data) /\ fs w' !! dst = Some (File data)) /\
  (forall q d, q <> dst -> fs w' !! q = Some (File d) <-> fs w !! q = Some (File d)) /\
  (forall q, path_isdir w' q = path_isdir w q).
Proof.
  unfold copy2. intros H Hd.
  apply bind_inv in H as [([] & w1 & He & H) | (e & _ & [=])].
  apply emit_trace in He as (_ & _ & Hfs).
  rewrite (bind_ok _ _ w1 w1 w1) in H by reflexivity.
  assert (path_isdir w1 dst = false) as Hd1
    by (rewrite (path_isdir_same_fs w w1 dst Hfs); exact Hd).
  rewrite Hd1 in H.
  destruct (String.eqb src dst && path_exists w1 src); [discriminate H|].
  apply bind_inv in H as [(data & w2 & [= Hread <-] & H) | (e & _ & [=])].
  apply write_file_effect in H as (_ & Hdst & Hfiles & Hdirs).
  split; [|split].
  - exists data. split; [|exact Hdst].
    apply read_file_ok in Hread as (_ & _ & Hread). rewrite Hfs in Hread.
    exact Hread.
  - intros q d Hq. rewrite (Hfiles q d Hq), Hfs. reflexivity.
  - intros q. rewrite Hdirs. apply path_isdir_same_fs. exact Hfs.
Qed.

(** A copying loop whose destinations are no directories, differ from one
    another and from every source leaves at each destination what its
    source held, and leaves every other file as it was. *)
Lemma copy_frames_contents files out frames c w1 k w2 :
  copy_frames false files out frames c w1 = (Ok k, w2) ->
  (forall f src dst, f ∈ frames ->
     copy_call files out f = Some (EvCopy src dst) -> path_isdir w1 dst = false) ->
  (forall f f' src dst src' dst', f ∈ frames -> f' ∈ frames ->
     copy_call files out f = Some (EvCopy src dst) ->
     copy_call files out f' = Some (EvCopy src' dst') -> src <> dst') ->
  (forall i j f f' src dst src' dst',
     frames !! i = Some f -> frames !! j = Some f' ->
     copy_call files out f = Some (EvCopy src dst) ->
     copy_call files out f' = Some (EvCopy src' dst') -> dst = dst' -> i = j) ->
  (forall q, path_isdir w2 q = path_isdir w1 q) /\
  (forall q d,
     (forall f src dst, f ∈ frames ->
        copy_call files out f = Some (EvCopy src dst) -> dst <> q) ->
     fs w2 !! q = Some (File d) <-> fs w1 !! q = Some (File d)) /\
  (forall f, f ∈ frames ->
     exists src dst data,
       copy_call files out f = Some (EvCopy src dst) /\
       fs w1 !! src = Some (File data) /\ fs w2 !! dst = Some (File data)).
Proof.
  revert c w1. induction frames as [|[i idx] rest IH]; intros c w1.
  - cbn [copy_frames]. intros [= <- <-] _ _ _.
    split; [reflexivity|]. split; [reflexivity|].
    intros f Hf. inversion Hf.
  - cbn [copy_frames negb]. intros H Hdir Hcross Hdistinct.
    apply bind_inv in H as [(src & w3 & [= Hsrc <-] & H) | (e & _ & [=])].
    apply bind_inv in H as [([] & wa & Hcopy & H) | (e & _ & [=])].
    apply bind_inv in Hcopy as [(parts & w4 & [= Hparts <-] & Hcopy) | (e & _ & [=])].
    assert (copy_call files out (i, idx)
            = Some (EvCopy src (path_join out (join "_" parts)))) as Hcall.
    { unfold copy_call, renumber. cbn [fst snd]. rewrite Hsrc, Hparts. reflexivity. }
    set (dst := path_join out (join "_" parts)) in *.
    destruct (copy2_effect _ _ _ _ Hcopy) as ((data & Hdata & Hdst) & Hfiles & Hdirs).
    { eapply Hdir; [left | exact Hcall]. }
    destruct (IH _ _ H) as (IHdirs & IHfiles & IHall).
    { intros f s0 d0 Hf Hc. rewrite Hdirs. eapply Hdir; [right; exact Hf | exact Hc]. }
    { intros f f' s0 d0 s1 d1 Hf Hf'. apply Hcross; right; assumption. }
    { intros a b f f' s0 d0 s1 d1 Ha Hb Hc Hc' Heq.
      assert (S a = S b) as [= ->]; [|reflexivity].
      eapply (Hdistinct (S a) (S b)); eauto. }
    split; [|split].
    + intros q. rewrite IHdirs. apply Hdirs.
    + intros q d Hq. rewrite IHfiles.
      * apply Hfiles. intros <-. eapply Hq; [left | exact Hcall | reflexivity].
      * intros f s0 d0 Hf. apply Hq. right. exact Hf.
    + intros f Hf. apply elem_of_cons in Hf as [->|Hf].
      * exists src, dst, data. split; [exact Hcall|]. split; [exact Hdata|].
        rewrite IHfiles; [exact Hdst|].
        intros f' s1 d1 Hf' Hc' <-.
        apply list_elem_of_lookup in Hf' as [j Hj].
        assert (0%nat = S j) as Hbad; [|discriminate Hbad].
        eapply (Hdistinct 0%nat (S j)); [reflexivity | exact Hj | exact Hcall
                                         | exact Hc' | reflexivity].
      * destruct (IHall f Hf) as (s1 & d1 & data1 & Hc1 & Hs1 & Hd1).
        exists s1, d1, data1. split; [exact Hc1|]. split; [|exact Hd1].
        apply Hfiles; [|exact Hs1].
        eapply Hcross; [right; exact Hf | left | exact Hc1 | exact Hcall].
Qed.

(** ** Names and paths of the copies *)

Lemma split_on_no_char c d s :
  no_char c s = true -> Forall (fun t => no_char c t = true) (split_on d s).
Proof.
  induction s as [|a s IH]; cbn [split_on no_char].
  - intros _. constructor; [reflexivity | constructor].
  - intros H. apply andb_true_iff in H as [Ha Hs]. specialize (IH Hs).
    destruct (Ascii.eqb a d); [constructor; [reflexivity | exact IH]|].
    destruct (split_on d s) as [|p ps].
    + constructor; [cbn [no_char]; rewrite Ha; reflexivity | constructor].
    + inversion IH as [|? ? Hp Hps]; subst.
      constructor; [cbn [no_char]; rewrite Ha, Hp; reflexivity | exact Hps].
Qed.

Lemma join_no_char c sep parts :
  no_char c sep = true ->
  Forall (fun t => no_char c t = true) parts ->
  no_char c (join sep parts) = true.
Proof.
  intros Hsep. induction 1 as [|x rest Hx Hrest IH]; [reflexivity|].
  cbn [join]. destruct rest as [|y rest]; [exact Hx|].
  rewrite !no_char_append, Hx, Hsep, IH. reflexivity.
Qed.

Lemma format_012d_no_char c i :
  is_digit c = false -> no_char c (format_012d i) = true.
Proof.
  intros Hc. unfold format_012d. rewrite no_char_append.
  rewrite repeat_char_no_char
    by (destruct (Ascii.eqb_spec "0" c) as [<-|]; [discriminate Hc | reflexivity]).
  cbn [andb]. unfold pretty, pretty_nat, pretty, pretty_N.
  destruct (decide _).
  - cbn [no_char]. rewrite andb_true_r. apply negb_true_iff.
    destruct (Ascii.eqb_spec "0" c) as [<-|]; [discriminate Hc | reflexivity].
  - apply pretty_N_go_no_char; [exact Hc | reflexivity].
Qed.

Lemma path_basename_no_slash p : no_char "/" (path_basename p) = true.
Proof.
  unfold path_basename.
  pose proof (split_on_tokens "/" p) as Hall.
  induction Hall as [|x rest Hx Hrest IH]; [reflexivity|].
  destruct rest as [|y rest]; [exact Hx | exact IH].
Qed.

Lemma renumber_no_slash base i name :
  no_char "/" base = true -> renumber base i = Ok name -> no_char "/" name = true.
Proof.
  intros Hbase. unfold renumber, set_second_last.
  destruct (_ <? _)%nat; [discriminate|]. cbn. intros [= <-].
  apply join_no_char; [reflexivity|].
  apply Forall_insert; [apply split_on_no_char; exact Hbase|].
  apply format_012d_no_char. reflexivity.
Qed.

Lemma renumber_not_empty base i name : renumber base i = Ok name -> name <> "".
Proof.
  unfold renumber, set_second_last.
  destruct (Nat.ltb_spec (length (split_on "_" base)) 2) as [|Hl]; [discriminate|].
  cbn. intros [= <-] Hempty.
  assert (2 <= length (<[(length (split_on "_" base) - 2)%nat := format_012d i]>
                         (split_on "_" base)))%nat as Hlen
    by (rewrite length_insert; exact Hl).
  destruct (<[_ := _]> (split_on "_" base)) as [|x [|y rest]];
    [cbn in Hlen; lia | cbn in Hlen; lia|].
  cbn [join] in Hempty. destruct x; discriminate Hempty.
Qed.

Lemma path_join_longer a b :
  no_char "/" b = true -> b <> "" ->
  (String.length a < String.length (path_join a b))%nat.
Proof.
  intros Hb Hne. unfold path_join. rewrite (startswith_no_char "/" b Hb).
  assert (1 <= String.length b)%nat by (destruct b; [congruence | cbn; lia]).
  destruct (_ || _); rewrite !length_append; lia.
Qed.

(** ** Names of nodes *)

Lemma rstrip_length c s : (String.length (rstrip c s) <= String.length s)%nat.
Proof.
  induction s as [|a s IH]; cbn [rstrip]; [lia|].
  destruct (rstrip c s); [destruct (Ascii.eqb a c)|];
    cbn [String.length] in *; lia.
Qed.

Lemma os_key_length p : (String.length (os_key p) <= String.length p)%nat.
Proof.
  unfold os_key. pose proof (rstrip_length "/" p).
  destruct (nonempty (rstrip "/" p)); [lia|].
  destruct p; cbn; lia.
Qed.

Lemma rstrip_no_char c b : no_char c b = true -> rstrip c b = b.
Proof.
  induction b as [|a b IH]; [reflexivity|].
  cbn [no_char rstrip]. intros H. apply andb_true_iff in H as [Ha Hb].
  rewrite (IH Hb). apply negb_true_iff in Ha. rewrite Ha.
  destruct b; reflexivity.
Qed.

Lemma rstrip_app_kept c x b :
  rstrip c b = b -> b <> "" -> rstrip c (x +:+ b) = x +:+ b.
Proof.
  intros Hb Hne. induction x as [|a x IH]; [exact Hb|].
  change (String a x +:+ b) with (String a (x +:+ b)).
  cbn [rstrip]. rewrite IH.
  destruct (x +:+ b) eqn:Hx; [|reflexivity].
  destruct x; [change (b = "") in Hx; contradiction | discriminate Hx].
Qed.

(** A path that ends in an entry name is the name of its node. *)
Lemma os_key_path_join a b :
  no_char "/" b = true -> b <> "" -> os_key (path_join a b) = path_join a b.
Proof.
  intros Hb Hne.
  assert (forall x, rstrip "/" (x +:+ b) = x +:+ b) as Hkept
    by (intros x; apply rstrip_app_kept; [apply rstrip_no_char; exact Hb | exact Hne]).
  assert (rstrip "/" (path_join a b) = path_join a b) as Hr.
  { unfold path_join. rewrite (startswith_no_char "/" b Hb).
    destruct (_ || _); [apply Hkept|].
    rewrite <- append_assoc_string. apply Hkept. }
  unfold os_key. rewrite Hr.
  assert (nonempty (path_join a b) = true) as ->; [|reflexivity].
  pose proof (path_join_longer a b Hb Hne).
  destruct (path_join a b); [cbn in *; lia | reflexivity].
Qed.

(** A string is what stands before its last separator, the separator and
    what stands after it. *)
Lemma split_on_rebuild c s :
  s = match List.removelast (split_on c s) with
      | [] => ""
      | front => join (String c "") front +:+ String c ""
      end +:+ List.last (split_on c s) "".
Proof.
  induction s as [|a s IH]; [reflexivity|].
  cbn [split_on]. pose proof (split_on_not_nil c s) as Hnil.
  destruct (Ascii.eqb_spec a c) as [->|Hne].
  - destruct (split_on c s) as [|p ps]; [congruence|].
    change (List.removelast ("" :: p :: ps)) with ("" :: List.removelast (p :: ps)).
    change (List.last ("" :: p :: ps) "") with (List.last (p :: ps) "").
    destruct (List.removelast (p :: ps)) as [|f fs].
    + cbn [join]. rewrite IH at 1. reflexivity.
    + change (join (String c "") ("" :: f :: fs))
        with (String c (join (String c "") (f :: fs))).
      rewrite IH at 1. reflexivity.
  - destruct (split_on c s) as [|p ps]; [congruence|].
    destruct ps as [|p' ps].
    + cbn in IH. cbn. rewrite IH at 1. reflexivity.
    + change (List.removelast (String a p :: p' :: ps))
        with (String a p :: List.removelast (p' :: ps)).
      change (List.removelast (p :: p' :: ps))
        with (p :: List.removelast (p' :: ps)) in IH.
      change (List.last (String a p :: p' :: ps) "")
        with (List.last (p :: p' :: ps) "").
      rewrite IH at 1.
      destruct (List.removelast (p' :: ps)); reflexivity.
Qed.

(** The two parts [os.path.split] returns are together no longer than the
    path. *)
Lemma path_split_length p :
  (String.length (fst (path_split p)) + String.length (snd (path_split p))
   <= String.length p)%nat.
Proof.
  pose proof (split_on_rebuild "/" p) as Hp.
  apply (f_equal String.length) in Hp. rewrite length_append in Hp.
  unfold path_split. cbv zeta. cbn [fst snd].
  change (String "/" "") with "/" in Hp.
  set (raw := match List.removelast (split_on "/" p) with
              | [] => ""
              | front => join "/" front +:+ "/"
              end) in *.
  pose proof (rstrip_length "/" raw).
  destruct (nonempty (rstrip "/" raw)); lia.
Qed.

Lemma path_split_head_length p :
  (String.length (fst (path_split p)) <= String.length p)%nat.
Proof. pose proof (path_split_length p). lia. Qed.

Lemma parent_key_length key :
  (String.length (parent_key key) <= String.length key)%nat.
Proof.
  unfold parent_key. pose proof (os_key_length (fst (path_split key))).
  pose proof (path_split_head_length key). lia.
Qed.

(** ** Where [os.makedirs] writes *)

#[global] Instance same_beyond_preorder n : PreOrder (same_beyond n).
Proof.
  split.
  - intros w q _. reflexivity.
  - intros a b c Hab Hbc q Hq. rewrite (Hbc q Hq). exact (Hab q Hq).
Qed.

Lemma mkdir_same_beyond n p :
  (String.length p <= n)%nat -> keeps (same_beyond n) (mkdir p).
Proof.
  intros Hn w r w' H q Hq.
  apply mkdir_inv in H as [(e & _ & ->) | (_ & _ & _ & ->)]; [reflexivity|].
  cbn [fs with_fs].
  pose proof (os_key_length p). pose proof (parent_key_length (os_key p)).
  rewrite lookup_insert_ne by (intros Heq; rewrite Heq in *; lia).
  apply add_entry_other. intros Heq. rewrite Heq in *. lia.
Qed.

(** [os.makedirs] touches no node with a name longer than the one it is
    given. *)
Lemma makedirs_from_same_beyond n fuel name :
  (String.length name <= n)%nat -> keeps (same_beyond n) (makedirs_from fuel name).
Proof.
  intros Hn.
  apply (keeps_makedirs_from_on (fun p => (String.length p <= n)%nat));
    [typeclasses eauto | | | exact Hn].
  - intros p Hp. apply mkdir_same_beyond. exact Hp.
  - intros p Hp. pose proof (path_split_head_length p). lia.
Qed.

(** [os.makedirs] makes no directory below the one it is asked for. *)
Lemma makedirs_not_below name entry w r w' :
  makedirs name w = (r, w') ->
  no_char "/" entry = true -> entry <> "" ->
  path_isdir w (path_join name entry) = false ->
  path_isdir w' (path_join name entry) = false.
Proof.
  unfold makedirs. intros H Hentry Hne Hdir.
  pose proof (path_join_longer name entry Hentry Hne) as Hlen.
  apply bind_inv in H as [([] & w1 & He & H) | (e & He & _)];
    [|apply emit_trace in He as ([=] & _)].
  apply emit_trace in He as (_ & _ & Hfs).
  apply (makedirs_from_same_beyond (String.length name)) in H; [|lia].
  rewrite path_isdir_spec in Hdir |- *.
  rewrite (os_key_path_join name entry Hentry Hne) in Hdir |- *.
  rewrite (H _ Hlen), Hfs. exact Hdir.
Qed.

Lemma mkdir_exist_ok_isdir name w w' :
  mkdir_exist_ok name w = (Ok tt, w') -> path_isdir w' name = true.
Proof.
  unfold mkdir_exist_ok, try_except.
  destruct (mkdir name w) as [[[]|e] w1] eqn:Hm.
  - intros [= <-].
    apply mkdir_inv in Hm as [(e & [=] & _) | (_ & Hne & _ & ->)].
    rewrite path_isdir_spec, Hne. cbn [fs with_fs andb].
    rewrite lookup_insert_eq. reflexivity.
  - destruct (path_isdir w1 name) eqn:Hd; [|discriminate].
    intros [= <-]. exact Hd.
Qed.

Lemma mkdir_exist_ok_fresh name w w' :
  os_key name = name -> fs w !! name = None ->
  mkdir_exist_ok name w = (Ok tt, w') -> fs w' !! name = Some (Dir []).
Proof.
  intros Hk Hnone. unfold mkdir_exist_ok, try_except.
  destruct (mkdir name w) as [[[]|e] w1] eqn:Hm.
  - intros [= <-].
    apply mkdir_inv in Hm as [(e & [=] & _) | (_ & _ & _ & ->)].
    cbn [fs with_fs]. rewrite Hk. apply lookup_insert_eq.
  - apply mkdir_inv in Hm as [(e' & _ & ->) | ([=] & _)].
    rewrite path_isdir_spec, Hk, Hnone, andb_false_r. discriminate.
Qed.

(** The steps of [os.makedirs] on a name that ends in an entry name other
    than the dot: the directories above it, when the one next above is
    missing, and then [os.mkdir] on the name itself. *)
Lemma makedirs_from_last_step fuel name w r w' :
  nonempty (path_basename name) = true -> path_basename name <> "." ->
  makedirs_from fuel name w = (r, w') ->
  exists w1,
    same_beyond (String.length name - 1) w w1 /\
    trace w1 = trace w /\
    ((exists e, r = Raise e /\ w' = w1) \/ mkdir_exist_ok name w1 = (r, w')).
Proof.
  intros Hne Hdot.
  assert (exists head, path_split name = (head, path_basename name)) as [head Hs]
    by (exists (fst (path_split name)); reflexivity).
  pose proof (path_split_length name) as Hlen. rewrite Hs in Hlen.
  cbn [fst snd] in Hlen. pose proof (nonempty_length _ Hne) as Hlen'.
  assert (forall w1, mkdir_exist_ok name w = (r, w1) ->
            exists w2, same_beyond (String.length name - 1) w w2 /\
                       trace w2 = trace w /\
                       ((exists e, r = Raise e /\ w1 = w2)
                        \/ mkdir_exist_ok name w2 = (r, w1))) as Hplain.
  { intros w1 H. exists w. split; [reflexivity|]. split; [reflexivity|]. auto. }
  destruct fuel as [|fuel]; cbn [makedirs_from]; rewrite Hs, Hne;
    rewrite (bind_ok _ _ w w w) by reflexivity;
    destruct (nonempty head && nonempty (path_basename name)
              && negb (path_exists w head));
    try exact (Hplain w').
  destruct (String.eqb_spec (path_basename name) ".") as [|_]; [contradiction|].
  intros H.
  apply bind_inv in H as [([] & w1 & H1 & H) | (e & H1 & ->)].
  - exists w1. split; [|split; [|right; exact H]].
    + eapply (keeps_try_except (same_beyond (String.length name - 1))); [| |exact H1].
      * apply makedirs_from_same_beyond. lia.
      * intros e. cbv beta. destruct (exn_class_of e);
          first [apply keeps_ret; typeclasses eauto
                | apply keeps_lift; typeclasses eauto].
    + eapply (keeps_try_except same_trace); [| |exact H1].
      * apply makedirs_from_same_trace.
      * intros e. cbv beta. destruct (exn_class_of e);
          first [apply keeps_ret; typeclasses eauto
                | apply keeps_lift; typeclasses eauto].
  - exists w'. split; [|split; [|left; eauto]].
    + eapply (keeps_try_except (same_beyond (String.length name - 1))); [| |exact H1].
      * apply makedirs_from_same_beyond. lia.
      * intros e0. cbv beta. destruct (exn_class_of e0);
          first [apply keeps_ret; typeclasses eauto
                | apply keeps_lift; typeclasses eauto].
    + eapply (keeps_try_except same_trace); [| |exact H1].
      * apply makedirs_from_same_trace.
      * intros e0. cbv beta. destruct (exn_class_of e0);
          first [apply keeps_ret; typeclasses eauto
                | apply keeps_lift; typeclasses eauto].
Qed.

(** When [os.makedirs] returns, the directory is there. *)
Lemma makedirs_isdir name w w' :
  nonempty (path_basename name) = true -> path_basename name <> "." ->
  makedirs name w = (Ok tt, w') -> path_isdir w' name = true.
Proof.
  unfold makedirs. intros Hne Hdot H.
  apply bind_inv in H as [([] & w0 & _ & H) | (e & _ & [=])].
  apply makedirs_from_last_step in H as (w1 & _ & _ & [(e & [=] & _) | H]);
    [|exact Hne | exact Hdot].
  exact (mkdir_exist_ok_isdir _ _ _ H).
Qed.

(** A directory that [os.makedirs] had to make comes out empty. *)
Lemma makedirs_fresh name w w' :
  nonempty (path_basename name) = true -> path_basename name <> "." ->
  os_key name = name -> fs w !! name = None ->
  makedirs name w = (Ok tt, w') ->
  fs w' !! name = Some (Dir []).
Proof.
  unfold makedirs. intros Hne Hdot Hk Hnone H.
  apply bind_inv in H as [([] & w0 & He & H) | (e & _ & [=])].
  apply emit_trace in He as (_ & _ & Hfs).
  apply makedirs_from_last_step in H as (w1 & Hsame & _ & [(e & [=] & _) | H]);
    [|exact Hne | exact Hdot].
  apply (mkdir_exist_ok_fresh name w1 w' Hk); [|exact H].
  rewrite (Hsame name), Hfs; [exact Hnone|].
  pose proof (path_split_length name) as Hlen.
  change (snd (path_split name)) with (path_basename name) in Hlen.
  pose proof (nonempty_length _ Hne). lia.
Qed.

Lemma list_getitem_elem (l : list string) (i : Z) x :
  list_getitem l i = Ok x -> x ∈ l.
Proof.
  unfold list_getitem. cbv zeta. destruct (_ || _); [discriminate|].
  destruct (l !! _) as [y|] eqn:Hy; [|discriminate].
  intros [= <-]. exact (list_elem_of_lookup_2 _ _ _ Hy).
Qed.

(** What [copy_call] says about the copy of a frame. *)
Lemma copy_call_inv files out (f : nat * Z) src dst :
  copy_call files out f = Some (EvCopy src dst) ->
  exists name,
    list_getitem files (snd f) = Ok src /\
    renumber (path_basename src) (fst f) = Ok name /\
    dst = path_join out name /\
    no_char "/" name = true /\ name <> "".
Proof.
  unfold copy_call.
  destruct (list_getitem files (snd f)) as [src0|] eqn:Hsrc; [|discriminate].
  destruct (renumber (path_basename src0) (fst f)) as [name|] eqn:Hname;
    [|discriminate].
  intros [= <- <-]. exists name. split; [reflexivity|]. split; [exact Hname|].
  split; [reflexivity|]. split.
  - exact (renumber_no_slash _ _ _ (path_basename_no_slash src0) Hname).
  - exact (renumber_not_empty _ _ _ Hname).
Qed.

(** X16. A real run that succeeds on a folder whose listed frame files exist,
    writing into an output folder that holds nothing yet, leaves under the
    output folder one file for each position of the kept range: the file
    with the renumbered name of position [i] holds what frame
    [start_frame + i] of the sorted frame list holds. Every file that
    existed before the run is still there with the same content. *)
Theorem real_run_output_contents kf mf ob w d w' :
  process_sign_folder kf mf ob false w = (Ok d, w') ->
  get_truthy d "success" = true ->
  let files := sorted (glob w (path_join kf "*_keypoints.json")) in
  let out := path_join ob (path_basename kf) in
  Forall (fun src => path_exists w src = true) files ->
  (forall entry, no_char "/" entry = true -> fs w !! path_join out entry = None) ->
  (exists s e,
     d !! "start_frame" = Some (VInt s) /\
     d !! "end_frame" = Some (VInt e) /\
     forall i, (i < Z.to_nat (e - s + 1))%nat ->
       exists src name data,
         files !! (Z.to_nat s + i)%nat = Some src /\
         renumber (path_basename src) i = Ok name /\
         fs w !! src = Some (File data) /\
         fs w' !! path_join out name = Some (File data)) /\
  (forall q data, fs w !! q = Some (File data) -> fs w' !! q = Some (File data)).
Proof.
  intros H Hok. apply process_sign_folder_run in H.
  inversion H as [Hv|Hv Hs|word view Hv Hs Hg
                  |word view f rest r0 w0 Hv Hs Hg Ht]; subst;
    try discriminate.
  inversion Ht as [Hf|e0 Hne Hl| | | |st et du s e w1 k w2 Hne Hl Hr Hm Hc];
    subst; try discriminate.
  cbv zeta. intros Hexist Hfresh.
  pose proof (get_frame_range_clamped _ _ _ _ _ _ _ Hr) as [Hs0 He0].
  set (files := sorted (glob w (path_join kf "*_keypoints.json"))) in *.
  set (out := path_join ob (path_basename kf)) in *.
  pose proof (makedirs_same_files _ _ _ _ Hm) as Hsame.
  destruct (copy_frames_contents _ _ _ _ _ _ _ Hc) as (_ & Hfiles & Hall).
  { intros fr src dst _ Hcall.
    apply copy_call_inv in Hcall as (name & _ & _ & -> & Hname & Hne').
    eapply makedirs_not_below; [exact Hm | exact Hname | exact Hne'|].
    rewrite path_isdir_spec, (os_key_path_join _ _ Hname Hne'), (Hfresh name Hname).
    apply andb_false_r. }
  { intros fr fr' src dst src' dst' _ _ Hcall Hcall' Heq.
    apply copy_call_inv in Hcall as (name & Hsrc & _).
    apply copy_call_inv in Hcall' as (name' & _ & _ & -> & Hname' & Hne').
    apply list_getitem_elem in Hsrc.
    rewrite Forall_forall in Hexist. specialize (Hexist _ Hsrc).
    rewrite path_exists_spec, Heq, (os_key_path_join _ _ Hname' Hne'),
      (Hfresh name' Hname'), andb_false_r in Hexist.
    discriminate Hexist. }
  { intros i j fr fr' src dst src' dst' Hi Hj Hcall Hcall' Heq.
    apply enumerate_lookup in Hi as [Hi _]. apply enumerate_lookup in Hj as [Hj _].
    apply copy_call_inv in Hcall as (name & _ & Hren & -> & Hname & _).
    apply copy_call_inv in Hcall' as (name' & _ & Hren' & -> & Hname' & _).
    apply (f_equal path_basename) in Heq.
    rewrite !path_basename_join in Heq by assumption. subst name'.
    rewrite <- Hi, <- Hj. exact (renumber_position _ _ _ _ _ Hren Hren'). }
  split.
  - exists s, e. split; [reflexivity|]. split; [reflexivity|].
    intros i Hi.
    assert (i < length (enumerate (py_range s (e + 1))))%nat as Hlen
      by (rewrite enumerate_length, py_range_length; exact Hi).
    destruct (lookup_lt_is_Some_2 _ _ Hlen) as [fr Hfr].
    destruct (Hall fr (list_elem_of_lookup_2 _ _ _ Hfr))
      as (src & dst & data & Hcall & Hdata & Hdst).
    apply enumerate_lookup in Hfr as [Hfst Hfr].
    apply py_range_lookup in Hfr as [Hidx _].
    apply copy_call_inv in Hcall as (name & Hsrc & Hren & -> & _).
    rewrite Hidx in Hsrc. rewrite Hfst in Hren.
    exists src, name, data. split; [|split; [exact Hren|split; [|exact Hdst]]].
    + apply list_getitem_lookup in Hsrc; [|lia].
      replace (Z.to_nat s + i)%nat with (Z.to_nat (s + Z.of_nat i)) by lia.
      exact Hsrc.
    + apply Hsame. exact Hdata.
  - intros q data Hq. apply Hfiles; [|apply Hsame; exact Hq].
    intros fr src dst _ Hcall <-.
    apply copy_call_inv in Hcall as (name & _ & _ & -> & Hname & _).
    rewrite (Hfresh name Hname) in Hq. discriminate Hq.
Qed.

Lemma real_run_output_contents_witness :
  let w' := snd (process_sign_folder (path_join kp01 w1_name) mo01 "/out/01"
                   false plain) in
  let d := success_dict w1_name 25 2 23 (ratio 12 10) (ratio 13 10) in
  let files := sorted (glob plain
                         (path_join (path_join kp01 w1_name) "*_keypoints.json")) in
  let out := path_join "/out/01" (path_basename (path_join kp01 w1_name)) in
  (exists s e,
     d !! "start_frame" = Some (VInt s) /\
     d !! "end_frame" = Some (VInt e) /\
     forall i, (i < Z.to_nat (e - s + 1))%nat ->
       exists src name data,
         files !! (Z.to_nat s + i)%nat = Some src /\
         renumber (path_basename src) i = Ok name /\
         fs plain !! src = Some (File data) /\
         fs w' !! path_join out name = Some (File data)) /\
  (forall q data, fs plain !! q = Some (File data) -> fs w' !! q = Some (File data)).
Proof.
  destruct (process_sign_folder (path_join kp01 w1_name) mo01 "/out/01" false plain)
    as [r w'] eqn:E.
  assert (r = Ok (success_dict w1_name 25 2 23 (ratio 12 10) (ratio 13 10))) as ->.
  { change r with (fst (r, w')). rewrite <- E. by_evaluation. }
  apply (real_run_output_contents _ _ _ _ _ _ E eq_refl).
  - eapply (bool_decide_unpack _). vm_compute. exact I.
  - intros entry Hentry.
    assert (map_Forall (fun (k : string) (_ : node) => String.prefix "/out/" k = false)
              (fs plain)) as Hkeys
      by (eapply (bool_decide_unpack _); vm_compute; exact I).
    destruct (fs plain !! _) as [nd|] eqn:Hnd; [exfalso | reflexivity].
    apply (map_Forall_lookup_1 _ _ _ _ Hkeys) in Hnd.
    unfold path_join in Hnd at 1.
    rewrite (startswith_no_char "/" entry Hentry) in Hnd.
    discriminate Hnd.
Defined.

(** ** Enough fuel *)

(** The functions that follow a pattern or a path down to its first
    component take the length of their argument as fuel; more fuel changes
    nothing. *)

Lemma glob_tokens_fuel_any fuel1 fuel2 pat :
  (length pat <= fuel1)%nat -> (length pat <= fuel2)%nat ->
  glob_tokens fuel1 pat = glob_tokens fuel2 pat.
Proof.
  revert fuel2 pat. induction fuel1 as [|fuel1 IH]; intros fuel2 pat H1 H2.
  { destruct pat; [|cbn in H1; lia]. destruct fuel2; reflexivity. }
  destruct pat as [|c pat]; [destruct fuel2; reflexivity|].
  destruct fuel2 as [|fuel2]; [cbn in H2; lia|].
  cbn [length] in H1, H2. cbn [glob_tokens].
  rewrite (IH fuel2 pat) by lia.
  destruct (class_close pat) as [j|]; [|reflexivity].
  pose proof (length_drop pat (S j)).
  rewrite (IH fuel2 (drop (S j) pat)) by lia.
  reflexivity.
Qed.

Lemma glob_tokens_fuel fuel pat :
  (length pat <= fuel)%nat -> glob_tokens fuel pat = glob_tokens (length pat) pat.
Proof. intros H. apply glob_tokens_fuel_any; [exact H | lia]. Qed.

Lemma rstrip_same_length c s :
  String.length (rstrip c s) = String.length s -> rstrip c s = s.
Proof.
  induction s as [|a s IH]; [reflexivity|]. cbn [rstrip].
  pose proof (rstrip_length c s) as Hlen.
  destruct (rstrip c s) as [|b r] eqn:Hr.
  - destruct (Ascii.eqb a c); cbn [String.length] in *; intros H;
      [lia|]. destruct s; [reflexivity | cbn [String.length] in H; lia].
  - cbn [String.length] in *. intros H. rewrite IH by lia. reflexivity.
Qed.

Lemma append_empty_r (s : string) : s +:+ "" = s.
Proof.
  induction s as [|a s IH]; [reflexivity|].
  change (String a s +:+ "") with (String a (s +:+ "")). rewrite IH. reflexivity.
Qed.

(** The directory part [os.path.split] returns is shorter than the path,
    unless it is the path. *)
Lemma path_split_head_shorter p :
  fst (path_split p) <> p ->
  (String.length (fst (path_split p)) < String.length p)%nat.
Proof.
  pose proof (split_on_rebuild "/" p) as Hp.
  unfold path_split. cbv zeta. cbn [fst].
  change (String "/" "") with "/" in Hp.
  set (raw := match List.removelast (split_on "/" p) with
              | [] => ""
              | front => join "/" front +:+ "/"
              end) in *.
  set (tail := List.last (split_on "/" p) "") in *.
  pose proof (rstrip_length "/" raw) as Hr.
  pose proof (f_equal String.length Hp) as Hlen. rewrite length_append in Hlen.
  intros Hne.
  destruct (Nat.eq_dec (String.length tail) 0%nat) as [Ht|Ht].
  - assert (tail = "") as Htail by (destruct tail; [reflexivity | discriminate Ht]).
    rewrite Htail, append_empty_r in Hp.
    destruct (nonempty (rstrip "/" raw)).
    + destruct (Nat.eq_dec (String.length (rstrip "/" raw)) (String.length raw))
        as [Heq|Hneq]; [|lia].
      apply rstrip_same_length in Heq. rewrite Heq in Hne. congruence.
    + congruence.
  - destruct (nonempty (rstrip "/" raw)); lia.
Qed.

(** Where [os.makedirs] goes on to the directory above, that name is
    shorter. *)
Lemma makedirs_head_shorter name head tail :
  (let '(head0, tail0) := path_split name in
   if nonempty tail0 then (head0, tail0) else path_split head0) = (head, tail) ->
  nonempty tail = true ->
  (String.length head < String.length name)%nat.
Proof.
  pose proof (path_split_length name) as Hlen.
  destruct (path_split name) as [head0 tail0]. cbn [fst snd] in Hlen.
  destruct (nonempty tail0) eqn:Ht0.
  - intros [= <- <-] _. apply nonempty_length in Ht0. lia.
  - intros Hs Ht. pose proof (path_split_length head0) as Hlen0.
    rewrite Hs in Hlen0. cbn [fst snd] in Hlen0.
    apply nonempty_length in Ht. lia.
Qed.

Lemma makedirs_from_fuel_any fuel1 fuel2 name w :
  (String.length name <= fuel1)%nat -> (String.length name <= fuel2)%nat ->
  makedirs_from fuel1 name w = makedirs_from fuel2 name w.
Proof.
  revert fuel2 name w.
  induction fuel1 as [|fuel1 IH]; intros fuel2 name w H1 H2.
  - assert (name = "") as -> by (destruct name; [reflexivity | cbn in H1; lia]).
    destruct fuel2; reflexivity.
  - destruct fuel2 as [|fuel2].
    { assert (name = "") as -> by (destruct name; [reflexivity | cbn in H2; lia]).
      reflexivity. }
    cbn [makedirs_from].
    pose proof (makedirs_head_shorter name) as Hshort.
    destruct (path_split name) as [head0 tail0].
    destruct (if nonempty tail0 then (head0, tail0) else path_split head0)
      as [head tail].
    specialize (Hshort head tail eq_refl).
    rewrite !(bind_ok _ _ w w w) by reflexivity.
    destruct (nonempty head); [|reflexivity].
    destruct (nonempty tail); [|reflexivity].
    destruct (negb (path_exists w head)); [|reflexivity].
    cbn [andb]. specialize (Hshort eq_refl).
    unfold mbind, M_bind, try_except.
    rewrite (IH fuel2 head w) by lia. reflexivity.
Qed.

Lemma makedirs_from_fuel fuel name w :
  (String.length name <= fuel)%nat ->
  makedirs_from fuel name w = makedirs_from (String.length name) name w.
Proof. intros H. apply makedirs_from_fuel_any; [exact H | lia]. Qed.

Lemma iglob_fuel_any fuel1 fuel2 w pathname dironly :
  (String.length pathname <= fuel1)%nat -> (String.length pathname <= fuel2)%nat ->
  iglob fuel1 w pathname dironly = iglob fuel2 w pathname dironly.
Proof.
  revert fuel2 pathname dironly.
  induction fuel1 as [|fuel1 IH]; intros fuel2 pathname dironly H1 H2.
  - assert (pathname = "") as ->
      by (destruct pathname; [reflexivity | cbn in H1; lia]).
    destruct fuel2; reflexivity.
  - destruct fuel2 as [|fuel2].
    { assert (pathname = "") as ->
        by (destruct pathname; [reflexivity | cbn in H2; lia]).
      reflexivity. }
    cbn [iglob].
    pose proof (path_split_head_shorter pathname) as Hshort.
    destruct (path_split pathname) as [dirname basename]. cbn [fst] in Hshort.
    destruct (negb (has_magic pathname)); [reflexivity|].
    destruct (negb (nonempty dirname)); [reflexivity|].
    destruct (String.eqb_spec dirname pathname) as [Heq|Hne]; cbn [negb andb];
      [reflexivity|].
    destruct (has_magic dirname); [|reflexivity].
    specialize (Hshort Hne).
    rewrite (IH fuel2 dirname true) by lia. reflexivity.
Qed.

Lemma iglob_fuel fuel w pathname dironly :
  (String.length pathname <= fuel)%nat ->
  iglob fuel w pathname dironly
  = iglob (String.length pathname) w pathname dironly.
Proof. intros H. apply iglob_fuel_any; [exact H | lia]. Qed.

Lemma under_file_fuel_any fuel1 fuel2 w key :
  (String.length key <= fuel1)%nat -> (String.length key <= fuel2)%nat ->
  under_file fuel1 w key = under_file fuel2 w key.
Proof.
  revert fuel2 key.
  induction fuel1 as [|fuel1 IH]; intros fuel2 key H1 H2.
  - assert (key = "") as -> by (destruct key; [reflexivity | cbn in H1; lia]).
    destruct fuel2; [reflexivity|]. cbn [under_file].
    change (parent_key "") with "".
    destruct (fs w !! "") as [[]|]; reflexivity.
  - destruct fuel2 as [|fuel2].
    { assert (key = "") as -> by (destruct key; [reflexivity | cbn in H2; lia]).
      cbn [under_file]. change (parent_key "") with "".
      destruct (fs w !! "") as [[]|]; reflexivity. }
    cbn [under_file].
    destruct (fs w !! parent_key key) as [[]|]; try reflexivity.
    destruct (String.eqb_spec (parent_key key) key) as [Heq|Hne]; [reflexivity|].
    cbn [negb andb].
    assert (String.length (parent_key key) < String.length key)%nat as Hshort.
    { unfold parent_key in *.
      pose proof (os_key_length (fst (path_split key))).
      destruct (String.eqb_spec (fst (path_split key)) key) as [Hk|Hk].
      - rewrite Hk in *.
        destruct (Nat.eq_dec (String.length (os_key key)) (String.length key))
          as [Hl|Hl]; [|lia].
        exfalso. apply Hne. unfold os_key in Hl |- *.
        destruct (nonempty (rstrip "/" key)).
        + apply rstrip_same_length. exact Hl.
        + destruct (nonempty key); [|destruct key; [reflexivity | discriminate]].
          destruct key as [|a [|b key]]; cbn in Hl; try lia.
          pose proof (path_split_length (String a "")) as Hs.
          rewrite Hk in Hs. cbn [fst String.length] in Hs.
          assert (snd (path_split (String a "")) = "") as Hsnd
            by (destruct (snd (path_split (String a ""))); [reflexivity | cbn in Hs; lia]).
          unfold path_split in Hsnd. cbv zeta in Hsnd. cbn [snd] in Hsnd.
          cbn [split_on] in Hsnd.
          destruct (Ascii.eqb_spec a "/") as [->|Ha]; [reflexivity|].
          cbn in Hsnd. discriminate Hsnd.
      - pose proof (path_split_head_shorter key Hk). lia. }
    apply IH; lia.
Qed.

(** ** Runs over an inverted range *)

(** A folder whose kept range comes out inverted: the Folder Processor
    makes the output directory, in a real run, and goes straight to the
    success outcome. *)
Lemma inverted_range_run kf mf ob dry w word view morpheme_file others st et du s e :
  contains "_F" (path_basename kf) = true ->
  scan_parts (split_on "_" (path_basename kf)) = (Some word, Some view) ->
  glob w (morpheme_pattern_of mf word view) = morpheme_file :: others ->
  (Z.of_nat (length (sorted (glob w (path_join kf "*_keypoints.json")))) =? 0)
    = false ->
  load_morpheme_data w morpheme_file = Ok (st, et, du) ->
  get_frame_range st et du
    (Z.of_nat (length (sorted (glob w (path_join kf "*_keypoints.json")))))
    default_offset = Ok (s, e) ->
  e < s ->
  process_sign_folder kf mf ob dry w
  = ((if negb dry then makedirs (path_join ob (path_basename kf)) else mret tt) ;;
     mret (success_dict (path_basename kf)
             (Z.of_nat (length (sorted (glob w (path_join kf "*_keypoints.json")))))
             s e st et)) w.
Proof.
  intros Hview Hscan Hglob Hfiles Hload Hrange Hinv.
  unfold process_sign_folder. rewrite Hview, Hscan. cbn [negb].
  rewrite (bind_ok _ _ w w w) by reflexivity. cbv zeta. rewrite Hglob.
  unfold trim_folder.
  rewrite (bind_ok _ _ w w w) by reflexivity. cbv zeta.
  rewrite Hfiles, Hload, Hrange.
  rewrite (bind_ok _ _ w w (s, e)) by reflexivity.
  rewrite py_range_empty by exact Hinv.
  unfold mbind, M_bind.
  destruct ((if negb dry then makedirs (path_join ob (path_basename kf))
             else mret tt) w) as [[[]|ex] w1]; reflexivity.
Qed.



(** ** The output directory *)

Lemma marked_name_not_empty name :
  contains "_F" name = true -> nonempty name = true /\ name <> ".".
Proof.
  intros H. split.
  - destruct name; [discriminate H | reflexivity].
  - intros ->. discriminate H.
Qed.

(** C10, as the code has it. In a real run the call that creates the output
    directory comes before every copy. On a folder whose kept range is
    empty, if that call returns then the run returns a success outcome, the
    output directory exists, the creation was the only call with an effect,
    no regular file was added or changed, and a directory that was not
    there before is empty. *)
Theorem output_directory_before_copies kf mf ob w :
  let out := path_join ob (path_basename kf) in
  let keypoint_files := sorted (glob w (path_join kf "*_keypoints.json")) in
  let total_frames := Z.of_nat (length keypoint_files) in
  (forall r w',
     process_sign_folder kf mf ob false w = (r, w') ->
     trace w' = trace w \/
     exists copies,
       trace w' = trace w ++ EvMakedirs out :: copies /\ Forall is_copy copies) /\
  (forall word view morpheme_file others st et du s e w1,
     contains "_F" (path_basename kf) = true ->
     scan_parts (split_on "_" (path_basename kf)) = (Some word, Some view) ->
     glob w (morpheme_pattern_of mf word view) = morpheme_file :: others ->
     (total_frames =? 0) = false ->
     load_morpheme_data w morpheme_file = Ok (st, et, du) ->
     get_frame_range st et du total_frames default_offset = Ok (s, e) ->
     e < s ->
     makedirs out w = (Ok tt, w1) ->
     let d := success_dict (path_basename kf) total_frames s e st et in
     process_sign_folder kf mf ob false w = (Ok d, w1) /\
     d !! "success" = Some (VBool true) /\
     path_isdir w1 out = true /\
     trace w1 = trace w ++ [EvMakedirs out] /\
     same_files w w1 /\
     (path_exists w out = false -> fs w1 !! out = Some (Dir []))).
Proof.
  cbv zeta. split.
  - intros r w' H.
    apply process_sign_folder_inv in H as [(d & _ & _ & ->) | (f & H)]; [auto|].
    apply trim_folder_inv in H as [(msg & _ & ->) | (st & et & du & _ & H)];
      [auto|].
    destruct (get_frame_range _ _ _ _ _) as [[s e]|ex]; [|destruct H as [_ ->]; auto].
    destruct H as (r1 & w1 & H1 & H). cbn [negb] in H1.
    apply makedirs_trace in H1. right.
    destruct r1 as [[]|ex].
    + destruct H as (r2 & H2 & _).
      apply copy_frames_emits in H2 as (t & Ht & Ft).
      exists t. rewrite Ht, H1, <- app_assoc. auto.
    + destruct H as [_ ->]. exists []. auto.
  - intros word view morpheme_file others st et du s e w1
      Hview Hscan Hglob Hfiles Hload Hrange Hinv Hm.
    pose proof (marked_name_not_empty _ Hview) as [Hne Hdot].
    pose proof (path_basename_no_slash kf) as Hslash.
    assert (path_basename kf <> "") as Hne'
      by (intros Heq; rewrite Heq in Hne; discriminate Hne).
    split; [|split; [reflexivity|split; [|split; [|split]]]].
    + rewrite (inverted_range_run _ _ _ _ _ _ _ _ _ _ _ _ _ _
                 Hview Hscan Hglob Hfiles Hload Hrange Hinv).
      cbn [negb]. unfold mbind, M_bind. rewrite Hm. reflexivity.
    + apply (makedirs_isdir _ w); [| |exact Hm];
        rewrite (path_basename_join _ _ Hslash); assumption.
    + exact (makedirs_trace _ _ _ _ Hm).
    + exact (makedirs_same_files _ _ _ _ Hm).
    + intros Hnew.
      apply (makedirs_fresh _ w); [| | |  | exact Hm];
        try (rewrite (path_basename_join _ _ Hslash); assumption).
      * exact (os_key_path_join _ _ Hslash Hne').
      * rewrite path_exists_spec, (os_key_path_join _ _ Hslash Hne') in Hnew.
        unfold wants_dir in Hnew.
        rewrite (os_key_path_join _ _ Hslash Hne'), String.eqb_refl in Hnew.
        destruct (fs w !! path_join ob (path_basename kf)) as [[]|];
          [| |reflexivity];
          destruct (nonempty (path_join ob (path_basename kf))) eqn:Hout;
          try discriminate Hnew;
          pose proof (path_join_longer ob _ Hslash Hne');
          destruct (path_join ob (path_basename kf)); cbn in *;
          first [lia | discriminate].
Qed.

Lemma output_directory_before_copies_witness :
  let out := "/out/01/NIA_SL_WORD0001_REAL02_F" in
  let run := process_sign_folder (path_join kp01 w1_name) mo01 "/out/01"
               false inverted_fresh in
  fst run = Ok (success_dict w1_name 25 14 11 (ratio 24 10) (ratio 1 10)) /\
  path_isdir (snd run) out = true /\
  trace (snd run) = [EvMakedirs out] /\
  fs (snd run) !! out = Some (Dir []).
Proof.
  cbv zeta.
  destruct (makedirs (path_join "/out/01" (path_basename (path_join kp01 w1_name)))
              inverted_fresh) as [r1 w1] eqn:Hm.
  assert (r1 = Ok tt) as ->.
  { change r1 with (fst (r1, w1)). rewrite <- Hm. by_evaluation. }
  pose proof (proj2 (output_directory_before_copies
                       (path_join kp01 w1_name) mo01 "/out/01" inverted_fresh)
                "WORD0001" "F"
                (path_join mo01 "NIA_SL_WORD0001_REAL02_F_morpheme.json") []
                (ratio 24 10) (ratio 1 10) (ratio 25 10) 14 11 w1) as H.
  cbv zeta in H. do 6 premise H by_evaluation. premise H lia.
  specialize (H Hm).
  destruct H as (Hrun & _ & Hdir & Htrace & _ & Hempty).
  rewrite Hrun. cbn [fst snd].
  split; [reflexivity|]. split; [exact Hdir|]. split; [exact Htrace|].
  apply Hempty. by_evaluation.
Defined.

(** C10, as stated, fails in two ways. An output directory left by an
    earlier run keeps its content, so the folder does not end with an empty
    directory; and when the directory cannot be created the run raises and
    leaves neither a directory nor a success outcome. *)
Lemma empty_range_directory_not_always_empty :
  let out := "/out/01/NIA_SL_WORD0001_REAL02_F" in
  let run w := process_sign_folder (path_join kp01 w1_name) mo01 "/out/01" false w in
  (fst (run inverted)
     = Ok (success_dict w1_name 25 14 11 (ratio 24 10) (ratio 1 10)) /\
   fs (snd (run inverted)) !! out = Some (Dir ["old.json"])) /\
  (fst (run inverted_locked)
     = Raise (Exn PermissionError "[Errno 13] Permission denied: '/out/01'") /\
   path_exists (snd (run inverted_locked)) out = false).
Proof. cbv beta zeta. split; split; by_evaluation. Qed.

(** ** A worker count below one *)

(** X17. A configured worker count below one stops a parallel real run at
    the creation of the pool: once the WORD directory is listed, the pool
    is refused with a ValueError, no folder is processed, no report is
    written and nothing on disk has changed. *)
Theorem worker_count_below_one_stops_the_run dr ob elp n w names :
  listdir w (keypoint_base_of dr) = Ok names ->
  n < 1 ->
  exists w',
    process_dataset dr ob false elp true (Some n) w
    = (Raise (Exn ValueError "Number of processes must be at least 1"), w') /\
    trace w' = trace w ++ [EvPool n] /\ fs w' = fs w.
Proof.
  intros Hls Hn. unfold process_dataset.
  rewrite (bind_ok _ _ w w w) by reflexivity.
  change (foldl path_join dr ["Training"; "Labeled"; "REAL"; "WORD"])
    with (keypoint_base_of dr).
  cbv zeta. rewrite Hls.
  rewrite (bind_ok _ _ w w names) by reflexivity.
  cbn [andb negb].
  destruct (pool_open n w) as [rp wp] eqn:Hp.
  pose proof (pool_open_inv _ _ _ _ Hp) as (Htrace & Hfs & _).
  assert (rp = Raise (Exn ValueError "Number of processes must be at least 1"))
    as ->.
  { revert Hp. unfold pool_open. intros Hp.
    apply bind_inv in Hp as [([] & w0 & _ & Hp) | (e & He & _)];
      [|apply emit_trace in He as ([=] & _)].
    apply Z.ltb_lt in Hn. rewrite Hn in Hp. injection Hp as <- _. reflexivity. }
  exists wp. split; [|auto].
  erewrite bind_raise; [reflexivity|].
  erewrite bind_raise; [reflexivity|]. exact Hp.
Qed.

Lemma worker_count_below_one_stops_the_run_witness :
  exists w',
    process_dataset "/data" "/out" false (Some "/data/errors.log") true (Some 0) plain
    = (Raise (Exn ValueError "Number of processes must be at least 1"), w') /\
    trace w' = trace plain ++ [EvPool 0] /\ fs w' = fs plain.
Proof.
  apply (worker_count_below_one_stops_the_run "/data" "/out"
           (Some "/data/errors.log") 0 plain ["morpheme"; "01"]);
    [reflexivity | lia].
Defined.
